(** * image-downloader: link extraction, download pipeline, image
      normalisation and upload manifest

    A shallow embedding of [libs/image_manager.py] (class [ImageManager]) and
    of [libs/azure_manager.py] (method [_generate_csv_from_files]), followed by
    the properties of the specification that were checked against them.

    Python values are embedded as follows: [int] as [Z], [str] as [string],
    a two-element list [[name, link]] as a pair, a list as [list], an insertion
    ordered [dict] as an association list, a raised exception as the [Raise]
    branch of [Result]. *)

From Stdlib Require Import ZArith List String Ascii Bool Lia.
From Stdlib Require Import DecimalString.
From Stdlib Require DecimalZ Permutation.
Import ListNotations.

Local Open Scope string_scope.
Local Open Scope list_scope.
Local Open Scope Z_scope.

(** String concatenation (Python's [+] on [str]); [++] is kept for lists. *)
Infix "+:+" := String.append (at level 60, right associativity).

(** ** Python built-ins used by the two modules *)

Module Py.

(** [str(n)] for an [int]. *)
Definition str (n : Z) : string := NilEmpty.string_of_int (Z.to_int n).

(** [s.startswith(p)]. *)
Fixpoint startswith (p s : string) : bool :=
  match p, s with
  | EmptyString, _ => true
  | String _ _, EmptyString => false
  | String a p', String b s' => Ascii.eqb a b && startswith p' s'
  end.

(** [sub in s] for two strings. *)
Fixpoint contains (sub s : string) : bool :=
  startswith sub s
  || match s with
     | EmptyString => false
     | String _ s' => contains sub s'
     end.

(** [s.split(c)] for a one-character separator [c]; never empty. *)
Fixpoint split (c : ascii) (s : string) : list string :=
  match s with
  | EmptyString => [EmptyString]
  | String a s' =>
      if Ascii.eqb a c then EmptyString :: split c s'
      else match split c s' with
           | h :: t => String a h :: t
           | [] => [String a EmptyString]
           end
  end.

(** [l[0]] and [l[-1]] on the result of [split] (which is never empty). *)
Definition first (l : list string) : string := hd EmptyString l.
Definition last (l : list string) : string := List.last l EmptyString.

(** [s.replace(old, new)] for a non-empty [old]: occurrences are found
    left to right and do not overlap.  [skip] counts the characters of an
    occurrence that remain to be dropped. *)
Fixpoint replace_from (old new : string) (skip : nat) (s : string) : string :=
  match s with
  | EmptyString => EmptyString
  | String a s' =>
      match skip with
      | S k => replace_from old new k s'
      | O =>
          if startswith old s
          then new +:+ replace_from old new (Nat.pred (String.length old)) s'
          else String a (replace_from old new O s')
      end
  end.

(** With an empty [old] Python inserts [new] before every character and at
    the end. *)
Fixpoint intersperse (new s : string) : string :=
  match s with
  | EmptyString => new
  | String a s' => new +:+ String a (intersperse new s')
  end.

Definition replace (old new s : string) : string :=
  match old with
  | EmptyString => intersperse new s
  | String _ _ => replace_from old new O s
  end.

End Py.

(** ** Exceptions *)

(** The exception classes that the code names or can meet.  [HTTPError] is
    [urllib.error.HTTPError(url, code, msg, hdrs, fp)]; [OtherException]
    stands for any class that no handler of the program names (for instance a
    transport fault raised by the HTTP client). *)
Inductive Exception : Type :=
| IndexError
| FileNotFoundError
| UnicodeEncodeError
| UnidentifiedImageError
| HTTPError (url : string) (code : Z) (msg : string)
| socket_timeout
| OtherException (name : string).

(** [str(err)] for an [HTTPError]: ['HTTP Error %s: %s' % (code, msg)]. *)
Definition str_of_exception (e : Exception) : string :=
  match e with
  | HTTPError _ code msg => "HTTP Error " +:+ Py.str code +:+ ": " +:+ msg
  | IndexError => "list index out of range"
  | FileNotFoundError => "No such file or directory"
  | UnicodeEncodeError => "UnicodeEncodeError"
  | UnidentifiedImageError => "cannot identify image file"
  | socket_timeout => "timed out"
  | OtherException name => name
  end.

Inductive Result (A : Type) : Type :=
| Return (a : A)
| Raise (e : Exception).
Arguments Return {A} a.
Arguments Raise {A} e.

(** [ValueError], which no handler of the program names. *)
Definition ValueError : Exception := OtherException "ValueError".

(** A call that may raise, followed by another one on its result. *)
Definition and_then {A B : Type} (r : Result A) (k : A -> Result B)
  : Result B :=
  match r with
  | Return a => k a
  | Raise e => Raise e
  end.

(** ** Link extractor: [ImageManager._return_links] *)

Module Links.

(** A work item [[img_name, link]]. *)
Definition url_pair : Type := (string * string)%type.

(** [row[0]]. *)
Definition row_first (row : list string) : Result string :=
  match row with
  | [] => Raise IndexError
  | c :: _ => Return c
  end.

(** The first inner loop: [for columns in row: if 'http' in columns:
    img_links.append(columns)]. *)
Definition collect_links (row : list string) : list string :=
  fold_left
    (fun img_links columns =>
       if Py.contains "http" columns then img_links ++ [columns]
       else img_links)
    row [].

(** One turn of the second inner loop; the loop state is
    [(link_list, count, num)]. *)
Definition name_step (img_row_name : string)
    (st : list url_pair * Z * string) (link : string)
  : list url_pair * Z * string :=
  let '(link_list, count, num) := st in
  let num := if count >? 0 then "_" +:+ Py.str count else num in
  let img_name := img_row_name +:+ num in
  (link_list ++ [(img_name, link)], count + 1, num).

Definition name_links (img_row_name : string) (img_links : list string)
    (link_list : list url_pair) : list url_pair :=
  fst (fst (fold_left (name_step img_row_name) img_links
              (link_list, 0, EmptyString))).

(** The body of [for row in url_list]. *)
Definition row_body (row : list string) (link_list : list url_pair)
  : Result (list url_pair) :=
  match row_first row with
  | Raise e => Raise e
  | Return img_row_name =>
      Return (name_links img_row_name (collect_links row) link_list)
  end.

Fixpoint rows_loop (url_list : list (list string))
    (link_list : list url_pair) : Result (list url_pair) :=
  match url_list with
  | [] => Return link_list
  | row :: rest =>
      match row_body row link_list with
      | Raise e => Raise e
      | Return link_list' => rows_loop rest link_list'
      end
  end.

(** [open_csv csv_path] is [list(csv.reader(open(csv_path)))]: the parsed
    rows of the file, or [None] when the file cannot be opened. *)
Definition _return_links (open_csv : string -> option (list (list string)))
    (csv_path : string) : Result (list url_pair) :=
  match open_csv csv_path with
  | None => Raise FileNotFoundError
  | Some url_list => rows_loop url_list []
  end.

End Links.

(** ** The operations of the imaging library that the code calls

    An image is its mode, its size [(width, height)], its [info] dictionary
    and its pixel data ([getpixel x y] is the tuple of band values at column
    [x], row [y]; only coordinates inside [size] are meaningful).  The
    operations follow the library's documented behaviour; the two that
    check the size they are given, [Image.new] and [Image.resize], raise
    [ValueError] as the library does.  What cannot be written as integer
    arithmetic is a parameter of the model: the pixel data of a mode
    conversion ([convert_data]) and of a Lanczos resampling ([resample]). *)

Module PIL.

Record Image : Type := mkImage {
  mode : string;
  size : Z * Z;
  info : list (string * list Z);
  getpixel : Z -> Z -> list Z
}.

(** [Image.getbands()] by mode. *)
Definition getbands (m : string) : list string :=
  if String.eqb m "1" then ["1"]
  else if String.eqb m "L" then ["L"]
  else if String.eqb m "P" then ["P"]
  else if String.eqb m "I" then ["I"]
  else if String.eqb m "F" then ["F"]
  else if String.eqb m "LA" then ["L"; "A"]
  else if String.eqb m "La" then ["L"; "a"]
  else if String.eqb m "PA" then ["P"; "A"]
  else if String.eqb m "RGB" then ["R"; "G"; "B"]
  else if String.eqb m "RGBA" then ["R"; "G"; "B"; "A"]
  else if String.eqb m "RGBa" then ["R"; "G"; "B"; "a"]
  else if String.eqb m "RGBX" then ["R"; "G"; "B"; "X"]
  else if String.eqb m "CMYK" then ["C"; "M"; "Y"; "K"]
  else if String.eqb m "YCbCr" then ["Y"; "Cb"; "Cr"]
  else if String.eqb m "LAB" then ["L"; "A"; "B"]
  else if String.eqb m "HSV" then ["H"; "S"; "V"]
  else [].

(** [key in im.info]. *)
Definition info_has (key : string) (im : Image) : bool :=
  existsb (fun kv => String.eqb (fst kv) key) (info im).

Definition size_eqb (a b : Z * Z) : bool :=
  (fst a =? fst b) && (snd a =? snd b).

(** [(x, y)] lies inside an image of size [sz]. *)
Definition inside (sz : Z * Z) (x y : Z) : bool :=
  (0 <=? x) && (x <? fst sz) && (0 <=? y) && (y <? snd sz).

(** An image of the given mode and size, filled with one colour. *)
Definition canvas (m : string) (sz : Z * Z) (color : list Z) : Image :=
  {| mode := m; size := sz; info := []; getpixel := fun _ _ => color |}.

(** [Image.new(mode, size, color)]: the canvas; the library raises
    [ValueError] when a side is negative. *)
Definition new (m : string) (sz : Z * Z) (color : list Z) : Result Image :=
  if (fst sz <? 0) || (snd sz <? 0) then Raise ValueError
  else Return (canvas m sz color).

(** The band of index [k] as an image of mode [L]. *)
Definition band (im : Image) (k : nat) : Image :=
  {| mode := "L"; size := size im; info := info im;
     getpixel := fun x y => [nth k (getpixel im x y) 0] |}.

(** [im.split()]: one image per band. *)
Definition split (im : Image) : list Image :=
  map (band im) (seq 0 (List.length (getbands (mode im)))).

(** The library's fixed-point blend of a destination value [in1] and a
    source value [in2] under an 8-bit mask value. *)
Definition div255 (a : Z) : Z :=
  let tmp := a + 128 in Z.shiftr (Z.shiftr tmp 8 + tmp) 8.

Definition blend8 (mask in1 in2 : Z) : Z :=
  div255 (in1 * (255 - mask) + in2 * mask).

Fixpoint zip_with (f : Z -> Z -> Z) (l1 l2 : list Z) : list Z :=
  match l1, l2 with
  | a :: l1', b :: l2' => f a b :: zip_with f l1' l2'
  | _, _ => []
  end.

Section Operations.

(** [convert_data im m x y]: the pixel of [im] converted to mode [m]. *)
Variable convert_data : Image -> string -> Z -> Z -> list Z.
(** [resample im sz x y]: the pixel of [im] resampled to size [sz] with
    the Lanczos filter. *)
Variable resample : Image -> Z * Z -> Z -> Z -> list Z.

(** [im.convert(m)]; a conversion to the image's own mode is a copy. *)
Definition convert (im : Image) (m : string) : Image :=
  if String.eqb (mode im) m then im
  else {| mode := m; size := size im; info := info im;
          getpixel := convert_data im m |}.

(** The image of size [sz] resampled from [im]. *)
Definition resized (im : Image) (sz : Z * Z) : Image :=
  {| mode := mode im; size := sz; info := info im;
     getpixel := resample im sz |}.

(** [im.resize(sz, PIL.Image.LANCZOS)]: a resize to the image's own size is
    a copy; for another size the library raises [ValueError] when a side is
    less than 1. *)
Definition resize (im : Image) (sz : Z * Z) : Result Image :=
  if size_eqb (size im) sz then Return im
  else if (fst sz <? 1) || (snd sz <? 1) then Raise ValueError
  else Return (resized im sz).

(** [self.paste(im, box, mask)] with [box] the upper left corner; the
    method updates [self] in place, the model returns the updated image.
    [im] is first brought to the mode of [self]; inside the pasted
    region every band is blended under the mask value, outside it
    [self] is kept. *)
Definition paste (self im : Image) (box : Z * Z) (mask : option Image)
  : Image :=
  let src := convert im (mode self) in
  {| mode := mode self; size := size self; info := info self;
     getpixel := fun x y =>
       let sx := x - fst box in
       let sy := y - snd box in
       if inside (size self) x y && inside (size src) sx sy then
         match mask with
         | None => getpixel src sx sy
         | Some m =>
             zip_with (blend8 (hd 0 (getpixel m sx sy)))
               (getpixel self x y) (getpixel src sx sy)
         end
       else getpixel self x y |}.

End Operations.

End PIL.

(** ** Class [ImageManager] *)

Module ImageManager.

Import Links.

(** The attributes set by [__init__]. *)
Record t : Type := mk {
  name_prefix : string;
  resize : bool;
  new_size : Z;
  image_path : string;
  error_path : string
}.

(** [ImageManager(image_name_prefix, resize, new_size)] run in the working
    directory [cwd]; the two [os.mkdir] calls (which ignore an existing
    directory) leave no trace in the model. *)
Definition __init__ (cwd : string) (image_name_prefix : string)
    (resize : bool) (new_size : Z) : t :=
  {| name_prefix := image_name_prefix;
     resize := resize;
     new_size := new_size;
     image_path := Py.replace "\" "/" cwd +:+ "/images";
     error_path := Py.replace "\" "/" cwd +:+ "/report" |}.

(** What the program has written: the images saved ([path], image), the
    rows appended to CSV files ([path], row) and the lines printed, each in
    the order of the writes. *)
Record State : Type := mkState {
  saved : list (string * PIL.Image);
  appended : list (string * list string);
  stdout : list string
}.

(** A response of the HTTP client. *)
Record Response : Type := mkResponse {
  status : Z;
  reason : string;
  data : list Byte.byte
}.

(** Computations that write to [State] and may raise. *)
Definition M (A : Type) : Type := State -> Result A * State.

Definition ret {A} (a : A) : M A := fun s => (Return a, s).
Definition raise {A} (e : Exception) : M A := fun s => (Raise e, s).
Definition bind {A B} (m : M A) (k : A -> M B) : M B :=
  fun s =>
    match m s with
    | (Return a, s') => k a s'
    | (Raise e, s') => (Raise e, s')
    end.
Definition lift {A} (r : Result A) : M A := fun s => (r, s).

(** [try: body except ...: handler]; an exception raised by the handler
    itself is not caught again. *)
Definition try_except {A} (body : M A) (handler : Exception -> M A) : M A :=
  fun s =>
    match body s with
    | (Return a, s') => (Return a, s')
    | (Raise e, s') => handler e s'
    end.

Notation "x <- m ;; k" := (bind m (fun x => k))
  (at level 61, m at next level, right associativity).
Notation "m ;;; k" := (bind m (fun _ => k))
  (at level 61, right associativity).

(** [with open(path, 'a') as f: csv.writer(f).writerow(row)]. *)
Definition writerow (path : string) (row : list string) : M unit :=
  fun s => (Return tt,
            {| saved := saved s;
               appended := appended s ++ [(path, row)];
               stdout := stdout s |}).

Definition print (line : string) : M unit :=
  fun s => (Return tt,
            {| saved := saved s;
               appended := appended s;
               stdout := stdout s ++ [line] |}).

(** The tabulation character of ["\tImage ..."]. *)
Definition tab : string := String (ascii_of_nat 9) EmptyString.

(** The default [background_color]. *)
Definition white : list Z := [255; 255; 255].

Section Methods.

(** The world outside the program: the CSV files, the two HTTP clients
    ([urllib3.PoolManager.request] and [requests.get]), the image decoder
    [Image.open], the parameters of the imaging library, the floating-point
    expression [int(b * float(s / a))] of the resize, and what
    [image.save(path)] meets when it encodes the image and opens the path
    ([image_save] returns, or raises as [save] does: a directory that does
    not exist, a path that cannot be written, an image that the encoder
    refuses). *)
Variable open_csv : string -> option (list (list string)).
Variable http_request : string -> Result Response.
Variable requests_get : string -> Result Response.
Variable Image_open : list Byte.byte -> Result PIL.Image.
Variable convert_data : PIL.Image -> string -> Z -> Z -> list Z.
Variable resample : PIL.Image -> Z * Z -> Z -> Z -> list Z.
Variable int_scaled : Z -> Z -> Z -> Z.
Variable image_save : PIL.Image -> string -> Result unit.

(** [image.save(path)]: the image is recorded when the call returns. *)
Definition save (image : PIL.Image) (path : string) : M unit :=
  fun s =>
    match image_save image path with
    | Raise e => (Raise e, s)
    | Return _ =>
        (Return tt,
         {| saved := saved s ++ [(path, image)];
            appended := appended s;
            stdout := stdout s |})
    end.

Definition convert : PIL.Image -> string -> PIL.Image :=
  PIL.convert convert_data.
Definition Image_resize : PIL.Image -> Z * Z -> Result PIL.Image :=
  PIL.resize resample.
Definition paste
  : PIL.Image -> PIL.Image -> Z * Z -> option PIL.Image -> PIL.Image :=
  PIL.paste convert_data.

(** The test of [_remove_transparency]. *)
Definition needs_flattening (image_object : PIL.Image) : bool :=
  existsb (String.eqb (PIL.mode image_object)) ["RGBA"; "LA"; "P"]
  || (String.eqb (PIL.mode image_object) "P"
      && PIL.info_has "transparency" image_object).

(** [Image.new] is given the size of [image_object], the size of an image
    that exists, of which no side is negative: the call returns the
    canvas. *)
Definition _remove_transparency (image_object : PIL.Image)
    (background_color : list Z) : PIL.Image :=
  if needs_flattening image_object then
    let rgba := convert image_object "RGBA" in
    let alpha := List.last (PIL.split rgba) rgba in
    let background :=
      PIL.canvas "RGBA" (PIL.size image_object) (background_color ++ [255]) in
    paste background image_object (0, 0) (Some alpha)
  else image_object.

(** [int((a - b) / 2)]: a division by two is exact in floating point and
    [int] truncates towards zero. *)
Definition half_gap (a b : Z) : Z := Z.quot (a - b) 2.

(** The last two statements of the branches for an image that is not
    square: the white canvas is created and the scaled image pasted at its
    centre. *)
Definition pad (size : Z * Z) (image : PIL.Image) : Result PIL.Image :=
  and_then (PIL.new "RGB" size [255; 255; 255]) (fun new_image =>
  Return (paste new_image image
            (half_gap (fst size) (fst (PIL.size image)),
             half_gap (snd size) (snd (PIL.size image))) None)).

Definition _resize_image (self : t) (image : PIL.Image)
  : Result PIL.Image :=
  let '(width, height) := PIL.size image in
  if negb (width =? height) then
    let size := (new_size self, new_size self) in
    if width >? height then
      let hsize := int_scaled height (new_size self) width in
      and_then (Image_resize image (new_size self, hsize)) (fun image =>
      pad size image)
    else if height >? width then
      let wsize := int_scaled width (new_size self) height in
      and_then (Image_resize image (wsize, new_size self)) (fun image =>
      pad size image)
    else Image_resize image size
  else if negb (width =? new_size self) || negb (height =? new_size self)
  then Image_resize image (new_size self, new_size self)
  else Return image.

(** Lines 90-101, repeated as lines 104-115: decode, flatten, convert,
    resize when asked, save and report success. *)
Definition decode_and_save (self : t) (img_name : string)
    (content : list Byte.byte) : M bool :=
  file <- lift (Image_open content) ;;
  let file := _remove_transparency file white in
  let file := convert file "RGB" in
  if resize self then
    new_image <- lift (_resize_image self file) ;;
    save new_image (image_path self +:+ "/" +:+ img_name) ;;;
    print (tab +:+ "Image " +:+ img_name +:+ " resized") ;;;
    ret true
  else
    save file (image_path self +:+ "/" +:+ img_name) ;;;
    print (tab +:+ "Image " +:+ img_name +:+ " resized") ;;;
    ret true.

(** The [try] block of [_donwload_images]. *)
Definition download_body (self : t) (img_name link : string) : M bool :=
  response <- lift (http_request link) ;;
  if negb (status response =? 200) then
    raise (HTTPError link (status response) (reason response))
  else decode_and_save self img_name (data response).

(** The [except] clauses, in the order of the source. *)
Definition download_handler (self : t) (img_name link : string)
    (e : Exception) : M bool :=
  match e with
  | UnicodeEncodeError =>
      response <- lift (requests_get link) ;;
      decode_and_save self img_name (data response)
  | UnidentifiedImageError =>
      writerow (error_path self +:+ "/error.csv")
        [img_name; "Image Broken"; link] ;;;
      print "Error downloading image: Image Broken" ;;;
      ret false
  | HTTPError _ _ _ =>
      writerow (error_path self +:+ "/error.csv")
        [img_name; str_of_exception e; link] ;;;
      print ("Error downloading image: " +:+ str_of_exception e) ;;;
      ret false
  | socket_timeout =>
      writerow (error_path self +:+ "/error.csv")
        [img_name; "Timeout Err"; link] ;;;
      print "Error downloading image: Connection Timeout" ;;;
      ret true
  | _ => raise e
  end.

Definition _donwload_images (self : t) (link_list : url_pair) : M bool :=
  let img_name := name_prefix self +:+ fst link_list +:+ ".jpg" in
  let link := snd link_list in
  try_except (download_body self img_name link)
    (download_handler self img_name link).

(** The loop of [start_download]: every task is submitted and awaited at
    once ([future.result()] returns the task's value or raises its
    exception), so the tasks run one after the other. *)
Fixpoint download_loop (self : t) (download_links : list url_pair)
    (total_downloaded : Z) : M Z :=
  match download_links with
  | [] => ret total_downloaded
  | url_pair :: rest =>
      result <- _donwload_images self url_pair ;;
      download_loop self rest
        (if result : bool then total_downloaded + 1 else total_downloaded)
  end.

Definition start_download (self : t) (csv_path : string) : M Z :=
  download_links <- lift (_return_links open_csv csv_path) ;;
  download_loop self download_links 0.

End Methods.

End ImageManager.

(** ** The first HTTP client: [urllib3.PoolManager().request]

    The program calls [request('GET', link)] on a pool built with
    [Timeout(connect=5.0, read=10.0)] and the default retries. *)

Module Urllib3.

Import ImageManager.

(** What happens to a GET on the wire, every attempt alike: the server
    answers, it does not answer within the timeouts, or the connection
    cannot be made. *)
Inductive Exchange : Type :=
| Responds (response : Response)
| TimesOut
| Unreachable.

(** [MaxRetryError], which no handler of the program names. *)
Definition MaxRetryError : Exception := OtherException "MaxRetryError".

(** [request('GET', link)]: an answer is returned whatever its status.  An
    attempt that times out raises [ConnectTimeoutError] or
    [ReadTimeoutError] inside the client, which retries and, when the
    retries are used up, leaves the call with [MaxRetryError] wrapping the
    last error; a connection that cannot be made ends the same way.
    [socket.timeout] does not leave the call. *)
Definition request (wire : string -> Exchange) (link : string)
  : Result Response :=
  match wire link with
  | Responds response => Return response
  | TimesOut => Raise MaxRetryError
  | Unreachable => Raise MaxRetryError
  end.

End Urllib3.

(** ** The regular expressions of [re.search] that the code uses

    A pattern is a sequence of one-character atoms; [search] looks for it at
    every position of the string, as [re.search] does. *)

Module Re.

Inductive atom : Type :=
| OneOf (cs : list ascii)       (* [...] *)
| Range (lo hi : ascii)         (* [lo-hi] *)
| AnyChar                       (* . (any character but a newline) *)
| Char (c : ascii).

Definition newline : ascii := ascii_of_nat 10.

Definition atom_matches (a : atom) (c : ascii) : bool :=
  match a with
  | OneOf cs => existsb (Ascii.eqb c) cs
  | Range lo hi =>
      (nat_of_ascii lo <=? nat_of_ascii c)%nat
      && (nat_of_ascii c <=? nat_of_ascii hi)%nat
  | AnyChar => negb (Ascii.eqb c newline)
  | Char c' => Ascii.eqb c c'
  end.

Fixpoint match_here (p : list atom) (s : string) : bool :=
  match p, s with
  | [], _ => true
  | _ :: _, EmptyString => false
  | a :: p', String c s' => atom_matches a c && match_here p' s'
  end.

(** [re.search(p, s) is not None]. *)
Fixpoint search (p : list atom) (s : string) : bool :=
  match_here p s
  || match s with
     | EmptyString => false
     | String _ s' => search p s'
     end.

End Re.

(** ** Upload grouper: [AzureManager._generate_csv_from_files] *)

Module AzureManager.

Record t : Type := mk {
  url_base : string;
  root_folder : string;
  report_path : string
}.

(** The attributes set by [__init__] (the storage client apart). *)
Definition __init__ (cwd account container : string) : t :=
  let root_folder := Py.replace "\" "/" cwd in
  {| url_base :=
       "https://" +:+ account +:+ ".blob.core.windows.net/"
       +:+ container +:+ "/";
     root_folder := root_folder;
     report_path := root_folder +:+ "/report" |}.

(** [dict_files]: keys in insertion order. *)
Definition dict : Type := list (string * list string).

(** [d[key]]; [None] stands for [KeyError]. *)
Fixpoint dict_get (d : dict) (key : string) : option (list string) :=
  match d with
  | [] => None
  | (k, v) :: d' => if String.eqb k key then Some v else dict_get d' key
  end.

(** [d[key] = v]: an existing key keeps its place, a new key goes last. *)
Fixpoint dict_set (d : dict) (key : string) (v : list string) : dict :=
  match d with
  | [] => [(key, v)]
  | (k, w) :: d' =>
      if String.eqb k key then (k, v) :: d'
      else (k, w) :: dict_set d' key v
  end.

(** ['[/_][0-9].jpg']. *)
Definition end_string : list Re.atom :=
  [Re.OneOf ["/"; "_"]%char; Re.Range "0"%char "9"%char; Re.AnyChar;
   Re.Char "j"%char; Re.Char "p"%char; Re.Char "g"%char].

(** The [try ... except KeyError] block, the same in both branches. *)
Definition remember (dict_files : dict) (base_name file_name : string)
  : dict :=
  match dict_get dict_files base_name with
  | Some know_files =>
      dict_set dict_files base_name (know_files ++ [file_name])
  | None => dict_set dict_files base_name [file_name]
  end.

(** The [base_name] computed for one file. *)
Definition base_name_of (file_name : string) : string :=
  if Re.search end_string file_name then
    let sufix := Py.last (Py.split "_"%char file_name) in
    Py.replace ("_" +:+ sufix) "" file_name
  else Py.first (Py.split "."%char file_name).

(** The body of the first loop. *)
Definition group_step (dict_files : dict) (file : string) : dict :=
  let file_name := file in
  if Re.search end_string file_name then
    let sufix := Py.last (Py.split "_"%char file_name) in
    let base_name := Py.replace ("_" +:+ sufix) "" file_name in
    remember dict_files base_name file_name
  else
    let base_name := Py.first (Py.split "."%char file_name) in
    remember dict_files base_name file_name.

(** The row written for one key. *)
Definition row_of (self : t) (entry : string * list string) : list string :=
  let '(file_name, file_list) := entry in
  fold_left (fun urls name => urls ++ [url_base self +:+ name])
    file_list [file_name].

(** The rows appended to [{report_path}/new_file.csv], in order. *)
Definition _generate_csv_from_files (self : t) (directory_files : list string)
  : list (string * list string) :=
  let dict_files := fold_left group_step directory_files [] in
  map (fun entry => (report_path self +:+ "/new_file.csv", row_of self entry))
    dict_files.

End AzureManager.

(** ** Vocabulary of the properties: link extractor *)

Module LinksSpec.

Import Links.

(** The cells of a row that the extractor takes for image URLs. *)
Definition has_http (cell : string) : bool := Py.contains "http" cell.

(** The identifier of the [k]-th URL of a row of base [b], counted from 0:
    [b] itself, then [b_1], [b_2], ... *)
Definition identifier (b : string) (k : Z) : string :=
  if k =? 0 then b else b +:+ "_" +:+ Py.str k.

(** The work items of a row of base [b]: its URLs numbered from [k]. *)
Fixpoint numbered (b : string) (k : Z) (urls : list string) : list url_pair :=
  match urls with
  | [] => []
  | u :: rest => (identifier b k, u) :: numbered b (k + 1) rest
  end.

Definition row_items (row : list string) : list url_pair :=
  match row with
  | [] => []
  | b :: _ => numbered b 0 (filter has_http row)
  end.

(** Sample data for the closed instances of the properties. *)

Definition sample_rows : list (list string) :=
  [["cat"; "x"; "http://a/1.png"; "http://a/2.png"]; ["dog"; "no link"]].

Definition sample_csv (path : string) : option (list (list string)) :=
  if String.eqb path "links.csv" then Some sample_rows else None.

(** A file with a blank line, which [csv.reader] reads as a row without
    cells. *)
Definition blank_line_csv (path : string) : option (list (list string)) :=
  if String.eqb path "links.csv"
  then Some [["cat"; "http://a/1.png"]; []; ["dog"; "http://a/2.png"]]
  else None.

End LinksSpec.

(** ** Vocabulary of the properties: download pipeline *)

Module DownloadSpec.

Import Links ImageManager.

(** The exceptions that [_donwload_images] names in an [except] clause. *)
Definition handled (e : Exception) : bool :=
  match e with
  | UnicodeEncodeError | UnidentifiedImageError | HTTPError _ _ _
  | socket_timeout => true
  | _ => false
  end.

(** The state after one more row of the error log and one more printed
    line. *)
Definition log_error (self : t) (s : State) (row : list string)
    (line : string) : State :=
  {| saved := saved s;
     appended := appended s ++ [(error_path self +:+ "/error.csv", row)];
     stdout := stdout s ++ [line] |}.

(** Sample data for the closed instances of the properties. *)

(** A sample world: one address times out, one is missing, one cannot be
    reached, every other one answers with a one-byte body that decodes to a
    2x1 opaque image; an image is saved when the file name has no [/]. *)
Definition sample_image : PIL.Image :=
  {| PIL.mode := "RGB"; PIL.size := (2, 1); PIL.info := [];
     PIL.getpixel :=
       fun x _ => if x =? 0 then [10; 20; 30] else [40; 50; 60] |}.

Definition sample_wire (link : string) : Urllib3.Exchange :=
  if String.eqb link "http://a/slow.png" then Urllib3.TimesOut
  else if String.eqb link "http://a/missing.png" then
    Urllib3.Responds {| status := 404; reason := "Not Found"; data := [] |}
  else if String.eqb link "http://a/down.png" then Urllib3.Unreachable
  else
    Urllib3.Responds {| status := 200; reason := "OK"; data := [Byte.x01] |}.

Definition sample_request : string -> Result Response :=
  Urllib3.request sample_wire.

Definition sample_save (image : PIL.Image) (path : string) : Result unit :=
  if Py.startswith "/work/images/" path
     && negb (Py.contains "/" (substring 13 (String.length path) path))
  then Return tt
  else Raise FileNotFoundError.

Definition sample_open (content : list Byte.byte) : Result PIL.Image :=
  match content with
  | [] => Raise UnidentifiedImageError
  | _ :: _ => Return sample_image
  end.

(** Stand-ins for the numeric parameters: a conversion that keeps the first
    bands (padding with 255), a nearest-neighbour resampling and the exact
    quotient. *)
Definition sample_convert (im : PIL.Image) (m : string) (x y : Z) : list Z :=
  firstn (List.length (PIL.getbands m))
    (PIL.getpixel im x y ++ [255; 255; 255; 255]).

Definition sample_resample (im : PIL.Image) (sz : Z * Z) (x y : Z) : list Z :=
  PIL.getpixel im (x * fst (PIL.size im) / fst sz)
    (y * snd (PIL.size im) / snd sz).

Definition sample_scaled (b s a : Z) : Z := b * s / a.

Definition sample_manager : t := __init__ "/work" "img_" true 1000.

(** A batch of three rows whose second address cannot be reached. *)
Definition batch_csv (path : string) : option (list (list string)) :=
  if String.eqb path "batch.csv"
  then Some [["a"; "http://a/1.png"]; ["b"; "http://a/down.png"];
             ["c"; "http://a/3.png"]]
  else None.

Definition empty_state : State :=
  {| saved := []; appended := []; stdout := [] |}.

End DownloadSpec.

(** ** Vocabulary of the properties: image normalisation *)

Module ImageSpec.

Import ImageManager.

(** The modes that carry an alpha band. *)
Definition has_alpha_channel (m : string) : bool :=
  existsb (String.eqb m) ["LA"; "La"; "PA"; "RGBA"; "RGBa"].

(** The test that the specification gives for the flattening step: an alpha
    band, or a palette with transparency. *)
Definition spec_needs_flattening (im : PIL.Image) : bool :=
  has_alpha_channel (PIL.mode im)
  || (String.eqb (PIL.mode im) "P" && PIL.info_has "transparency" im).

(** The flattening step as the specification words it, for a step
    [flatten]: applied exactly under the specified test, with a result
    without alpha band, and otherwise the identity. *)
Definition flattening_as_specified (flatten : PIL.Image -> PIL.Image) : Prop :=
  forall im,
    needs_flattening im = spec_needs_flattening im /\
    (needs_flattening im = true ->
     has_alpha_channel (PIL.mode (flatten im)) = false) /\
    (needs_flattening im = false -> flatten im = im).

(** Every pixel inside the image has four band values between 0 and 255. *)
Definition valid_rgba (im : PIL.Image) : Prop :=
  forall x y, PIL.inside (PIL.size im) x y = true ->
    exists r g b a,
      PIL.getpixel im x y = [r; g; b; a] /\
      0 <= r <= 255 /\ 0 <= g <= 255 /\ 0 <= b <= 255 /\ 0 <= a <= 255.

(** Every pixel inside the image has the alpha value 255. *)
Definition opaque (im : PIL.Image) : Prop :=
  forall x y, PIL.inside (PIL.size im) x y = true ->
    nth 3 (PIL.getpixel im x y) 0 = 255.

(** The image built by the flattening branch. *)
Definition flattened (convert_data : PIL.Image -> string -> Z -> Z -> list Z)
    (image_object : PIL.Image) : PIL.Image :=
  PIL.paste convert_data
    (PIL.canvas "RGBA" (PIL.size image_object) [255; 255; 255; 255])
    image_object (0, 0)
    (Some (PIL.band (PIL.convert convert_data image_object "RGBA") 3)).

(** Sample data for the closed instances of the properties. *)

Definition rgba_sample : PIL.Image :=
  {| PIL.mode := "RGBA"; PIL.size := (1, 1); PIL.info := [];
     PIL.getpixel := fun _ _ => [0; 0; 0; 128] |}.

Definition pa_sample : PIL.Image :=
  {| PIL.mode := "PA"; PIL.size := (1, 1); PIL.info := [];
     PIL.getpixel := fun _ _ => [3; 128] |}.

Definition opaque_sample : PIL.Image :=
  {| PIL.mode := "RGBA"; PIL.size := (2, 2); PIL.info := [];
     PIL.getpixel := fun x y => [10 * x; 20 * y; 30; 255] |}.

Definition wide_sample : PIL.Image :=
  {| PIL.mode := "RGB"; PIL.size := (2000, 500); PIL.info := [];
     PIL.getpixel := fun _ _ => [1; 2; 3] |}.

Definition square_sample : PIL.Image :=
  {| PIL.mode := "RGB"; PIL.size := (300, 300); PIL.info := [];
     PIL.getpixel := fun _ _ => [1; 2; 3] |}.

(** An image of 1001 by 1, and a decoder that returns it. *)
Definition thin_sample : PIL.Image :=
  {| PIL.mode := "RGB"; PIL.size := (1001, 1); PIL.info := [];
     PIL.getpixel := fun _ _ => [1; 2; 3] |}.

Definition thin_open (content : list Byte.byte) : Result PIL.Image :=
  Return thin_sample.

End ImageSpec.

(** ** Vocabulary of the properties: upload grouper *)

Module GrouperSpec.

Import AzureManager.

(** The keys of a list in first-seen order. *)
Definition add_key (keys : list string) (k : string) : list string :=
  if existsb (String.eqb k) keys then keys else keys ++ [k].

Definition first_seen (l : list string) : list string :=
  fold_left add_key l [].

(** The files of a list that have the key [k], in the order of the list. *)
Definition members (files : list string) (k : string) : list string :=
  filter (fun f => String.eqb (base_name_of f) k) files.

(** The dictionary that groups a list of files by key. *)
Definition grouped (files : list string) : dict :=
  map (fun k => (k, members files k)) (first_seen (map base_name_of files)).

(** The file name without its extension: what precedes the last dot. *)
Fixpoint without_extension (s : string) : string :=
  match s with
  | EmptyString => EmptyString
  | String a s' =>
      if Py.contains "." s' then String a (without_extension s')
      else if Ascii.eqb a "." then EmptyString
           else String a (without_extension s')
  end.

(** [d] is a decimal digit: it matches the atom [[0-9]]. *)
Definition is_digit (d : ascii) : bool :=
  Re.atom_matches (Re.Range "0"%char "9"%char) d.

(** The suffix [_d.jpg]. *)
Definition numbered_suffix (d : ascii) : string :=
  String "_"%char (String d ".jpg").

(** Sample data for the closed instances of the properties. *)

Definition sample_azure : t := __init__ "/work" "acct" "pics".

End GrouperSpec.

(** ** Entry point: [main] (main.py) *)

Module Main.

Import ImageManager.

(** [s.endswith(suffix)]: some tail of [s] is [suffix]. *)
Fixpoint endswith (suffix s : string) : bool :=
  String.eqb suffix s
  || match s with
     | EmptyString => false
     | String _ s' => endswith suffix s'
     end.

(** Lines 5-9: the name typed by the user gets the extension [.csv] unless
    it ends with it. *)
Definition csv_file_name_of (typed : string) : string :=
  if endswith ".csv" typed then typed else typed +:+ ".csv".

Section Download.

Variable open_csv : string -> option (list (list string)).
Variable http_request : string -> Result Response.
Variable requests_get : string -> Result Response.
Variable Image_open : list Byte.byte -> Result PIL.Image.
Variable convert_data : PIL.Image -> string -> Z -> Z -> list Z.
Variable resample : PIL.Image -> Z * Z -> Z -> Z -> list Z.
Variable int_scaled : Z -> Z -> Z -> Z.
Variable image_save : PIL.Image -> string -> Result unit.

(** Lines 5-17 of [main], run in the directory [cwd] on the four answers of
    the user: the manager is built with [resize] set and the default
    [new_size] of 1000, the download is run and its count printed.  The
    upload that follows (lines 18-23) goes through the storage client. *)
Definition main_download (cwd typed image_prefix : string) : M Z :=
  let csv_file_name := csv_file_name_of typed in
  let img_manager := __init__ cwd image_prefix true 1000 in
  downloaded <-
    start_download open_csv http_request requests_get Image_open
      convert_data resample int_scaled image_save img_manager
      csv_file_name ;;
  print (Py.str downloaded +:+ " - Files Downloaded") ;;;
  ret downloaded.

End Download.

End Main.

(** ** Upload: [AzureManager.send_files] *)

Module Upload.

Import AzureManager.

(** An entry of the directory: its name, whether [os.path.isfile] holds of
    it, and the bytes that [open(..., "rb")] reads. *)
Record DirEntry : Type := mkEntry {
  entry_name : string;
  is_file : bool;
  content : list Byte.byte
}.

(** The arguments of one [upload_blob] call. *)
Record Blob : Type := mkBlob {
  blob_name : string;
  blob_data : list Byte.byte;
  overwrite : bool;
  content_type : string
}.

(** What [send_files] has done: the rows appended to the manifest, the
    uploads completed and the lines printed, in order. *)
Record State : Type := mkState {
  manifest : list (string * list string);
  uploaded : list Blob;
  printed : list string
}.

Section SendFiles.

(** [listdir folder]: the entries of the folder, [None] when it does not
    exist.  [upload_blob blob]: the call to the storage client, which
    returns or raises. *)
Variable listdir : string -> option (list DirEntry).
Variable upload_blob : Blob -> Result unit.

(** The upload loop; [count] is the loop counter and [total] is
    [len(files_to_upload)]. *)
Fixpoint upload_loop (content_type : string) (files : list DirEntry)
    (count total : Z) (s : State) : Result unit * State :=
  match files with
  | [] => (Return tt, s)
  | file :: rest =>
      let blob :=
        {| blob_name := entry_name file; blob_data := content file;
           overwrite := true; content_type := content_type |} in
      match upload_blob blob with
      | Raise e => (Raise e, s)
      | Return _ =>
          upload_loop content_type rest (count + 1) total
            {| manifest := manifest s;
               uploaded := uploaded s ++ [blob];
               printed :=
                 printed s
                 ++ ["Image [ " +:+ entry_name file
                     +:+ " ] upload completed. - " +:+ Py.str count
                     +:+ "/" +:+ Py.str total] |}
      end
  end.

Definition send_files (self : t) (directory content_type : string)
    (s : State) : Result unit * State :=
  let folder := root_folder self +:+ "/" +:+ directory in
  match listdir folder with
  | None => (Raise FileNotFoundError, s)
  | Some entries =>
      let files_to_upload := filter is_file entries in
      let s1 :=
        {| manifest :=
             manifest s
             ++ _generate_csv_from_files self
                  (map entry_name files_to_upload);
           uploaded := uploaded s;
           printed := printed s |} in
      upload_loop content_type files_to_upload 0
        (Z.of_nat (List.length files_to_upload)) s1
  end.

End SendFiles.

End Upload.

(** ** Vocabulary of the further properties *)

Module MoreSpec.

Import ImageManager.

(** The image that a download saves for the decoded image [file], unless
    the resize raises. *)
Definition normalised
    (convert_data : PIL.Image -> string -> Z -> Z -> list Z)
    (resample : PIL.Image -> Z * Z -> Z -> Z -> list Z)
    (int_scaled : Z -> Z -> Z -> Z) (self : t) (file : PIL.Image)
  : Result PIL.Image :=
  let file :=
    PIL.convert convert_data (_remove_transparency convert_data file white)
      "RGB" in
  if resize self
  then _resize_image convert_data resample int_scaled self file
  else Return file.

(** The state after one more saved image and its printed line. *)
Definition save_image (self : t) (s : State) (img_name : string)
    (image : PIL.Image) : State :=
  {| saved := saved s ++ [(image_path self +:+ "/" +:+ img_name, image)];
     appended := appended s;
     stdout := stdout s ++ [tab +:+ "Image " +:+ img_name +:+ " resized"] |}.

(** The rows of the error log whose kind is ['Timeout Err']. *)
Definition is_timeout_row (entry : string * list string) : bool :=
  match snd entry with
  | [_; kind; _] => String.eqb kind "Timeout Err"
  | _ => false
  end.

Definition count_timeouts (rows : list (string * list string)) : Z :=
  Z.of_nat (List.length (filter is_timeout_row rows)).

(** A saved image as the pipeline leaves it: mode RGB, and the target size
    on both sides when [resize] is set. *)
Definition well_saved (self : t) (entry : string * PIL.Image) : Prop :=
  PIL.mode (snd entry) = "RGB" /\
  (resize self = true ->
   PIL.size (snd entry) = (new_size self, new_size self)).

(** The blob that [send_files] uploads for an entry of the directory. *)
Definition blob_of (content_type : string) (entry : Upload.DirEntry)
  : Upload.Blob :=
  {| Upload.blob_name := Upload.entry_name entry;
     Upload.blob_data := Upload.content entry;
     Upload.overwrite := true;
     Upload.content_type := content_type |}.

(** The line printed after the upload of the file [name], when [count]
    uploads precede it among [total] files. *)
Definition progress_line (name : string) (count total : Z) : string :=
  "Image [ " +:+ name +:+ " ] upload completed. - " +:+ Py.str count
  +:+ "/" +:+ Py.str total.

Fixpoint progress_lines (files : list Upload.DirEntry) (count total : Z)
  : list string :=
  match files with
  | [] => []
  | file :: rest =>
      progress_line (Upload.entry_name file) count total
      :: progress_lines rest (count + 1) total
  end.

(** Sample data for the closed instances of the properties. *)

Definition sample_listing (folder : string)
  : option (list Upload.DirEntry) :=
  if String.eqb folder "/work/images"
  then Some [ {| Upload.entry_name := "img_cat.jpg"; Upload.is_file := true;
                 Upload.content := [Byte.x01] |};
              {| Upload.entry_name := "old"; Upload.is_file := false;
                 Upload.content := [] |};
              {| Upload.entry_name := "img_cat_1.jpg"; Upload.is_file := true;
                 Upload.content := [Byte.x02] |} ]
  else None.

(** A storage client that accepts every blob, and one that refuses the
    second file. *)
Definition accept_all (blob : Upload.Blob) : Result unit := Return tt.

Definition refuse_second (blob : Upload.Blob) : Result unit :=
  if String.eqb (Upload.blob_name blob) "img_cat_1.jpg"
  then Raise (OtherException "HttpResponseError")
  else Return tt.

(** A first client that cannot encode the address, and second clients that
    answer 404 with a decodable body, or 200 with an empty one. *)
Definition unicode_request (link : string) : Result Response :=
  Raise UnicodeEncodeError.

Definition get_not_found (link : string) : Result Response :=
  Return {| status := 404; reason := "Not Found"; data := [Byte.x01] |}.

Definition get_empty (link : string) : Result Response :=
  Return {| status := 200; reason := "OK"; data := [] |}.


Definition mixed_links : list Links.url_pair :=
  [("a", "http://a/1.png"); ("b", "http://a/missing.png");
   ("c", "http://a/empty.png")].

Definition mixed_wire (link : string) : Urllib3.Exchange :=
  if String.eqb link "http://a/empty.png" then
    Urllib3.Responds {| status := 200; reason := "OK"; data := [] |}
  else DownloadSpec.sample_wire link.

Definition mixed_csv (path : string) : option (list (list string)) :=
  if String.eqb path "mixed.csv"
  then Some [["a"; "http://a/1.png"]; ["b"; "http://a/missing.png"];
             ["c"; "http://a/empty.png"]]
  else None.

(** A manager that keeps the natural size of the images. *)
Definition plain_manager : t := __init__ "/work" "img_" false 1000.

(** A fully transparent pixel over a colour, a palette image without
    transparency entry and an image higher than wide. *)
Definition clear_sample : PIL.Image :=
  {| PIL.mode := "RGBA"; PIL.size := (1, 1); PIL.info := [];
     PIL.getpixel := fun _ _ => [9; 9; 9; 0] |}.

Definition palette_sample : PIL.Image :=
  {| PIL.mode := "P"; PIL.size := (1, 1); PIL.info := [];
     PIL.getpixel := fun _ _ => [5] |}.

Definition tall_sample : PIL.Image :=
  {| PIL.mode := "RGB"; PIL.size := (500, 2000); PIL.info := [];
     PIL.getpixel := fun _ _ => [1; 2; 3] |}.

Definition empty_upload : Upload.State :=
  {| Upload.manifest := []; Upload.uploaded := []; Upload.printed := [] |}.

End MoreSpec.

(** * Properties *)

(** ** Link extractor *)

Module LinksFacts.

Import Links LinksSpec.

Lemma append_empty_r (s : string) : s +:+ "" = s.
Proof. induction s as [|a s IH]; simpl; [reflexivity | now rewrite IH]. Qed.

Lemma collect_links_acc (row acc : list string) :
  fold_left
    (fun img_links columns =>
       if Py.contains "http" columns then img_links ++ [columns]
       else img_links) row acc
  = acc ++ filter has_http row.
Proof.
  revert acc; induction row as [|c row IH]; intro acc; simpl.
  - now rewrite app_nil_r.
  - rewrite IH. unfold has_http. destruct (Py.contains "http" c); simpl.
    + now rewrite <- app_assoc.
    + reflexivity.
Qed.

Lemma collect_links_filter (row : list string) :
  collect_links row = filter has_http row.
Proof. unfold collect_links. now rewrite collect_links_acc. Qed.

Lemma name_step_acc (b : string) (urls : list string) :
  forall (acc : list url_pair) (count : Z) (num : string),
    0 <= count -> (count = 0 -> num = "") ->
    fst (fst (fold_left (name_step b) urls (acc, count, num)))
    = acc ++ numbered b count urls.
Proof.
  induction urls as [|u urls IH]; intros acc count num Hc Hnum; simpl.
  - now rewrite app_nil_r.
  - rewrite IH; try lia.
    rewrite <- app_assoc. simpl. unfold identifier.
    destruct (Z.eqb_spec count 0) as [E|E].
    + subst count. simpl. rewrite (Hnum eq_refl), append_empty_r. reflexivity.
    + replace (count >? 0) with true by (symmetry; apply Z.gtb_lt; lia).
      reflexivity.
Qed.

Lemma name_links_numbered (b : string) (urls : list string)
    (acc : list url_pair) :
  name_links b urls acc = acc ++ numbered b 0 urls.
Proof. unfold name_links. apply name_step_acc; [lia | reflexivity]. Qed.

Lemma row_body_items (b : string) (cells : list string) (acc : list url_pair) :
  row_body (b :: cells) acc = Return (acc ++ row_items (b :: cells)).
Proof.
  unfold row_body, row_items. cbn [row_first].
  now rewrite name_links_numbered, collect_links_filter.
Qed.

Lemma rows_loop_items (rows : list (list string)) :
  forall acc, Forall (fun row => row <> []) rows ->
    rows_loop rows acc = Return (acc ++ flat_map row_items rows).
Proof.
  induction rows as [|row rows IH]; intros acc Hne; simpl.
  - now rewrite app_nil_r.
  - inversion Hne as [|? ? Hrow Hrows]; subst.
    destruct row as [|b cells]; [congruence|].
    rewrite row_body_items, IH by assumption.
    now rewrite <- app_assoc.
Qed.

Lemma rows_loop_empty_row (rows : list (list string)) :
  forall acc, In [] rows -> rows_loop rows acc = Raise IndexError.
Proof.
  induction rows as [|row rows IH]; intros acc Hin; simpl.
  - destruct Hin.
  - destruct row as [|b cells].
    + reflexivity.
    + rewrite row_body_items. apply IH.
      destruct Hin as [E|Hin]; [discriminate | assumption].
Qed.

Lemma numbered_length (b : string) (urls : list string) :
  forall k, List.length (numbered b k urls) = List.length urls.
Proof. induction urls as [|u urls IH]; intro k; simpl; [|rewrite IH]; reflexivity. Qed.

Lemma numbered_nth (b : string) (urls : list string) :
  forall (k : Z) (j : nat) (u : string),
    nth_error urls j = Some u ->
    nth_error (numbered b k urls) j = Some (identifier b (k + Z.of_nat j), u).
Proof.
  induction urls as [|v urls IH]; intros k j u Hj.
  - destruct j; discriminate.
  - destruct j as [|j]; simpl in *.
    + injection Hj as ->. now rewrite Z.add_0_r.
    + rewrite (IH (k + 1) j u Hj). do 3 f_equal. lia.
Qed.

Lemma numbered_snd (b : string) (urls : list string) :
  forall k, map snd (numbered b k urls) = urls.
Proof. induction urls as [|u urls IH]; intro k; simpl; [|rewrite IH]; reflexivity. Qed.

End LinksFacts.

Module LinksClaims.

Import Links LinksSpec LinksFacts.

(** C3: a row of base [b] whose cells contain "http" [n] times gives [n]
    work items in column order, the first under the name [b] and the [k]-th
    after it under [b_k]; a row without such a cell gives none; the result
    of the extractor is the concatenation of the items of the rows, in row
    order.  A URL cell is any cell of the row in which "http" occurs; when
    the first cell has no "http", these are the other cells that have it. *)
Theorem return_links_numbers_urls :
  forall (open_csv : string -> option (list (list string)))
         (csv_path : string) (rows : list (list string)),
    open_csv csv_path = Some rows ->
    Forall (fun row => row <> []) rows ->
    _return_links open_csv csv_path = Return (flat_map row_items rows) /\
    forall b cells, In (b :: cells) rows ->
      let urls := filter has_http (b :: cells) in
      let items := row_items (b :: cells) in
      (forall acc, row_body (b :: cells) acc = Return (acc ++ items)) /\
      List.length items = List.length urls /\
      (forall k u, nth_error urls k = Some u ->
                   nth_error items k = Some (identifier b (Z.of_nat k), u)) /\
      (urls = [] -> items = []) /\
      (has_http b = false -> urls = filter has_http cells).
Proof.
  intros open_csv csv_path rows Hopen Hne. split.
  - unfold _return_links. rewrite Hopen.
    now rewrite rows_loop_items.
  - intros b cells _ urls items. repeat split.
    + intro acc. apply row_body_items.
    + apply numbered_length.
    + intros k u Hk. apply (numbered_nth b urls 0 k u Hk).
    + intro E. subst items. unfold row_items. fold urls. now rewrite E.
    + intro Hb. subst urls. cbn [filter]. now rewrite Hb.
Qed.

Lemma return_links_numbers_urls_witness :
  _return_links sample_csv "links.csv"
  = Return [("cat", "http://a/1.png"); ("cat_1", "http://a/2.png")].
Proof.
  refine (proj1 (return_links_numbers_urls sample_csv "links.csv" sample_rows
                   eq_refl _)).
  repeat constructor; discriminate.
Defined.

(** C4 as stated fails: the first cell of a row is tested like the others,
    and a first cell that contains "http" is emitted as the first URL of the
    row. *)
Lemma first_cell_emitted_as_url :
  row_body ["http://a/b"; "http://a/1.png"] []
  = Return [("http://a/b", "http://a/b"); ("http://a/b_1", "http://a/1.png")]
  /\ map snd (row_items ["http://a/b"; "http://a/1.png"])
     <> filter has_http ["http://a/1.png"].
Proof. split; [reflexivity | discriminate]. Qed.

(** C4, amended: every cell of a row, the first included, is tested for the
    substring "http" and every cell that contains it is emitted as a URL, in
    column order; the first cell is the base of every identifier of the row,
    and it is emitted as the row's first URL exactly when it contains "http"
    itself. *)
Theorem return_links_tests_every_cell :
  forall (b : string) (cells : list string) (acc : list url_pair),
    exists items,
      row_body (b :: cells) acc = Return (acc ++ items) /\
      map snd items = filter has_http (b :: cells) /\
      map snd items
      = (if has_http b then [b] else []) ++ filter has_http cells /\
      (forall k it, nth_error items k = Some it ->
                    fst it = identifier b (Z.of_nat k)) /\
      (has_http b = true -> nth_error items 0 = Some (b, b)).
Proof.
  intros b cells acc. exists (row_items (b :: cells)).
  split; [apply row_body_items|].
  unfold row_items. split; [apply numbered_snd|].
  split; [|split].
  - rewrite numbered_snd. simpl. now destruct (has_http b).
  - intros k it Hk.
    destruct (nth_error (filter has_http (b :: cells)) k) as [u|] eqn:Hu.
    + rewrite (numbered_nth b _ 0 k u Hu) in Hk. now injection Hk as <-.
    + apply nth_error_None in Hu. rewrite <- (numbered_length b _ 0) in Hu.
      apply nth_error_None in Hu. congruence.
  - intro Hb. simpl. now rewrite Hb.
Qed.

Lemma return_links_tests_every_cell_witness :
  exists items,
    row_body ["http://a/b"; "http://a/1.png"] [] = Return ([] ++ items)
    /\ nth_error items 0 = Some ("http://a/b", "http://a/b").
Proof.
  destruct (return_links_tests_every_cell "http://a/b" ["http://a/1.png"] [])
    as (items & H1 & _ & _ & _ & H5).
  exists items. split; [exact H1 | exact (H5 eq_refl)].
Defined.

End LinksClaims.

(** ** Download pipeline *)

Module DownloadClaims.

Import Links ImageManager DownloadSpec.

Section World.

Variable open_csv : string -> option (list (list string)).
Variable http_request : string -> Result Response.
Variable requests_get : string -> Result Response.
Variable Image_open : list Byte.byte -> Result PIL.Image.
Variable convert_data : PIL.Image -> string -> Z -> Z -> list Z.
Variable resample : PIL.Image -> Z * Z -> Z -> Z -> list Z.
Variable int_scaled : Z -> Z -> Z -> Z.
Variable image_save : PIL.Image -> string -> Result unit.

Notation "'download_images'" :=
  (_donwload_images http_request requests_get Image_open convert_data
     resample int_scaled image_save).
Notation "'loop'" :=
  (download_loop http_request requests_get Image_open convert_data
     resample int_scaled image_save).
Notation "'body'" :=
  (download_body http_request Image_open convert_data resample int_scaled
     image_save).

Lemma request_raises (self : t) (img_name link : string) (e : Exception)
    (s : State) :
  http_request link = Raise e ->
  body self img_name link s = (Raise e, s).
Proof.
  intro H. unfold download_body, bind, lift. now rewrite H.
Qed.

Lemma request_bad_status (self : t) (img_name link : string)
    (response : Response) (s : State) :
  http_request link = Return response -> status response <> 200 ->
  body self img_name link s
  = (Raise (HTTPError link (status response) (reason response)), s).
Proof.
  intros H Hs. unfold download_body, bind, lift. rewrite H.
  destruct (Z.eqb_spec (status response) 200) as [E|E]; [contradiction|].
  reflexivity.
Qed.

Lemma loop_step (self : t) (link_list : url_pair) (rest : list url_pair)
    (total : Z) (s s' : State) (result : bool) :
  download_images self link_list s = (Return result, s') ->
  loop self (link_list :: rest) total s
  = loop self rest (if result then total + 1 else total) s'.
Proof.
  intro H. cbn [download_loop]. unfold bind at 1. now rewrite H.
Qed.

Lemma loop_abort (self : t) (link_list : url_pair) (rest : list url_pair)
    (total : Z) (s s' : State) (e : Exception) :
  download_images self link_list s = (Raise e, s') ->
  loop self (link_list :: rest) total s = (Raise e, s').
Proof.
  intro H. cbn [download_loop]. unfold bind at 1. now rewrite H.
Qed.

(** C5: a response whose status is not 200 makes the download fail with an
    [HTTPError]: exactly one row [[img_name, str(err), link]] is appended to
    the error log, no image is saved, the function returns [False] and the
    caller's loop leaves [total_downloaded] as it was. *)
Theorem http_error_logged_not_counted :
  forall (self : t) (link_list : url_pair) (response : Response) (s : State),
    let img_name := name_prefix self +:+ fst link_list +:+ ".jpg" in
    let link := snd link_list in
    http_request link = Return response ->
    status response <> 200 ->
    let err := HTTPError link (status response) (reason response) in
    let s' := log_error self s [img_name; str_of_exception err; link]
                ("Error downloading image: " +:+ str_of_exception err) in
    download_images self link_list s = (Return false, s') /\
    appended s'
    = appended s
      ++ [(error_path self +:+ "/error.csv",
           [img_name;
            "HTTP Error " +:+ Py.str (status response) +:+ ": "
            +:+ reason response;
            link])] /\
    saved s' = saved s /\
    forall rest total,
      loop self (link_list :: rest) total s = loop self rest total s'.
Proof.
  intros self link_list response s img_name link Hreq Hstatus err s'.
  assert (H : download_images self link_list s = (Return false, s')).
  { unfold _donwload_images, try_except. fold img_name link.
    rewrite (request_bad_status self img_name link response s Hreq Hstatus).
    reflexivity. }
  split; [exact H|]. split; [reflexivity|]. split; [reflexivity|].
  intros rest total. now rewrite (loop_step _ _ _ _ _ _ _ H).
Qed.

(** C9, amended: an exception of the fetch that no [except] clause names
    (a transport fault of the HTTP client, for instance) is not caught: it
    leaves the download function and the loop of [start_download], nothing
    is written to the error log, no count is returned and the remaining
    work items are not processed. *)
Theorem unhandled_fault_propagates :
  forall (self : t) (link_list : url_pair) (e : Exception) (s : State),
    http_request (snd link_list) = Raise e ->
    handled e = false ->
    download_images self link_list s = (Raise e, s) /\
    forall rest total,
      loop self (link_list :: rest) total s = (Raise e, s).
Proof.
  intros self link_list e s Hreq He.
  assert (H : download_images self link_list s = (Raise e, s)).
  { unfold _donwload_images, try_except.
    rewrite (request_raises self _ _ e s Hreq).
    destruct e; try discriminate He; reflexivity. }
  split; [exact H|].
  intros rest total. exact (loop_abort _ _ _ _ _ _ _ H).
Qed.

(** C10: the extractor returns a list exactly when no row of the file is
    empty; a row without cells (a blank line) makes [row[0]] raise
    [IndexError], which nothing catches: [start_download] raises it before
    any download. *)
Theorem return_links_index_error :
  forall (csv_path : string) (rows : list (list string)),
    open_csv csv_path = Some rows ->
    (In [] rows ->
     _return_links open_csv csv_path = Raise IndexError /\
     forall self s,
       start_download open_csv http_request requests_get Image_open
         convert_data resample int_scaled image_save self csv_path s
       = (Raise IndexError, s)) /\
    (~ In [] rows ->
     _return_links open_csv csv_path
     = Return (flat_map LinksSpec.row_items rows)).
Proof.
  intros csv_path rows Hopen. split.
  - intro Hin.
    assert (H : _return_links open_csv csv_path = Raise IndexError).
    { unfold _return_links. rewrite Hopen.
      now apply LinksFacts.rows_loop_empty_row. }
    split; [exact H|].
    intros self s. unfold start_download, bind, lift. now rewrite H.
  - intro Hnot. unfold _return_links. rewrite Hopen.
    rewrite LinksFacts.rows_loop_items; [reflexivity|].
    apply Forall_forall. intros row Hrow E. subst row. contradiction.
Qed.

End World.

(** C1: a download that hits a timeout.  The first client leaves a request
    whose server does not answer within the timeouts with [MaxRetryError]
    and with no other exception, [socket.timeout] in particular; no
    [except] clause names that class, so the download function raises it:
    no row is appended to the error log, nothing is returned, and the loop
    of [start_download] raises it in turn, returning no count and leaving
    the remaining work items aside.  The clause [except socket.timeout],
    which would append the row [[img_name, 'Timeout Err', link]] and return
    [True], is not reached by a timeout of the request. *)
Theorem timeout_aborts_download :
  forall (open_csv : string -> option (list (list string)))
         (wire : string -> Urllib3.Exchange)
         (requests_get : string -> Result Response)
         (Image_open : list Byte.byte -> Result PIL.Image)
         (convert_data : PIL.Image -> string -> Z -> Z -> list Z)
         (resample : PIL.Image -> Z * Z -> Z -> Z -> list Z)
         (int_scaled : Z -> Z -> Z -> Z)
         (image_save : PIL.Image -> string -> Result unit)
         (self : t) (link_list : url_pair) (s : State),
    let http_request := Urllib3.request wire in
    let img_name := name_prefix self +:+ fst link_list +:+ ".jpg" in
    let link := snd link_list in
    wire link = Urllib3.TimesOut ->
    http_request link = Raise Urllib3.MaxRetryError /\
    (forall l, http_request l <> Raise socket_timeout) /\
    _donwload_images http_request requests_get Image_open convert_data
      resample int_scaled image_save self link_list s
    = (Raise Urllib3.MaxRetryError, s) /\
    (forall rest total,
       download_loop http_request requests_get Image_open convert_data
         resample int_scaled image_save self (link_list :: rest) total s
       = (Raise Urllib3.MaxRetryError, s)) /\
    (forall csv_path rest,
       _return_links open_csv csv_path = Return (link_list :: rest) ->
       start_download open_csv http_request requests_get Image_open
         convert_data resample int_scaled image_save self csv_path s
       = (Raise Urllib3.MaxRetryError, s)) /\
    download_handler requests_get Image_open convert_data resample
      int_scaled image_save self img_name link socket_timeout s
    = (Return true,
       log_error self s [img_name; "Timeout Err"; link]
         "Error downloading image: Connection Timeout").
Proof.
  intros open_csv wire requests_get Image_open convert_data resample
    int_scaled image_save self link_list s http_request img_name link Hwire.
  assert (Hreq : http_request link = Raise Urllib3.MaxRetryError).
  { unfold http_request, Urllib3.request. now rewrite Hwire. }
  assert (H : _donwload_images http_request requests_get Image_open
                convert_data resample int_scaled image_save self link_list s
              = (Raise Urllib3.MaxRetryError, s)).
  { unfold _donwload_images, try_except. fold img_name link.
    rewrite (request_raises http_request Image_open convert_data resample
               int_scaled image_save self img_name link _ s Hreq).
    reflexivity. }
  split; [exact Hreq|]. split.
  { intros l. unfold http_request, Urllib3.request.
    destruct (wire l); discriminate. }
  split; [exact H|]. split.
  { intros rest total.
    exact (loop_abort http_request requests_get Image_open convert_data
             resample int_scaled image_save self link_list rest total s s _
             H). }
  split; [|reflexivity].
  intros csv_path rest Hlinks. unfold start_download, bind at 1, lift.
  rewrite Hlinks.
  exact (loop_abort http_request requests_get Image_open convert_data
           resample int_scaled image_save self link_list rest 0 s s _ H).
Qed.

Notation "'sample_download'" :=
  (_donwload_images sample_request sample_request sample_open sample_convert
     sample_resample sample_scaled sample_save).
Notation "'sample_loop'" :=
  (download_loop sample_request sample_request sample_open sample_convert
     sample_resample sample_scaled sample_save).
Notation "'sample_start'" :=
  (start_download batch_csv sample_request sample_request sample_open
     sample_convert sample_resample sample_scaled sample_save).

Lemma timeout_aborts_download_witness :
  sample_download sample_manager ("cat", "http://a/slow.png") empty_state
  = (Raise Urllib3.MaxRetryError, empty_state)
  /\ sample_loop sample_manager
       [("cat", "http://a/slow.png"); ("dog", "http://a/1.png")] 0
       empty_state
     = (Raise Urllib3.MaxRetryError, empty_state).
Proof.
  pose proof (timeout_aborts_download batch_csv sample_wire sample_request
                sample_open sample_convert sample_resample sample_scaled
                sample_save sample_manager ("cat", "http://a/slow.png")
                empty_state eq_refl) as (_ & _ & H1 & H2 & _).
  split; [exact H1|]. exact (H2 [("dog", "http://a/1.png")] 0).
Defined.

Lemma http_error_logged_not_counted_witness :
  sample_download sample_manager ("cat", "http://a/missing.png") empty_state
  = (Return false,
     {| saved := [];
        appended := [("/work/report/error.csv",
                      ["img_cat.jpg"; "HTTP Error 404: Not Found";
                       "http://a/missing.png"])];
        stdout := ["Error downloading image: HTTP Error 404: Not Found"] |})
  /\ fst (sample_loop sample_manager [("cat", "http://a/missing.png")] 0
            empty_state)
     = Return 0.
Proof.
  assert (Hs : 404 <> 200) by discriminate.
  pose proof (http_error_logged_not_counted sample_request sample_request
                sample_open sample_convert sample_resample sample_scaled
                sample_save sample_manager ("cat", "http://a/missing.png")
                {| status := 404; reason := "Not Found"; data := [] |}
                empty_state eq_refl Hs) as (H1 & _ & _ & H2).
  split; [exact H1|]. rewrite H2. reflexivity.
Defined.

(** C9 as stated fails: a fetch that raises a transport fault makes the
    download function raise; it returns nothing and writes no row, and a
    batch that meets such an item stops there, the items after it being left
    out. *)
Lemma transport_fault_not_recorded :
  sample_download sample_manager ("b", "http://a/down.png") empty_state
  = (Raise (OtherException "MaxRetryError"), empty_state)
  /\ (~ exists (result : bool) (s : State),
        sample_download sample_manager ("b", "http://a/down.png") empty_state
        = (Return result, s))
  /\ fst (sample_start sample_manager "batch.csv" empty_state)
     = Raise (OtherException "MaxRetryError")
  /\ map fst (saved (snd (sample_start sample_manager "batch.csv" empty_state)))
     = ["/work/images/img_a.jpg"]
  /\ appended (snd (sample_start sample_manager "batch.csv" empty_state)) = [].
Proof.
  split; [reflexivity|]. split.
  - intros (result & s & H). discriminate H.
  - repeat split; reflexivity.
Qed.

Lemma unhandled_fault_propagates_witness :
  sample_download sample_manager ("b", "http://a/down.png") empty_state
  = (Raise (OtherException "MaxRetryError"), empty_state).
Proof.
  exact (proj1 (unhandled_fault_propagates sample_request sample_request
                  sample_open sample_convert sample_resample sample_scaled
                  sample_save sample_manager ("b", "http://a/down.png")
                  (OtherException "MaxRetryError") empty_state
                  eq_refl eq_refl)).
Defined.

Lemma return_links_index_error_witness :
  _return_links LinksSpec.blank_line_csv "links.csv" = Raise IndexError.
Proof.
  refine (proj1 (proj1 (return_links_index_error LinksSpec.blank_line_csv
                          sample_request sample_request sample_open
                          sample_convert sample_resample sample_scaled
                          sample_save "links.csv" _ eq_refl) _)).
  right; left; reflexivity.
Defined.

End DownloadClaims.

(** ** Image normalisation *)

Module ImageFacts.

Import ImageManager ImageSpec.

Lemma size_eqb_eq (a b : Z * Z) : PIL.size_eqb a b = true -> a = b.
Proof.
  destruct a as [a1 a2], b as [b1 b2]. unfold PIL.size_eqb. simpl.
  intro H. apply andb_prop in H as [H1 H2].
  apply Z.eqb_eq in H1, H2. now subst.
Qed.

Lemma div255_scaled (v : Z) : 0 <= v <= 255 -> PIL.div255 (v * 255) = v.
Proof.
  intro Hv. unfold PIL.div255. cbv zeta.
  rewrite !Z.shiftr_div_pow2 by lia.
  change (2 ^ 8) with 256.
  assert (E : (v * 255 + 128) / 256 = if v <=? 128 then v else v - 1).
  { destruct (Z.leb_spec v 128).
    - symmetry. apply (Z.div_unique _ _ _ (128 - v)); lia.
    - symmetry. apply (Z.div_unique _ _ _ (384 - v)); lia. }
  rewrite E. destruct (Z.leb_spec v 128).
  - symmetry. apply (Z.div_unique _ _ _ 128); lia.
  - symmetry. apply (Z.div_unique _ _ _ 127); lia.
Qed.

(** Under a mask value of 255 the blend is the source value. *)
Lemma blend8_opaque (dst v : Z) : 0 <= v <= 255 -> PIL.blend8 255 dst v = v.
Proof.
  intro Hv. unfold PIL.blend8.
  replace (dst * (255 - 255) + v * 255) with (v * 255) by lia.
  now apply div255_scaled.
Qed.

Section Library.

Variable convert_data : PIL.Image -> string -> Z -> Z -> list Z.
Variable resample : PIL.Image -> Z * Z -> Z -> Z -> list Z.
Variable int_scaled : Z -> Z -> Z -> Z.

Lemma convert_mode (im : PIL.Image) (m : string) :
  PIL.mode (PIL.convert convert_data im m) = m.
Proof.
  unfold PIL.convert. destruct (String.eqb_spec (PIL.mode im) m);
    [assumption | reflexivity].
Qed.

Lemma convert_size (im : PIL.Image) (m : string) :
  PIL.size (PIL.convert convert_data im m) = PIL.size im.
Proof. unfold PIL.convert. now destruct (String.eqb (PIL.mode im) m). Qed.

Lemma convert_same_mode (im : PIL.Image) :
  PIL.convert convert_data im (PIL.mode im) = im.
Proof. unfold PIL.convert. now rewrite String.eqb_refl. Qed.

Lemma size_eqb_neq (a b : Z * Z) : a <> b -> PIL.size_eqb a b = false.
Proof.
  intro H. destruct (PIL.size_eqb a b) eqn:E; [|reflexivity].
  now apply size_eqb_eq in E.
Qed.

Lemma size_eqb_refl (a : Z * Z) : PIL.size_eqb a a = true.
Proof. unfold PIL.size_eqb. now rewrite !Z.eqb_refl. Qed.

Lemma resize_size (im out : PIL.Image) (sz : Z * Z) :
  PIL.resize resample im sz = Return out -> PIL.size out = sz.
Proof.
  unfold PIL.resize. destruct (PIL.size_eqb (PIL.size im) sz) eqn:E.
  - intro H. injection H as <-. now apply size_eqb_eq.
  - destruct ((fst sz <? 1) || (snd sz <? 1)); [discriminate|].
    intro H. now injection H as <-.
Qed.

Lemma resize_mode (im out : PIL.Image) (sz : Z * Z) :
  PIL.resize resample im sz = Return out -> PIL.mode out = PIL.mode im.
Proof.
  unfold PIL.resize. destruct (PIL.size_eqb (PIL.size im) sz).
  - intro H. now injection H as <-.
  - destruct ((fst sz <? 1) || (snd sz <? 1)); [discriminate|].
    intro H. now injection H as <-.
Qed.

(** A resize to the image's own size returns the image. *)
Lemma resize_same_size (im : PIL.Image) :
  PIL.resize resample im (PIL.size im) = Return im.
Proof. unfold PIL.resize. now rewrite size_eqb_refl. Qed.

(** A resize to another size of which no side is less than 1 returns the
    resampled image. *)
Lemma resize_scaled (im : PIL.Image) (sz : Z * Z) :
  PIL.size im <> sz -> 1 <= fst sz -> 1 <= snd sz ->
  PIL.resize resample im sz = Return (PIL.resized resample im sz).
Proof.
  intros Hne H1 H2. unfold PIL.resize. rewrite (size_eqb_neq _ _ Hne).
  apply Z.ltb_ge in H1, H2. now rewrite H1, H2.
Qed.

Lemma resize_returns (im : PIL.Image) (sz : Z * Z) :
  1 <= fst sz -> 1 <= snd sz ->
  exists out, PIL.resize resample im sz = Return out.
Proof.
  intros H1 H2. unfold PIL.resize.
  destruct (PIL.size_eqb (PIL.size im) sz); [now eexists|].
  apply Z.ltb_ge in H1, H2. rewrite H1, H2. now eexists.
Qed.

(** A resize to another size of which a side is less than 1 raises. *)
Lemma resize_raises (im : PIL.Image) (sz : Z * Z) :
  PIL.size im <> sz -> fst sz < 1 \/ snd sz < 1 ->
  PIL.resize resample im sz = Raise ValueError.
Proof.
  intros Hne H. unfold PIL.resize. rewrite (size_eqb_neq _ _ Hne).
  destruct H as [H|H]; apply Z.ltb_lt in H; rewrite H;
    [reflexivity | now rewrite orb_true_r].
Qed.

Lemma new_returns (m : string) (sz : Z * Z) (color : list Z) :
  0 <= fst sz -> 0 <= snd sz ->
  PIL.new m sz color = Return (PIL.canvas m sz color).
Proof.
  intros H1 H2. unfold PIL.new.
  apply Z.ltb_ge in H1, H2. now rewrite H1, H2.
Qed.

Lemma new_inv (m : string) (sz : Z * Z) (color : list Z)
    (im : PIL.Image) :
  PIL.new m sz color = Return im -> im = PIL.canvas m sz color.
Proof.
  unfold PIL.new.
  destruct ((fst sz <? 0) || (snd sz <? 0)); [discriminate|].
  intro H. now injection H.
Qed.

Lemma paste_size (self im : PIL.Image) (box : Z * Z) (mask : option PIL.Image) :
  PIL.size (PIL.paste convert_data self im box mask) = PIL.size self.
Proof. reflexivity. Qed.

Lemma paste_mode (self im : PIL.Image) (box : Z * Z) (mask : option PIL.Image) :
  PIL.mode (PIL.paste convert_data self im box mask) = PIL.mode self.
Proof. reflexivity. Qed.

(** [split()[-1]] of an RGBA image is its fourth band. *)
Lemma split_last_rgba (im : PIL.Image) :
  PIL.mode im = "RGBA" -> List.last (PIL.split im) im = PIL.band im 3.
Proof. intro H. unfold PIL.split. rewrite H. reflexivity. Qed.

Lemma needs_flattening_modes (im : PIL.Image) :
  needs_flattening im = true <->
  PIL.mode im = "RGBA" \/ PIL.mode im = "LA" \/ PIL.mode im = "P".
Proof.
  unfold needs_flattening. simpl.
  destruct (String.eqb_spec (PIL.mode im) "RGBA") as [E1|E1];
  destruct (String.eqb_spec (PIL.mode im) "LA") as [E2|E2];
  destruct (String.eqb_spec (PIL.mode im) "P") as [E3|E3]; simpl;
    split; intro H; try reflexivity; try discriminate; auto.
  destruct H as [H|[H|H]]; contradiction.
Qed.

Lemma remove_transparency_applied (im : PIL.Image) :
  needs_flattening im = true ->
  _remove_transparency convert_data im white = flattened convert_data im.
Proof.
  intro H. unfold _remove_transparency, flattened, paste, convert. rewrite H.
  rewrite split_last_rgba by apply convert_mode. reflexivity.
Qed.

Lemma remove_transparency_skipped (im : PIL.Image) :
  needs_flattening im = false ->
  _remove_transparency convert_data im white = im.
Proof. intro H. unfold _remove_transparency. now rewrite H. Qed.

(** The pixels of a flattened image: every band of white blended with the
    RGBA rendering of the image under its own alpha value. *)
Lemma flattened_pixel (im : PIL.Image) (x y : Z) :
  PIL.inside (PIL.size im) x y = true ->
  PIL.getpixel (flattened convert_data im) x y
  = PIL.zip_with
      (PIL.blend8
         (nth 3 (PIL.getpixel (PIL.convert convert_data im "RGBA") x y) 0))
      [255; 255; 255; 255]
      (PIL.getpixel (PIL.convert convert_data im "RGBA") x y).
Proof.
  intro Hin. unfold flattened, PIL.paste.
  cbn [PIL.getpixel PIL.mode PIL.size PIL.canvas PIL.band fst snd hd].
  rewrite !Z.sub_0_r, convert_size, Hin. reflexivity.
Qed.

Lemma remove_transparency_size (file : PIL.Image) :
  PIL.size (_remove_transparency convert_data file white) = PIL.size file.
Proof.
  destruct (needs_flattening file) eqn:E.
  - now rewrite remove_transparency_applied.
  - now rewrite remove_transparency_skipped.
Qed.

End Library.

End ImageFacts.

Module ImageClaims.

Import ImageManager DownloadSpec ImageSpec ImageFacts.

Section Library.

Variable http_request : string -> Result Response.
Variable requests_get : string -> Result Response.
Variable Image_open : list Byte.byte -> Result PIL.Image.
Variable convert_data : PIL.Image -> string -> Z -> Z -> list Z.
Variable resample : PIL.Image -> Z * Z -> Z -> Z -> list Z.
Variable int_scaled : Z -> Z -> Z -> Z.
Variable image_save : PIL.Image -> string -> Result unit.

Notation "'resize_image'" :=
  (_resize_image convert_data resample int_scaled).
Notation "'remove_transparency'" := (_remove_transparency convert_data).

Lemma pad_size (size : Z * Z) (image out : PIL.Image) :
  pad convert_data size image = Return out -> PIL.size out = size.
Proof.
  unfold pad, and_then.
  destruct (PIL.new "RGB" size [255; 255; 255]) as [canvas|e] eqn:E;
    [|discriminate].
  apply new_inv in E. subst canvas.
  intro H. now injection H as <-.
Qed.

Lemma pad_returns (size : Z * Z) (image : PIL.Image) :
  0 <= fst size -> 0 <= snd size ->
  pad convert_data size image
  = Return (paste convert_data (PIL.canvas "RGB" size [255; 255; 255]) image
              (half_gap (fst size) (fst (PIL.size image)),
               half_gap (snd size) (snd (PIL.size image))) None).
Proof.
  intros H1 H2. unfold pad. now rewrite new_returns.
Qed.

(** Whatever [_resize_image] returns has the target size on both sides. *)
Lemma resize_image_size (self : t) (image out : PIL.Image) :
  resize_image self image = Return out ->
  PIL.size out = (new_size self, new_size self).
Proof.
  unfold _resize_image, Image_resize.
  destruct (PIL.size image) as [width height] eqn:Hsize.
  destruct (Z.eqb_spec width height) as [E|E]; cbn [negb].
  - destruct (Z.eqb_spec width (new_size self)) as [Ew|Ew];
    destruct (Z.eqb_spec height (new_size self)) as [Eh|Eh]; cbn [negb orb];
      try apply resize_size.
    intro H. injection H as <-. rewrite Hsize. now subst.
  - destruct (width >? height).
    { unfold and_then. destruct (PIL.resize resample image _);
        [apply pad_size | discriminate]. }
    destruct (height >? width).
    { unfold and_then. destruct (PIL.resize resample image _);
        [apply pad_size | discriminate]. }
    apply resize_size.
Qed.

Lemma resize_image_square (self : t) (image : PIL.Image) :
  fst (PIL.size image) = snd (PIL.size image) ->
  resize_image self image
  = PIL.resize resample image (new_size self, new_size self).
Proof.
  unfold _resize_image, Image_resize.
  destruct (PIL.size image) as [width height] eqn:Hsize. cbn [fst snd].
  intros ->. rewrite Z.eqb_refl. cbn [negb].
  destruct (Z.eqb_spec height (new_size self)) as [E|E]; cbn [negb orb].
  - unfold PIL.resize, PIL.size_eqb. rewrite Hsize. cbn [fst snd].
    rewrite E, Z.eqb_refl. reflexivity.
  - reflexivity.
Qed.

(** An image wider than high whose scaled height is less than 1 makes the
    library's resize raise. *)
Lemma resize_image_wide_raises (self : t) (image : PIL.Image) :
  1 <= snd (PIL.size image) < fst (PIL.size image) ->
  int_scaled (snd (PIL.size image)) (new_size self) (fst (PIL.size image))
  < 1 ->
  resize_image self image = Raise ValueError.
Proof.
  unfold _resize_image, Image_resize.
  destruct (PIL.size image) as [width height] eqn:Hsize. cbn [fst snd].
  intros Hwh Hscaled.
  destruct (Z.eqb_spec width height) as [E|_]; [lia|]. cbn [negb].
  destruct (Z.gtb_spec width height) as [_|E]; [|lia].
  rewrite resize_raises; [reflexivity | | right; exact Hscaled].
  rewrite Hsize. intro H. injection H as _ H. lia.
Qed.

Lemma resize_image_tall_raises (self : t) (image : PIL.Image) :
  1 <= fst (PIL.size image) < snd (PIL.size image) ->
  int_scaled (fst (PIL.size image)) (new_size self) (snd (PIL.size image))
  < 1 ->
  resize_image self image = Raise ValueError.
Proof.
  unfold _resize_image, Image_resize.
  destruct (PIL.size image) as [width height] eqn:Hsize. cbn [fst snd].
  intros Hwh Hscaled.
  destruct (Z.eqb_spec width height) as [E|_]; [lia|]. cbn [negb].
  destruct (Z.gtb_spec width height) as [E|_]; [lia|].
  destruct (Z.gtb_spec height width) as [_|E]; [|lia].
  rewrite resize_raises; [reflexivity | | left; exact Hscaled].
  rewrite Hsize. intro H. injection H as H _. lia.
Qed.

(** A target size less than 1 makes the library's resize raise. *)
Lemma resize_image_target_raises (self : t) (image : PIL.Image) :
  1 <= fst (PIL.size image) -> 1 <= snd (PIL.size image) ->
  new_size self < 1 ->
  resize_image self image = Raise ValueError.
Proof.
  unfold _resize_image, Image_resize.
  destruct (PIL.size image) as [width height] eqn:Hsize. cbn [fst snd].
  intros Hw Hh Hs.
  destruct (Z.eqb_spec width height) as [E|E]; cbn [negb].
  - destruct (Z.eqb_spec width (new_size self)) as [Ew|Ew]; [lia|].
    cbn [negb orb]. apply resize_raises; [|left; exact Hs].
    rewrite Hsize. intro H. injection H as H _. lia.
  - destruct (Z.gtb_spec width height) as [G|G].
    { rewrite resize_raises; [reflexivity | | left; exact Hs].
      rewrite Hsize. intro H. injection H as H _. lia. }
    destruct (Z.gtb_spec height width) as [G'|G']; [|lia].
    rewrite resize_raises; [reflexivity | | right; exact Hs].
    rewrite Hsize. intro H. injection H as _ H. lia.
Qed.

(** With a target size of at least 1, [_resize_image] returns for a square
    image and for an image whose scaled shorter side is at least 1. *)
Lemma resize_image_returns (self : t) (image : PIL.Image) :
  1 <= new_size self ->
  fst (PIL.size image) = snd (PIL.size image) \/
  (snd (PIL.size image) < fst (PIL.size image) /\
   1 <= int_scaled (snd (PIL.size image)) (new_size self)
          (fst (PIL.size image))) \/
  (fst (PIL.size image) < snd (PIL.size image) /\
   1 <= int_scaled (fst (PIL.size image)) (new_size self)
          (snd (PIL.size image))) ->
  exists out, resize_image self image = Return out.
Proof.
  intros Hs Hcases.
  destruct Hcases as [Hsq|Hcases].
  { rewrite (resize_image_square self image Hsq).
    now apply resize_returns. }
  unfold _resize_image, Image_resize.
  destruct (PIL.size image) as [width height] eqn:Hsize. cbn [fst snd] in *.
  destruct (Z.eqb_spec width height) as [E|_]; [lia|]. cbn [negb].
  destruct Hcases as [[Hwh Hscaled]|[Hwh Hscaled]].
  - destruct (Z.gtb_spec width height) as [_|E]; [|lia].
    destruct (resize_returns resample image
                (new_size self, int_scaled height (new_size self) width))
      as [scaled ->]; [exact Hs | exact Hscaled |].
    cbn [and_then]. rewrite pad_returns by (cbn [fst snd]; lia).
    now eexists.
  - destruct (Z.gtb_spec width height) as [E|_]; [lia|].
    destruct (Z.gtb_spec height width) as [_|E]; [|lia].
    destruct (resize_returns resample image
                (int_scaled width (new_size self) height, new_size self))
      as [scaled ->]; [exact Hscaled | exact Hs |].
    cbn [and_then]. rewrite pad_returns by (cbn [fst snd]; lia).
    now eexists.
Qed.

(** C2: the padded resize does not return an image of [new_size] by
    [new_size] for every width and height.  For an image so thin that its
    scaled shorter side, [int(side * float(new_size / longer_side))], is
    less than 1 (1001 by 1 at the target size 1000), and for a target size
    less than 1, the library's resize raises [ValueError]: nothing is
    returned, and the download of such an image raises the exception, which
    no [except] clause names, instead of saving an image.  Whatever the
    function returns has exactly [new_size] by [new_size]; it returns when
    the target size is at least 1 and the image is square or its scaled
    shorter side is at least 1; on a square argument the result is the
    library's resize to that size and nothing else (no canvas, no paste),
    and the argument itself when it already has the target size. *)
Theorem resize_image_size_or_error :
  forall (self : t) (image : PIL.Image),
    let width := fst (PIL.size image) in
    let height := snd (PIL.size image) in
    (1 <= height < width ->
     int_scaled height (new_size self) width < 1 ->
     resize_image self image = Raise ValueError) /\
    (1 <= width < height ->
     int_scaled width (new_size self) height < 1 ->
     resize_image self image = Raise ValueError) /\
    (1 <= width -> 1 <= height -> new_size self < 1 ->
     resize_image self image = Raise ValueError) /\
    (forall out, resize_image self image = Return out ->
       PIL.size out = (new_size self, new_size self)) /\
    (1 <= new_size self ->
     width = height \/
     (height < width /\ 1 <= int_scaled height (new_size self) width) \/
     (width < height /\ 1 <= int_scaled width (new_size self) height) ->
     exists out, resize_image self image = Return out) /\
    (width = height ->
     resize_image self image
     = PIL.resize resample image (new_size self, new_size self) /\
     (width = new_size self -> resize_image self image = Return image)) /\
    (forall link_list response s,
       http_request (snd link_list) = Return response ->
       status response = 200 ->
       Image_open (data response) = Return image ->
       resize self = true ->
       1 <= height < width ->
       int_scaled height (new_size self) width < 1 ->
       _donwload_images http_request requests_get Image_open convert_data
         resample int_scaled image_save self link_list s
       = (Raise ValueError, s)).
Proof.
  intros self image width height.
  split; [apply resize_image_wide_raises|].
  split; [apply resize_image_tall_raises|].
  split; [apply resize_image_target_raises|].
  split; [intro out; apply resize_image_size|].
  split; [apply resize_image_returns|].
  split.
  - intro Hsq. split; [now apply resize_image_square|].
    intro Hw. rewrite resize_image_square by assumption.
    replace (new_size self, new_size self) with (PIL.size image).
    + apply resize_same_size.
    + subst width height. destruct (PIL.size image) as [w h].
      cbn [fst snd] in *. now subst.
  - intros link_list response s Hreq Hstatus Hopen Hresize Hthin Hscaled.
    unfold _donwload_images, try_except, download_body, bind at 1, lift.
    rewrite Hreq, Hstatus. cbn [Z.eqb Pos.eqb negb].
    unfold decode_and_save, bind, lift. rewrite Hopen, Hresize.
    rewrite resize_image_wide_raises; [reflexivity | |];
      rewrite convert_size, remove_transparency_size; assumption.
Qed.

(** C6, amended: the flattening step is applied whenever the mode is RGBA
    or LA, or P with a transparency entry, and it is not applied to a mode
    other than RGBA, LA and P, whose images are returned unchanged (the other
    modes with an alpha band, PA for instance, among them).  When applied,
    the step pastes the image on a white canvas of mode RGBA and of the same
    size, with the alpha band of the image's RGBA rendering as mask: every
    band is the blend of 255 and of the image's value under the alpha value.
    The result has mode RGBA, so it still has an alpha band. *)
Theorem remove_transparency_flattens :
  forall (image_object : PIL.Image),
    let flat := remove_transparency image_object white in
    let rgba := PIL.convert convert_data image_object "RGBA" in
    (PIL.mode image_object = "RGBA" \/ PIL.mode image_object = "LA" \/
     (PIL.mode image_object = "P" /\
      PIL.info_has "transparency" image_object = true) ->
     needs_flattening image_object = true /\
     flat
     = PIL.paste convert_data
         (PIL.canvas "RGBA" (PIL.size image_object) [255; 255; 255; 255])
         image_object (0, 0) (Some (PIL.band rgba 3)) /\
     PIL.mode flat = "RGBA" /\
     has_alpha_channel (PIL.mode flat) = true /\
     PIL.size flat = PIL.size image_object /\
     forall x y, PIL.inside (PIL.size image_object) x y = true ->
       PIL.getpixel flat x y
       = PIL.zip_with (PIL.blend8 (nth 3 (PIL.getpixel rgba x y) 0))
           [255; 255; 255; 255] (PIL.getpixel rgba x y)) /\
    (PIL.mode image_object <> "RGBA" -> PIL.mode image_object <> "LA" ->
     PIL.mode image_object <> "P" ->
     needs_flattening image_object = false /\ flat = image_object).
Proof.
  intros image_object flat rgba. split.
  - intro Hmode.
    assert (Hn : needs_flattening image_object = true).
    { apply needs_flattening_modes.
      destruct Hmode as [H|[H|[H _]]]; auto. }
    assert (Hflat : flat = flattened convert_data image_object).
    { now apply remove_transparency_applied. }
    split; [exact Hn|]. rewrite Hflat.
    split; [reflexivity|]. split; [reflexivity|]. split; [reflexivity|].
    split; [reflexivity|].
    intros x y Hin. now apply flattened_pixel.
  - intros H1 H2 H3.
    assert (Hn : needs_flattening image_object = false).
    { destruct (needs_flattening image_object) eqn:E; [|reflexivity].
      apply needs_flattening_modes in E.
      destruct E as [E|[E|E]]; contradiction. }
    split; [exact Hn|]. now apply remove_transparency_skipped.
Qed.

(** C7, amended: on an image that is fully opaque (its RGBA rendering has
    the alpha value 255 at every pixel), the flattening step keeps every
    pixel value: the RGBA rendering of the result is that of the argument.
    For an argument of mode RGBA, the mode of a flattened image, the pixels
    themselves are equal; an argument of a mode that is not flattened, RGB
    for instance, is returned as it is.  (The result of a flattening is not
    fully opaque in general, and a second flattening changes it: this
    property is about opaque arguments only.) *)
Theorem remove_transparency_keeps_opaque :
  forall (image_object : PIL.Image),
    let flat := remove_transparency image_object white in
    let rgba := PIL.convert convert_data image_object "RGBA" in
    valid_rgba rgba -> opaque rgba ->
    (forall x y, PIL.inside (PIL.size image_object) x y = true ->
       PIL.getpixel (PIL.convert convert_data flat "RGBA") x y
       = PIL.getpixel rgba x y) /\
    (PIL.mode image_object = "RGBA" ->
     PIL.mode flat = "RGBA" /\ PIL.size flat = PIL.size image_object /\
     forall x y, PIL.inside (PIL.size image_object) x y = true ->
       PIL.getpixel flat x y = PIL.getpixel image_object x y) /\
    (needs_flattening image_object = false -> flat = image_object).
Proof.
  intros image_object flat rgba Hvalid Hopaque.
  assert (Hpix : needs_flattening image_object = true ->
                 forall x y, PIL.inside (PIL.size image_object) x y = true ->
                   PIL.getpixel flat x y = PIL.getpixel rgba x y).
  { intros Hn x y Hin. subst flat.
    rewrite remove_transparency_applied, flattened_pixel by assumption.
    fold rgba.
    assert (Hin' : PIL.inside (PIL.size rgba) x y = true).
    { subst rgba. now rewrite convert_size. }
    specialize (Hopaque x y Hin'). rewrite Hopaque.
    destruct (Hvalid x y Hin') as (r & g & b & a & E & Hr & Hg & Hb & Ha).
    rewrite E. cbn [PIL.zip_with].
    now rewrite !blend8_opaque. }
  split; [|split].
  - intros x y Hin.
    destruct (needs_flattening image_object) eqn:Hn.
    + assert (Hm : PIL.mode flat = "RGBA").
      { subst flat. now rewrite remove_transparency_applied. }
      rewrite <- Hm, convert_same_mode. now apply Hpix.
    + subst flat. now rewrite remove_transparency_skipped.
  - intro Hmode.
    assert (Hn : needs_flattening image_object = true).
    { apply needs_flattening_modes. now left. }
    assert (Hr : rgba = image_object).
    { subst rgba. rewrite <- Hmode. apply convert_same_mode. }
    split; [|split].
    + subst flat. now rewrite remove_transparency_applied.
    + subst flat. now rewrite remove_transparency_applied.
    + intros x y Hin. rewrite (Hpix Hn x y Hin). now rewrite Hr.
  - intro Hn. subst flat. now apply remove_transparency_skipped.
Qed.

End Library.

Notation "'sample_flatten'" := (_remove_transparency sample_convert).
Notation "'sample_resize'" :=
  (_resize_image sample_convert sample_resample sample_scaled).

Lemma resize_image_size_or_error_witness :
  sample_resize sample_manager thin_sample = Raise ValueError
  /\ _donwload_images sample_request sample_request thin_open sample_convert
       sample_resample sample_scaled sample_save sample_manager
       ("thin", "http://a/thin.png") empty_state
     = (Raise ValueError, empty_state)
  /\ (exists out, sample_resize sample_manager wide_sample = Return out)
  /\ sample_resize sample_manager square_sample
     = PIL.resize sample_resample square_sample (1000, 1000).
Proof.
  destruct (resize_image_size_or_error sample_request sample_request
              thin_open sample_convert sample_resample sample_scaled
              sample_save sample_manager thin_sample)
    as (H1 & _ & _ & _ & _ & _ & H2).
  destruct (resize_image_size_or_error sample_request sample_request
              thin_open sample_convert sample_resample sample_scaled
              sample_save sample_manager wide_sample)
    as (_ & _ & _ & _ & H3 & _).
  destruct (resize_image_size_or_error sample_request sample_request
              thin_open sample_convert sample_resample sample_scaled
              sample_save sample_manager square_sample)
    as (_ & _ & _ & _ & _ & H4 & _).
  assert (Hthin : 1 <= 1 < 1001) by lia.
  assert (Hscaled : sample_scaled 1 1000 1001 < 1) by reflexivity.
  assert (Hwide : 500 < 2000 /\ 1 <= sample_scaled 500 1000 2000).
  { split; [reflexivity | discriminate]. }
  assert (Htarget : 1 <= 1000) by discriminate.
  split; [exact (H1 Hthin Hscaled)|].
  split.
  { exact (H2 ("thin", "http://a/thin.png")
             {| status := 200; reason := "OK"; data := [Byte.x01] |}
             empty_state eq_refl eq_refl eq_refl eq_refl Hthin Hscaled). }
  split; [exact (H3 Htarget (or_intror (or_introl Hwide)))|].
  exact (proj1 (H4 eq_refl)).
Defined.

(** C6 as stated fails: the image that the flattening step returns has
    mode RGBA, hence an alpha band; and an image of mode PA, which has an
    alpha band, is not flattened. *)
Lemma flattened_image_keeps_alpha_band :
  needs_flattening rgba_sample = true
  /\ PIL.mode (sample_flatten rgba_sample white) = "RGBA"
  /\ has_alpha_channel (PIL.mode (sample_flatten rgba_sample white)) = true
  /\ spec_needs_flattening pa_sample = true
  /\ needs_flattening pa_sample = false
  /\ ~ flattening_as_specified (fun im => sample_flatten im white).
Proof.
  repeat split; try reflexivity.
  intro H. destruct (H rgba_sample) as (_ & Halpha & _).
  specialize (Halpha eq_refl). discriminate Halpha.
Qed.

(** C7 as stated fails: the result of a flattening is not fully opaque,
    since the alpha band is blended like the colour bands, and flattening it
    again changes its pixels.  A pixel (0, 0, 0) of alpha value 128 becomes
    (127, 127, 127) of alpha value 191, and then (159, 159, 159) of alpha
    value 207. *)
Lemma flattening_twice_differs :
  let once := sample_flatten rgba_sample white in
  let twice := sample_flatten once white in
  PIL.getpixel rgba_sample 0 0 = [0; 0; 0; 128]
  /\ PIL.mode once = "RGBA"
  /\ PIL.getpixel once 0 0 = [127; 127; 127; 191]
  /\ ~ opaque once
  /\ PIL.getpixel twice 0 0 = [159; 159; 159; 207]
  /\ PIL.getpixel twice 0 0 <> PIL.getpixel once 0 0.
Proof.
  cbv zeta. split; [reflexivity|]. split; [reflexivity|].
  split; [reflexivity|]. split.
  - intro H. specialize (H 0 0 eq_refl). discriminate H.
  - split; [reflexivity | discriminate].
Qed.

Lemma remove_transparency_flattens_witness :
  PIL.mode (sample_flatten rgba_sample white) = "RGBA"
  /\ PIL.getpixel (sample_flatten rgba_sample white) 0 0
     = PIL.zip_with (PIL.blend8 128) [255; 255; 255; 255] [0; 0; 0; 128]
  /\ sample_flatten pa_sample white = pa_sample.
Proof.
  destruct (remove_transparency_flattens sample_convert rgba_sample)
    as [Happlied _].
  destruct (Happlied (or_introl eq_refl)) as (_ & _ & Hmode & _ & _ & Hpix).
  destruct (remove_transparency_flattens sample_convert pa_sample)
    as [_ Hskipped].
  split; [exact Hmode|]. split; [exact (Hpix 0 0 eq_refl)|].
  apply Hskipped; discriminate.
Defined.

Lemma opaque_sample_valid :
  valid_rgba (PIL.convert sample_convert opaque_sample "RGBA").
Proof.
  intros x y Hin. unfold PIL.inside in Hin. cbn in Hin.
  apply andb_prop in Hin as [Hin Hy2]. apply andb_prop in Hin as [Hin Hy1].
  apply andb_prop in Hin as [Hx1 Hx2].
  apply Z.leb_le in Hx1, Hy1. apply Z.ltb_lt in Hx2, Hy2.
  exists (10 * x), (20 * y), 30, 255. split; [reflexivity | lia].
Defined.

Lemma opaque_sample_opaque :
  opaque (PIL.convert sample_convert opaque_sample "RGBA").
Proof. intros x y _. reflexivity. Defined.

Lemma remove_transparency_keeps_opaque_witness :
  PIL.getpixel (sample_flatten opaque_sample white) 1 1 = [10; 20; 30; 255]
  /\ PIL.getpixel (sample_flatten opaque_sample white) 0 1 = [0; 20; 30; 255].
Proof.
  destruct (remove_transparency_keeps_opaque sample_convert opaque_sample
              opaque_sample_valid opaque_sample_opaque) as (_ & H & _).
  destruct (H eq_refl) as (_ & _ & Hpix).
  split; [exact (Hpix 1 1 eq_refl) | exact (Hpix 0 1 eq_refl)].
Defined.

End ImageClaims.

(** ** Upload grouper *)

Module GrouperFacts.

Import AzureManager GrouperSpec.

Lemma group_step_remember (d : dict) (file : string) :
  group_step d file = remember d (base_name_of file) file.
Proof.
  unfold group_step, base_name_of.
  now destruct (Re.search end_string file).
Qed.

Lemma row_of_acc (self : t) (file_list acc : list string) :
  fold_left (fun urls name => urls ++ [url_base self +:+ name]) file_list acc
  = acc ++ map (fun name => url_base self +:+ name) file_list.
Proof.
  revert acc. induction file_list as [|name l IH]; intro acc; simpl.
  - now rewrite app_nil_r.
  - rewrite IH. now rewrite <- app_assoc.
Qed.

Lemma row_of_urls (self : t) (k : string) (file_list : list string) :
  row_of self (k, file_list)
  = k :: map (fun name => url_base self +:+ name) file_list.
Proof. unfold row_of. now rewrite row_of_acc. Qed.

Lemma first_seen_snoc (l : list string) (k : string) :
  first_seen (l ++ [k]) = add_key (first_seen l) k.
Proof. unfold first_seen. now rewrite fold_left_app. Qed.

Lemma mem_true (k : string) (keys : list string) :
  existsb (String.eqb k) keys = true <-> In k keys.
Proof.
  rewrite existsb_exists. split.
  - intros (x & Hx & E). apply String.eqb_eq in E. now subst.
  - intro H. exists k. split; [assumption | apply String.eqb_refl].
Qed.

Lemma mem_false (k : string) (keys : list string) :
  existsb (String.eqb k) keys = false <-> ~ In k keys.
Proof.
  rewrite <- mem_true. now destruct (existsb (String.eqb k) keys).
Qed.

Lemma add_key_NoDup (keys : list string) (k : string) :
  NoDup keys -> NoDup (add_key keys k).
Proof.
  intro H. unfold add_key.
  destruct (existsb (String.eqb k) keys) eqn:E; [assumption|].
  apply mem_false in E. apply NoDup_app.
  repeat split; try assumption.
  - repeat constructor. intros [].
  - intros a Ha [<-|[]]. contradiction.
Qed.

Lemma first_seen_NoDup (l : list string) : NoDup (first_seen l).
Proof.
  induction l as [|k l IH] using rev_ind.
  - constructor.
  - rewrite first_seen_snoc. now apply add_key_NoDup.
Qed.

Lemma first_seen_In (l : list string) (k : string) :
  In k l -> In k (first_seen l).
Proof.
  induction l as [|x l IH] using rev_ind; [intros []|].
  rewrite first_seen_snoc. unfold add_key. intro Hin.
  apply in_app_or in Hin.
  destruct (existsb (String.eqb x) (first_seen l)) eqn:E.
  - destruct Hin as [Hin|[<-|[]]]; [now apply IH | now apply mem_true].
  - apply in_or_app. destruct Hin as [Hin|Hin]; [left; now apply IH | now right].
Qed.

Lemma members_unseen (files : list string) (k : string) :
  ~ In k (first_seen (map base_name_of files)) -> members files k = [].
Proof.
  intro Hk. unfold members.
  induction files as [|f files IH]; [reflexivity|]. simpl.
  destruct (String.eqb_spec (base_name_of f) k) as [E|E].
  - exfalso. apply Hk. apply first_seen_In. left. exact E.
  - apply IH. intro H. apply Hk.
    apply first_seen_In.
    assert (Hin : In k (map base_name_of files)).
    { clear -H. revert H. generalize (map base_name_of files) as l.
      intro l. induction l as [|x l IH] using rev_ind; [intros []|].
      rewrite first_seen_snoc. unfold add_key.
      destruct (existsb (String.eqb x) (first_seen l)).
      - intro H. apply in_or_app. left. now apply IH.
      - intro H. apply in_app_or in H. apply in_or_app.
        destruct H as [H|H]; [left; now apply IH | now right]. }
    now right.
Qed.

Lemma dict_get_map (g : string -> list string) (keys : list string)
    (k : string) :
  dict_get (map (fun k' => (k', g k')) keys) k
  = if existsb (String.eqb k) keys then Some (g k) else None.
Proof.
  induction keys as [|k0 keys IH]; [reflexivity|]. simpl.
  rewrite (String.eqb_sym k k0).
  destruct (String.eqb_spec k0 k) as [->|E]; [reflexivity | exact IH].
Qed.

Lemma dict_set_seen (g : string -> list string) (keys : list string)
    (k : string) (v : list string) :
  NoDup keys -> In k keys ->
  dict_set (map (fun k' => (k', g k')) keys) k v
  = map (fun k' => (k', if String.eqb k' k then v else g k')) keys.
Proof.
  induction keys as [|k0 keys IH]; intros Hnd Hin; [destruct Hin|].
  inversion Hnd as [|? ? Hk0 Hnd']; subst. simpl.
  destruct (String.eqb_spec k0 k) as [->|E].
  - f_equal. apply map_ext_in. intros k' Hk'.
    destruct (String.eqb_spec k' k) as [->|]; [contradiction | reflexivity].
  - f_equal. apply IH; [assumption|].
    destruct Hin as [Hin|Hin]; [contradiction | assumption].
Qed.

Lemma dict_set_unseen (g : string -> list string) (keys : list string)
    (k : string) (v : list string) :
  ~ In k keys ->
  dict_set (map (fun k' => (k', g k')) keys) k v
  = map (fun k' => (k', g k')) keys ++ [(k, v)].
Proof.
  induction keys as [|k0 keys IH]; intro Hk; [reflexivity|]. simpl.
  destruct (String.eqb_spec k0 k) as [->|E].
  - exfalso. apply Hk. now left.
  - f_equal. apply IH. intro H. apply Hk. now right.
Qed.

Lemma members_snoc (files : list string) (f k : string) :
  members (files ++ [f]) k
  = members files k ++ (if String.eqb (base_name_of f) k then [f] else []).
Proof. unfold members. rewrite filter_app. reflexivity. Qed.

(** The first loop builds the grouping of the files by key. *)
Lemma group_all (files : list string) :
  fold_left group_step files [] = grouped files.
Proof.
  induction files as [|f files IH] using rev_ind; [reflexivity|].
  rewrite fold_left_app. cbn [fold_left]. rewrite IH, group_step_remember.
  unfold grouped, remember.
  rewrite map_app. cbn [map]. rewrite first_seen_snoc.
  set (k := base_name_of f).
  set (keys := first_seen (map base_name_of files)).
  rewrite dict_get_map. unfold add_key.
  destruct (existsb (String.eqb k) keys) eqn:Hk.
  - apply mem_true in Hk.
    rewrite dict_set_seen by (try apply first_seen_NoDup; assumption).
    apply map_ext. intro k'. rewrite members_snoc. fold k.
    rewrite (String.eqb_sym k k').
    destruct (String.eqb_spec k' k) as [->|E];
      [reflexivity | now rewrite app_nil_r].
  - apply mem_false in Hk.
    rewrite dict_set_unseen by assumption.
    rewrite map_app. cbn [map]. f_equal.
    + apply map_ext_in. intros k' Hk'. rewrite members_snoc. fold k.
      destruct (String.eqb_spec k k') as [->|E];
        [contradiction | now rewrite app_nil_r].
    + rewrite members_snoc. fold k. rewrite String.eqb_refl.
      now rewrite (members_unseen files k Hk).
Qed.

End GrouperFacts.

Module KeyFacts.

Import AzureManager GrouperSpec GrouperFacts.

Lemma digit_not_underscore (d : ascii) :
  is_digit d = true -> Ascii.eqb d "_"%char = false.
Proof.
  intro H. destruct (Ascii.eqb_spec d "_"%char) as [->|]; [|reflexivity].
  discriminate H.
Qed.

Lemma contains_char_cons (c a : ascii) (s : string) :
  Py.contains (String c "") (String a s) = false ->
  Ascii.eqb c a = false /\ Py.contains (String c "") s = false.
Proof.
  cbn [Py.contains Py.startswith]. intro H.
  apply orb_false_elim in H as [H1 H2].
  destruct s; rewrite andb_true_r in H1; now split.
Qed.

Lemma search_numbered_suffix (base : string) (d : ascii) :
  is_digit d = true ->
  Re.search end_string (base +:+ numbered_suffix d) = true.
Proof.
  intro Hd. induction base as [|a base IH].
  - unfold numbered_suffix, is_digit in *.
    cbn [String.append Re.search Re.match_here end_string].
    rewrite Hd. reflexivity.
  - cbn [String.append Re.search]. rewrite IH. apply orb_true_r.
Qed.

Lemma split_two_parts (c : ascii) (s t : string) :
  exists h x tl, Py.split c (s +:+ String c t) = h :: x :: tl.
Proof.
  induction s as [|a s (h & x & tl & IH)]; cbn [String.append Py.split].
  - rewrite Ascii.eqb_refl.
    destruct t as [|b t]; cbn [Py.split].
    + now exists "", "", [].
    + destruct (Ascii.eqb b c); [now eexists _, _, _|].
      destruct (Py.split c t); now eexists _, _, _.
  - rewrite IH. destruct (Ascii.eqb a c); now eexists _, _, _.
Qed.

Lemma last_split_after_sep (c : ascii) (s t : string) :
  Py.last (Py.split c (s +:+ String c t)) = Py.last (Py.split c t).
Proof.
  induction s as [|a s IH]; cbn [String.append].
  - cbn [Py.split]. rewrite Ascii.eqb_refl. unfold Py.last.
    destruct t as [|b t]; [reflexivity|].
    cbn [Py.split]. destruct (Ascii.eqb b c); [reflexivity|].
    destruct (Py.split c t); reflexivity.
  - cbn [Py.split]. rewrite <- IH.
    destruct (split_two_parts c s t) as (h & x & tl & E). rewrite E.
    destruct (Ascii.eqb a c); reflexivity.
Qed.

Lemma first_split_stem (c : ascii) (s t : string) :
  Py.contains (String c "") s = false ->
  Py.first (Py.split c (s +:+ String c t)) = s.
Proof.
  induction s as [|a s IH]; intro H; cbn [String.append Py.split].
  - now rewrite Ascii.eqb_refl.
  - apply contains_char_cons in H as [Ha Hs].
    rewrite Ascii.eqb_sym, Ha. specialize (IH Hs). unfold Py.first in *.
    destruct (Py.split c (s +:+ String c t)); cbn [hd] in *; now subst.
Qed.

Lemma suffix_not_inside (a : ascii) (base : string) (d : ascii) :
  is_digit d = true ->
  Py.contains "." (String a base) = false ->
  Py.startswith (numbered_suffix d) (String a (base +:+ numbered_suffix d))
  = false.
Proof.
  intros Hd Hdot. apply contains_char_cons in Hdot as [_ Hbase].
  unfold numbered_suffix. cbn [Py.startswith].
  destruct base as [|c [|e base]]; cbn [String.append Py.startswith].
  - now rewrite (digit_not_underscore d Hd), andb_false_r.
  - cbn. now rewrite !andb_false_r.
  - apply contains_char_cons in Hbase as [_ Hbase].
    apply contains_char_cons in Hbase as [He _].
    rewrite He. now rewrite !andb_false_r.
Qed.

Lemma replace_numbered_suffix (base : string) (d : ascii) :
  is_digit d = true ->
  Py.contains "." base = false ->
  Py.replace (numbered_suffix d) "" (base +:+ numbered_suffix d) = base.
Proof.
  intros Hd. unfold Py.replace. cbn [numbered_suffix].
  fold (numbered_suffix d).
  induction base as [|a base IH]; intro Hdot.
  - unfold numbered_suffix.
    cbn [String.append Py.replace_from Py.startswith String.length Nat.pred].
    rewrite !Ascii.eqb_refl. reflexivity.
  - cbn [String.append Py.replace_from].
    rewrite (suffix_not_inside a base d Hd Hdot).
    apply contains_char_cons in Hdot as [_ Hbase].
    now rewrite (IH Hbase).
Qed.

(** The key of [base_d.jpg] is [base] when [base] has no dot. *)
Lemma base_name_numbered (base : string) (d : ascii) :
  is_digit d = true ->
  Py.contains "." base = false ->
  base_name_of (base +:+ "_" +:+ String d ".jpg") = base.
Proof.
  intros Hd Hdot. change ("_" +:+ String d ".jpg") with (numbered_suffix d).
  unfold base_name_of. rewrite (search_numbered_suffix base d Hd).
  unfold numbered_suffix at 1.
  rewrite last_split_after_sep.
  assert (E : Py.last (Py.split "_"%char (String d ".jpg")) = String d ".jpg").
  { cbn [Py.split]. rewrite (digit_not_underscore d Hd). reflexivity. }
  rewrite E. change ("_" +:+ String d ".jpg") with (numbered_suffix d).
  now apply replace_numbered_suffix.
Qed.

(** The key of [stem.ext] is [stem] when [stem] has no dot and the pattern
    occurs nowhere in the name. *)
Lemma base_name_plain (stem ext : string) :
  Py.contains "." stem = false ->
  Re.search end_string (stem +:+ "." +:+ ext) = false ->
  base_name_of (stem +:+ "." +:+ ext) = stem.
Proof.
  intros Hdot Hre. unfold base_name_of. rewrite Hre.
  change ("." +:+ ext) with (String "."%char ext).
  now apply first_split_stem.
Qed.

Lemma contains_dot_inside (s t : string) :
  Py.contains "." (s +:+ String "."%char t) = true.
Proof.
  induction s as [|a s IH]; cbn [String.append Py.contains].
  - cbn [Py.startswith]. now rewrite Ascii.eqb_refl.
  - rewrite IH. apply orb_true_r.
Qed.

(** With an extension that has no dot, the name without its extension is
    what precedes the dot of the extension. *)
Lemma without_extension_stem (stem ext : string) :
  Py.contains "." ext = false ->
  without_extension (stem +:+ "." +:+ ext) = stem.
Proof.
  intro Hext. change ("." +:+ ext) with (String "."%char ext).
  induction stem as [|a stem IH]; cbn [String.append without_extension].
  - now rewrite Hext, Ascii.eqb_refl.
  - now rewrite contains_dot_inside, IH.
Qed.

Lemma append_assoc (s t u : string) : (s +:+ t) +:+ u = s +:+ t +:+ u.
Proof. induction s as [|a s IH]; cbn; [reflexivity | now rewrite IH]. Qed.

(** An occurrence of [_d.jpg] cannot begin in what precedes the suffix
    and end inside it: the underscore is its first character only. *)
Lemma suffix_not_straddling (a : ascii) (t : string) (d : ascii) :
  is_digit d = true ->
  Py.startswith (numbered_suffix d) (String a t) = false ->
  Py.startswith (numbered_suffix d) (String a (t +:+ numbered_suffix d))
  = false.
Proof.
  intros Hd Hin. pose proof (digit_not_underscore d Hd) as Hu.
  unfold numbered_suffix in *.
  destruct t as [|c1 [|c2 [|c3 [|c4 [|c5 t]]]]];
    cbn [String.append Py.startswith] in *.
  - now rewrite Hu, andb_false_r.
  - cbn. now rewrite !andb_false_r.
  - cbn. now rewrite !andb_false_r.
  - cbn. now rewrite !andb_false_r.
  - cbn. now rewrite !andb_false_r.
  - exact Hin.
Qed.

Lemma replace_numbered_suffix_absent (base : string) (d : ascii) :
  is_digit d = true ->
  Py.contains (numbered_suffix d) base = false ->
  Py.replace (numbered_suffix d) "" (base +:+ numbered_suffix d) = base.
Proof.
  intros Hd. unfold Py.replace. cbn [numbered_suffix].
  fold (numbered_suffix d).
  induction base as [|a base IH]; intro Hin.
  - unfold numbered_suffix.
    cbn [String.append Py.replace_from Py.startswith String.length Nat.pred].
    rewrite !Ascii.eqb_refl. reflexivity.
  - cbn [Py.contains] in Hin. apply orb_false_elim in Hin as [Hhere Hrest].
    cbn [String.append Py.replace_from].
    rewrite (suffix_not_straddling a base d Hd Hhere).
    now rewrite (IH Hrest).
Qed.

(** The key of [base_d.jpg] is [base] when [_d.jpg] does not occur in
    [base], whatever dots [base] has. *)
Lemma base_name_numbered_absent (base : string) (d : ascii) :
  is_digit d = true ->
  Py.contains (numbered_suffix d) base = false ->
  base_name_of (base +:+ "_" +:+ String d ".jpg") = base.
Proof.
  intros Hd Hin. change ("_" +:+ String d ".jpg") with (numbered_suffix d).
  unfold base_name_of. rewrite (search_numbered_suffix base d Hd).
  unfold numbered_suffix at 1.
  rewrite last_split_after_sep.
  assert (E : Py.last (Py.split "_"%char (String d ".jpg")) = String d ".jpg").
  { cbn [Py.split]. rewrite (digit_not_underscore d Hd). reflexivity. }
  rewrite E. change ("_" +:+ String d ".jpg") with (numbered_suffix d).
  now apply replace_numbered_suffix_absent.
Qed.

Lemma append_longer (s : string) (a : ascii) (t : string) :
  s <> s +:+ String a t.
Proof.
  induction s as [|c s IH]; cbn [String.append]; [discriminate|].
  intro H. injection H as H. now apply IH.
Qed.

End KeyFacts.

Module GrouperClaims.

Import AzureManager GrouperSpec GrouperFacts KeyFacts.

(** C8: the two branches of the grouper do not cut a name alike.  A name
    [base_d.jpg] ([d] one digit) gets the key [base], dots included, while
    a name that the pattern does not match gets [file_name.split('.')[0]],
    the part before its first dot, and not the name without its extension.
    So for a base with a dot, [base.jpg] and [base_d.jpg] get two keys and
    two manifest rows, where they should share the key [base] and one row:
    [v1.2.jpg] has the key [v1] and [v1.2_1.jpg] the key [v1.2].  The rest
    of the grouping is as described: for each key, in first-seen order, one
    row [[key, url_base + file1, url_base + file2, ...]] is appended to the
    manifest, the files of the key in the order of the list, and
    [foo_1.jpg], [foo_2.jpg] and [foo.jpg] share the key [foo]. *)
Theorem generate_csv_splits_dotted_base :
  forall (self : t) (stem rest : string) (d : ascii),
    let base := stem +:+ "." +:+ rest in
    let plain := base +:+ ".jpg" in
    let numbered := base +:+ "_" +:+ String d ".jpg" in
    (forall directory_files,
       _generate_csv_from_files self directory_files
       = map (fun k =>
                (report_path self +:+ "/new_file.csv",
                 k :: map (fun name => url_base self +:+ name)
                        (members directory_files k)))
           (first_seen (map base_name_of directory_files))) /\
    (forall b,
       is_digit d = true -> Py.contains (numbered_suffix d) b = false ->
       base_name_of (b +:+ "_" +:+ String d ".jpg") = b) /\
    (forall file,
       Re.search end_string file = false ->
       base_name_of file = Py.first (Py.split "."%char file)) /\
    map snd (_generate_csv_from_files self
               ["foo_1.jpg"; "foo_2.jpg"; "foo.jpg"; "bar.jpg"])
    = [["foo"; url_base self +:+ "foo_1.jpg"; url_base self +:+ "foo_2.jpg";
        url_base self +:+ "foo.jpg"];
       ["bar"; url_base self +:+ "bar.jpg"]] /\
    (is_digit d = true ->
     Py.contains "." stem = false ->
     Py.contains (numbered_suffix d) base = false ->
     Re.search end_string plain = false ->
     base_name_of plain = stem /\
     base_name_of numbered = base /\
     base_name_of plain <> base_name_of numbered /\
     without_extension plain = base /\
     base_name_of plain <> without_extension plain /\
     map snd (_generate_csv_from_files self [plain; numbered])
     = [[stem; url_base self +:+ plain];
        [base; url_base self +:+ numbered]]).
Proof.
  intros self stem rest d base plain numbered.
  assert (Hrows : forall files,
             _generate_csv_from_files self files
             = map (fun k =>
                      (report_path self +:+ "/new_file.csv",
                       k :: map (fun name => url_base self +:+ name)
                              (members files k)))
                 (first_seen (map base_name_of files))).
  { intro files. unfold _generate_csv_from_files.
    rewrite group_all. unfold grouped. rewrite map_map.
    apply map_ext. intro k. now rewrite row_of_urls. }
  split; [apply Hrows|].
  split; [intro b; apply base_name_numbered_absent|].
  split; [intros file Hre; unfold base_name_of; now rewrite Hre|].
  split; [rewrite Hrows; reflexivity|].
  intros Hd Hstem Hin Hre.
  assert (Hplain : base_name_of plain = stem).
  { subst plain base. rewrite !append_assoc. rewrite !append_assoc in Hre.
    now apply base_name_plain. }
  assert (Hnumbered : base_name_of numbered = base).
  { subst numbered. now apply base_name_numbered_absent. }
  assert (Hne : stem <> base).
  { subst base. apply append_longer. }
  assert (Hext : without_extension plain = base).
  { subst plain. now apply without_extension_stem. }
  split; [exact Hplain|]. split; [exact Hnumbered|].
  split; [now rewrite Hplain, Hnumbered|].
  split; [exact Hext|].
  split; [now rewrite Hplain, Hext|].
  rewrite Hrows. clearbody plain numbered base.
  assert (E1 : String.eqb base stem = false).
  { apply String.eqb_neq. intro E. now apply Hne. }
  assert (E2 : String.eqb stem base = false).
  { now apply String.eqb_neq. }
  unfold first_seen, members. cbn [map fold_left filter].
  rewrite Hplain, Hnumbered. unfold add_key. cbn [existsb app].
  rewrite E1. cbn [orb app map filter].
  rewrite !String.eqb_refl, E1, E2. reflexivity.
Qed.

Lemma generate_csv_splits_dotted_base_witness :
  base_name_of "v1.2.jpg" = "v1"
  /\ base_name_of "v1.2_1.jpg" = "v1.2"
  /\ without_extension "v1.2.jpg" = "v1.2"
  /\ map snd (_generate_csv_from_files sample_azure
                ["v1.2.jpg"; "v1.2_1.jpg"])
     = [["v1"; "https://acct.blob.core.windows.net/pics/v1.2.jpg"];
        ["v1.2"; "https://acct.blob.core.windows.net/pics/v1.2_1.jpg"]].
Proof.
  destruct (generate_csv_splits_dotted_base sample_azure "v1" "2" "1"%char)
    as (_ & _ & _ & _ & H).
  destruct (H eq_refl eq_refl eq_refl eq_refl)
    as (H1 & H2 & _ & H3 & _ & H4).
  split; [exact H1|]. split; [exact H2|]. split; [exact H3 | exact H4].
Defined.

End GrouperClaims.

(** ** Link extractor, further properties *)

Module LinksMore.

Import Links LinksSpec LinksFacts.

Lemma append_length (s t : string) :
  String.length (s +:+ t) = (String.length s + String.length t)%nat.
Proof. induction s as [|a s IH]; simpl; [reflexivity | now rewrite IH]. Qed.

Lemma append_inj_l (s t u : string) : s +:+ t = s +:+ u -> t = u.
Proof.
  induction s as [|a s IH]; simpl; intro H; [assumption|].
  injection H as H. now apply IH.
Qed.

Lemma str_inj (j k : Z) : Py.str j = Py.str k -> j = k.
Proof.
  unfold Py.str. intro H. apply DecimalZ.to_int_inj.
  assert (E : Some (Z.to_int j) = Some (Z.to_int k)).
  { rewrite <- !NilEmpty.isi. now rewrite H. }
  now injection E.
Qed.

Lemma identifier_inj (b : string) (j k : Z) :
  identifier b j = identifier b k -> j = k.
Proof.
  unfold identifier.
  destruct (Z.eqb_spec j 0) as [Ej|Ej], (Z.eqb_spec k 0) as [Ek|Ek];
    intro H; try congruence.
  - apply (f_equal String.length) in H. rewrite append_length in H.
    simpl in H. lia.
  - apply (f_equal String.length) in H. rewrite append_length in H.
    simpl in H. lia.
  - apply append_inj_l in H. injection H as H. now apply str_inj.
Qed.

Lemma numbered_fst_in (b : string) (urls : list string) :
  forall k x, In x (map fst (numbered b k urls)) ->
    exists j, k <= j /\ x = identifier b j.
Proof.
  induction urls as [|u urls IH]; intros k x Hin; [destruct Hin|].
  destruct Hin as [<-|Hin].
  - exists k. split; [lia | reflexivity].
  - destruct (IH (k + 1) x Hin) as (j & Hj & E). exists j. split; [lia | exact E].
Qed.

Lemma numbered_fst_NoDup (b : string) (urls : list string) :
  forall k, NoDup (map fst (numbered b k urls)).
Proof.
  induction urls as [|u urls IH]; intro k; simpl; constructor.
  - intro Hin. destruct (numbered_fst_in b urls (k + 1) _ Hin) as (j & Hj & E).
    apply identifier_inj in E. lia.
  - apply IH.
Qed.

Lemma items_links (rows : list (list string)) :
  map snd (flat_map row_items rows) = filter has_http (List.concat rows).
Proof.
  induction rows as [|row rows IH]; [reflexivity|].
  change (flat_map row_items (row :: rows))
    with (row_items row ++ flat_map row_items rows).
  change (List.concat (row :: rows)) with (row ++ List.concat rows).
  rewrite map_app, filter_app. f_equal; [|exact IH].
  destruct row as [|b cells]; [reflexivity|].
  unfold row_items. apply numbered_snd.
Qed.

(** X1: when no row of the file is empty, the links that the extractor
    emits are exactly the cells of the file in which "http" occurs, in
    reading order (row after row, cell after cell): no such cell is dropped,
    repeated or moved, and no other cell is emitted. *)
Theorem return_links_reading_order :
  forall (open_csv : string -> option (list (list string)))
         (csv_path : string) (rows : list (list string)),
    open_csv csv_path = Some rows ->
    Forall (fun row => row <> []) rows ->
    exists links,
      _return_links open_csv csv_path = Return links /\
      map snd links = filter has_http (List.concat rows) /\
      List.length links = List.length (filter has_http (List.concat rows)) /\
      Forall (fun item => Py.contains "http" (snd item) = true) links.
Proof.
  intros open_csv csv_path rows Hopen Hne.
  exists (flat_map row_items rows).
  assert (Hsnd := items_links rows).
  split; [|split; [exact Hsnd|split]].
  - unfold _return_links. rewrite Hopen. now rewrite rows_loop_items.
  - rewrite <- Hsnd. now rewrite length_map.
  - apply Forall_forall. intros item Hin.
    assert (H : In (snd item) (filter has_http (List.concat rows))).
    { rewrite <- Hsnd. now apply in_map. }
    apply filter_In in H. exact (proj2 H).
Qed.

Lemma return_links_reading_order_witness :
  exists links,
    _return_links sample_csv "links.csv" = Return links
    /\ map snd links = ["http://a/1.png"; "http://a/2.png"].
Proof.
  assert (Hne : Forall (fun row : list string => row <> []) sample_rows).
  { repeat constructor; discriminate. }
  destruct (return_links_reading_order sample_csv "links.csv" sample_rows
              eq_refl Hne) as (links & H1 & H2 & _).
  exists links. split; [exact H1 | exact H2].
Defined.

(** X2: the work items of one row have pairwise distinct identifiers, so
    that the images of a row are saved under different names. *)
Theorem row_identifiers_distinct :
  forall (b : string) (cells : list string) (acc : list url_pair),
    exists items,
      row_body (b :: cells) acc = Return (acc ++ items) /\
      NoDup (map fst items).
Proof.
  intros b cells acc. exists (row_items (b :: cells)).
  split; [apply row_body_items|].
  unfold row_items. apply numbered_fst_NoDup.
Qed.

End LinksMore.

(** ** Download pipeline, further properties *)

Module DownloadMore.

Import Links ImageManager DownloadSpec LinksSpec MoreSpec.

Section World.

Variable open_csv : string -> option (list (list string)).
Variable http_request : string -> Result Response.
Variable requests_get : string -> Result Response.
Variable Image_open : list Byte.byte -> Result PIL.Image.
Variable convert_data : PIL.Image -> string -> Z -> Z -> list Z.
Variable resample : PIL.Image -> Z * Z -> Z -> Z -> list Z.
Variable int_scaled : Z -> Z -> Z -> Z.
Variable image_save : PIL.Image -> string -> Result unit.

Notation "'download_images'" :=
  (_donwload_images http_request requests_get Image_open convert_data
     resample int_scaled image_save).
Notation "'loop'" :=
  (download_loop http_request requests_get Image_open convert_data
     resample int_scaled image_save).
Notation "'start'" :=
  (start_download open_csv http_request requests_get Image_open convert_data
     resample int_scaled image_save).
Notation "'decode'" :=
  (decode_and_save Image_open convert_data resample int_scaled image_save).
Notation "'handler'" :=
  (download_handler requests_get Image_open convert_data resample
     int_scaled image_save).
Notation "'normal'" := (normalised convert_data resample int_scaled).

(** A decodable body is saved when the resize and the save return. *)
Lemma decode_and_save_ok (self : t) (img_name : string)
    (content : list Byte.byte) (file image : PIL.Image) (s : State) :
  Image_open content = Return file ->
  normal self file = Return image ->
  image_save image (image_path self +:+ "/" +:+ img_name) = Return tt ->
  decode self img_name content s
  = (Return true, save_image self s img_name image).
Proof.
  intros H Hn Hsave.
  unfold decode_and_save, bind, lift, save, normalised, save_image, convert
    in *.
  rewrite H. destruct (resize self).
  - rewrite Hn, Hsave. reflexivity.
  - injection Hn as <-. rewrite Hsave. reflexivity.
Qed.

Lemma decode_and_save_raise (self : t) (img_name : string)
    (content : list Byte.byte) (e : Exception) (s : State) :
  Image_open content = Raise e ->
  decode self img_name content s = (Raise e, s).
Proof. intro H. unfold decode_and_save, bind, lift. now rewrite H. Qed.

(** The resize raises: nothing is saved. *)
Lemma decode_and_save_resize_raise (self : t) (img_name : string)
    (content : list Byte.byte) (file : PIL.Image) (e : Exception)
    (s : State) :
  Image_open content = Return file ->
  normal self file = Raise e ->
  decode self img_name content s = (Raise e, s).
Proof.
  intros H Hn. unfold decode_and_save, bind, lift, normalised, convert in *.
  rewrite H. destruct (resize self); [|discriminate Hn].
  now rewrite Hn.
Qed.

(** The save raises: nothing is recorded. *)
Lemma decode_and_save_save_raise (self : t) (img_name : string)
    (content : list Byte.byte) (file image : PIL.Image) (e : Exception)
    (s : State) :
  Image_open content = Return file ->
  normal self file = Return image ->
  image_save image (image_path self +:+ "/" +:+ img_name) = Raise e ->
  decode self img_name content s = (Raise e, s).
Proof.
  intros H Hn Hsave.
  unfold decode_and_save, bind, lift, save, normalised, convert in *.
  rewrite H. destruct (resize self).
  - rewrite Hn, Hsave. reflexivity.
  - injection Hn as <-. rewrite Hsave. reflexivity.
Qed.

(** The two ways in which the decoding and saving of a body end. *)
Lemma decode_and_save_cases (self : t) (img_name : string)
    (content : list Byte.byte) (s : State) :
  (exists file image,
     normal self file = Return image /\
     decode self img_name content s
     = (Return true, save_image self s img_name image)) \/
  (exists e, decode self img_name content s = (Raise e, s)).
Proof.
  destruct (Image_open content) as [file|e] eqn:Hopen.
  - destruct (normal self file) as [image|e] eqn:Hn.
    + destruct (image_save image (image_path self +:+ "/" +:+ img_name))
        as [[]|e] eqn:Hsave.
      * left. exists file, image. split; [exact Hn|].
        now apply (decode_and_save_ok self img_name content file).
      * right. exists e.
        now apply (decode_and_save_save_raise self img_name content file
                     image).
    + right. exists e.
      now apply (decode_and_save_resize_raise self img_name content file).
  - right. exists e. now apply decode_and_save_raise.
Qed.

Lemma resize_image_mode (self : t) (image out : PIL.Image) :
  PIL.mode image = "RGB" ->
  _resize_image convert_data resample int_scaled self image = Return out ->
  PIL.mode out = "RGB".
Proof.
  intro Hm. unfold _resize_image, Image_resize, pad, paste, and_then.
  destruct (PIL.size image) as [width height].
  assert (Hpad : forall scaled size,
             match PIL.new "RGB" size [255; 255; 255] with
             | Return new_image =>
                 Return (PIL.paste convert_data new_image scaled
                           (half_gap (fst size) (fst (PIL.size scaled)),
                            half_gap (snd size) (snd (PIL.size scaled)))
                           None)
             | Raise e => Raise e
             end = Return out -> PIL.mode out = "RGB").
  { intros scaled size.
    destruct (PIL.new "RGB" size [255; 255; 255]) as [canvas|e] eqn:E;
      [|discriminate].
    apply ImageFacts.new_inv in E. subst canvas.
    intro H. now injection H as <-. }
  assert (Hresize : forall sz,
             PIL.resize resample image sz = Return out ->
             PIL.mode out = "RGB").
  { intros sz H. now rewrite (ImageFacts.resize_mode resample _ _ _ H). }
  destruct (negb (width =? height)).
  - destruct (width >? height).
    { destruct (PIL.resize resample image _); [apply Hpad | discriminate]. }
    destruct (height >? width).
    { destruct (PIL.resize resample image _); [apply Hpad | discriminate]. }
    apply Hresize.
  - destruct (negb (width =? new_size self) || negb (height =? new_size self));
      [apply Hresize|].
    intro H. now injection H as <-.
Qed.

Lemma normalised_mode (self : t) (file image : PIL.Image) :
  normal self file = Return image -> PIL.mode image = "RGB".
Proof.
  unfold normalised. destruct (resize self).
  - apply resize_image_mode. apply ImageFacts.convert_mode.
  - intro H. injection H as <-. apply ImageFacts.convert_mode.
Qed.

Lemma normalised_size (self : t) (file image : PIL.Image) :
  normal self file = Return image ->
  PIL.size image
  = if resize self then (new_size self, new_size self) else PIL.size file.
Proof.
  unfold normalised. destruct (resize self).
  - apply ImageClaims.resize_image_size.
  - intro H. injection H as <-.
    now rewrite ImageFacts.convert_size, ImageFacts.remove_transparency_size.
Qed.

Lemma request_ok (self : t) (img_name link : string) (response : Response)
    (s : State) :
  http_request link = Return response -> status response = 200 ->
  download_body http_request Image_open convert_data resample int_scaled
    image_save self img_name link s
  = decode self img_name (data response) s.
Proof.
  intros H Hs. unfold download_body. unfold bind at 1, lift at 1.
  rewrite H, Hs. reflexivity.
Qed.

(** The five ways in which one download ends. *)
Lemma download_outcome (self : t) (link_list : url_pair) (s : State) :
  let img_name := name_prefix self +:+ fst link_list +:+ ".jpg" in
  let link := snd link_list in
  (exists file image,
     normal self file = Return image /\
     download_images self link_list s
     = (Return true, save_image self s img_name image)) \/
  download_images self link_list s
  = (Return false,
     log_error self s [img_name; "Image Broken"; link]
       "Error downloading image: Image Broken") \/
  (exists code msg,
     download_images self link_list s
     = (Return false,
        log_error self s
          [img_name; str_of_exception (HTTPError link code msg); link]
          ("Error downloading image: "
           +:+ str_of_exception (HTTPError link code msg)))) \/
  download_images self link_list s
  = (Return true,
     log_error self s [img_name; "Timeout Err"; link]
       "Error downloading image: Connection Timeout") \/
  (exists e, download_images self link_list s = (Raise e, s)).
Proof.
  intros img_name link.
  unfold _donwload_images, try_except. fold img_name link.
  assert (Hfallback :
    (exists file image,
       normal self file = Return image /\
       handler self img_name link UnicodeEncodeError s
       = (Return true, save_image self s img_name image)) \/
    (exists e, handler self img_name link UnicodeEncodeError s
               = (Raise e, s))).
  { cbn [download_handler]. unfold bind at 1, lift at 1.
    destruct (requests_get link) as [response|e]; [|right; now exists e].
    apply decode_and_save_cases. }
  assert (Hhandler : forall e,
    (exists file image,
       normal self file = Return image /\
       handler self img_name link e s
       = (Return true, save_image self s img_name image)) \/
    handler self img_name link e s
    = (Return false,
       log_error self s [img_name; "Image Broken"; link]
         "Error downloading image: Image Broken") \/
    (exists code msg,
       handler self img_name link e s
       = (Return false,
          log_error self s
            [img_name; str_of_exception (HTTPError link code msg); link]
            ("Error downloading image: "
             +:+ str_of_exception (HTTPError link code msg)))) \/
    handler self img_name link e s
    = (Return true,
       log_error self s [img_name; "Timeout Err"; link]
         "Error downloading image: Connection Timeout") \/
    (exists e', handler self img_name link e s = (Raise e', s))).
  { intro e. destruct e as [| | | |url code msg| |name].
    - right; right; right; right. now exists IndexError.
    - right; right; right; right. now exists FileNotFoundError.
    - destruct Hfallback as [H|H]; [now left | now repeat right].
    - right; left. reflexivity.
    - right; right; left. exists code, msg. reflexivity.
    - right; right; right; left. reflexivity.
    - right; right; right; right. now exists (OtherException name). }
  destruct (http_request link) as [response|e] eqn:Hreq.
  - destruct (Z.eq_dec (status response) 200) as [Hs|Hs].
    + rewrite (request_ok self img_name link response s Hreq Hs).
      destruct (decode_and_save_cases self img_name (data response) s)
        as [(file & image & Hn & H)|(e & H)]; rewrite H.
      * left. now exists file, image.
      * apply Hhandler.
    + rewrite (DownloadClaims.request_bad_status http_request Image_open
                 convert_data resample int_scaled image_save self img_name
                 link response s Hreq Hs).
      right; right; left.
      exists (status response), (reason response). reflexivity.
  - rewrite (DownloadClaims.request_raises http_request Image_open
               convert_data resample int_scaled image_save self img_name
               link e s Hreq).
    apply Hhandler.
Qed.


(** X4: a body that arrives with status 200 but that the decoder rejects
    gives exactly one row [[img_name, 'Image Broken', link]] in the error
    log, no saved image and the result [False]; the item is not counted. *)
Theorem broken_image_logged_not_counted :
  forall (self : t) (link_list : url_pair) (response : Response) (s : State),
    let img_name := name_prefix self +:+ fst link_list +:+ ".jpg" in
    let link := snd link_list in
    http_request link = Return response ->
    status response = 200 ->
    Image_open (data response) = Raise UnidentifiedImageError ->
    let s' := log_error self s [img_name; "Image Broken"; link]
                "Error downloading image: Image Broken" in
    download_images self link_list s = (Return false, s') /\
    forall rest total,
      loop self (link_list :: rest) total s = loop self rest total s'.
Proof.
  intros self link_list response s img_name link Hreq Hs Hopen s'.
  assert (H : download_images self link_list s = (Return false, s')).
  { unfold _donwload_images, try_except. fold img_name link.
    rewrite (request_ok self img_name link response s Hreq Hs).
    now rewrite (decode_and_save_raise _ _ _ _ s Hopen). }
  split; [exact H|]. intros rest total.
  now rewrite (DownloadClaims.loop_step _ _ _ _ _ _ _ _ _ _ _ _ _ _ H).
Qed.

(** X5: a body that arrives with status 200 and decodes, that the resize
    does not refuse and that [save] can write, gives exactly one saved
    image, under the path [{image_path}/{name_prefix}{identifier}.jpg], one
    printed line and no row in the error log; the result is [True].  The
    saved image has mode RGB; it has the target size on both sides when
    [resize] is set and the size of the decoded image otherwise. *)
Theorem download_success_saves_one_image :
  forall (self : t) (link_list : url_pair) (response : Response)
         (file image : PIL.Image) (s : State),
    let img_name := name_prefix self +:+ fst link_list +:+ ".jpg" in
    http_request (snd link_list) = Return response ->
    status response = 200 ->
    Image_open (data response) = Return file ->
    normal self file = Return image ->
    image_save image (image_path self +:+ "/" +:+ img_name) = Return tt ->
    exists s',
      download_images self link_list s = (Return true, s') /\
      saved s' = saved s ++ [(image_path self +:+ "/" +:+ img_name, image)] /\
      appended s' = appended s /\
      stdout s' = stdout s ++ [tab +:+ "Image " +:+ img_name +:+ " resized"] /\
      PIL.mode image = "RGB" /\
      PIL.size image
      = (if resize self then (new_size self, new_size self)
         else PIL.size file).
Proof.
  intros self link_list response file image s img_name Hreq Hs Hopen Hn
    Hsave.
  exists (save_image self s img_name image).
  split; [|split; [reflexivity|split; [reflexivity|split; [reflexivity|split]]]].
  - unfold _donwload_images, try_except. fold img_name.
    rewrite (request_ok self img_name _ response s Hreq Hs).
    now rewrite (decode_and_save_ok _ _ _ file image s Hopen Hn Hsave).
  - exact (normalised_mode self file image Hn).
  - exact (normalised_size self file image Hn).
Qed.

(** X6: when the first client raises [UnicodeEncodeError], the address is
    fetched again with the second client and nothing guards that second
    attempt: its status is not looked at (a body that decodes, that the
    resize does not refuse and that [save] can write is saved whatever the
    status), and whatever it raises, be it a timeout of the second client,
    a body that the decoder rejects, a resize that the library refuses or a
    file that cannot be written, leaves the function without a row in the
    error log. *)
Theorem fallback_is_unguarded :
  forall (self : t) (link_list : url_pair) (s : State),
    let img_name := name_prefix self +:+ fst link_list +:+ ".jpg" in
    let link := snd link_list in
    http_request link = Raise UnicodeEncodeError ->
    (forall e, requests_get link = Raise e ->
               download_images self link_list s = (Raise e, s)) /\
    (forall response e,
       requests_get link = Return response ->
       Image_open (data response) = Raise e ->
       download_images self link_list s = (Raise e, s)) /\
    (forall response file e,
       requests_get link = Return response ->
       Image_open (data response) = Return file ->
       normal self file = Raise e ->
       download_images self link_list s = (Raise e, s)) /\
    (forall response file image e,
       requests_get link = Return response ->
       Image_open (data response) = Return file ->
       normal self file = Return image ->
       image_save image (image_path self +:+ "/" +:+ img_name) = Raise e ->
       download_images self link_list s = (Raise e, s)) /\
    (forall response file image,
       requests_get link = Return response ->
       Image_open (data response) = Return file ->
       normal self file = Return image ->
       image_save image (image_path self +:+ "/" +:+ img_name) = Return tt ->
       download_images self link_list s
       = (Return true, save_image self s img_name image)).
Proof.
  intros self link_list s img_name link Hreq.
  assert (Hrun : download_images self link_list s
                 = (response <- lift (requests_get link) ;;
                    decode self img_name (data response)) s).
  { unfold _donwload_images, try_except. fold img_name link.
    now rewrite (DownloadClaims.request_raises http_request Image_open
                   convert_data resample int_scaled image_save self img_name
                   link UnicodeEncodeError s Hreq). }
  rewrite Hrun. unfold bind at 1 2 3 4 5, lift at 1 2 3 4 5.
  split; [|split; [|split; [|split]]].
  - intros e H. now rewrite H.
  - intros response e H Hopen. rewrite H. now apply decode_and_save_raise.
  - intros response file e H Hopen Hn. rewrite H.
    now apply (decode_and_save_resize_raise self img_name _ file).
  - intros response file image e H Hopen Hn Hsave. rewrite H.
    now apply (decode_and_save_save_raise self img_name _ file image).
  - intros response file image H Hopen Hn Hsave. rewrite H.
    now apply (decode_and_save_ok self img_name _ file image).
Qed.

Lemma loop_trace (self : t) (links : list url_pair) :
  forall (total n : Z) (s s' : State),
    loop self links total s = (Return n, s') ->
    exists new_saved new_rows,
      saved s' = saved s ++ new_saved /\
      appended s' = appended s ++ new_rows /\
      (List.length new_saved + List.length new_rows = List.length links)%nat /\
      n = total + Z.of_nat (List.length new_saved) + count_timeouts new_rows.
Proof.
  induction links as [|link_list links IH]; intros total n s s' Hrun.
  - cbn in Hrun. injection Hrun as <- <-. exists [], [].
    rewrite !app_nil_r. repeat split. unfold count_timeouts. cbn. lia.
  - destruct (download_outcome self link_list s)
      as [(file & image & Hnorm & H)|[H|[(code & msg & H)|[H|(e & H)]]]];
      try (rewrite (DownloadClaims.loop_step _ _ _ _ _ _ _ _ _ _ _ _ _ _ H)
            in Hrun;
           destruct (IH _ _ _ _ Hrun) as (sv & rw & Hs & Ha & Hl & Hn)).
    + exists ((image_path self +:+ "/" +:+ name_prefix self
               +:+ fst link_list +:+ ".jpg", image) :: sv), rw.
      cbn [saved appended save_image] in Hs, Ha.
      rewrite <- app_assoc in Hs. cbn [app] in Hs.
      split; [assumption|]. split; [assumption|].
      split; cbn [List.length]; lia.
    + exists sv, ((error_path self +:+ "/error.csv",
                   [name_prefix self +:+ fst link_list +:+ ".jpg";
                    "Image Broken"; snd link_list]) :: rw).
      cbn [saved appended log_error] in Hs, Ha.
      rewrite <- app_assoc in Ha. cbn [app] in Ha.
      split; [assumption|]. split; [assumption|].
      split; [cbn [List.length]; lia|].
      unfold count_timeouts in *. cbn. lia.
    + exists sv, ((error_path self +:+ "/error.csv",
                   [name_prefix self +:+ fst link_list +:+ ".jpg";
                    str_of_exception (HTTPError (snd link_list) code msg);
                    snd link_list]) :: rw).
      cbn [saved appended log_error] in Hs, Ha.
      rewrite <- app_assoc in Ha. cbn [app] in Ha.
      split; [assumption|]. split; [assumption|].
      split; [cbn [List.length]; lia|].
      unfold count_timeouts in *. cbn. lia.
    + exists sv, ((error_path self +:+ "/error.csv",
                   [name_prefix self +:+ fst link_list +:+ ".jpg";
                    "Timeout Err"; snd link_list]) :: rw).
      cbn [saved appended log_error] in Hs, Ha.
      rewrite <- app_assoc in Ha. cbn [app] in Ha.
      split; [assumption|]. split; [assumption|].
      split; [cbn [List.length]; lia|].
      unfold count_timeouts in *. cbn [filter is_timeout_row snd].
      cbn. lia.
    + rewrite (DownloadClaims.loop_abort _ _ _ _ _ _ _ _ _ _ _ _ _ _ H) in Hrun.
      discriminate Hrun.
Qed.

(** X7: when [start_download] returns, every work item has left exactly one
    trace, a saved image or a row of the error log, and the count returned is
    the number of images saved plus the number of rows of kind
    ['Timeout Err']: the count exceeds the number of saved images by the
    number of timeouts, and never exceeds the number of work items. *)
Theorem download_accounting :
  forall (self : t) (csv_path : string) (links : list url_pair)
         (n : Z) (s s' : State),
    _return_links open_csv csv_path = Return links ->
    start self csv_path s = (Return n, s') ->
    exists new_saved new_rows,
      saved s' = saved s ++ new_saved /\
      appended s' = appended s ++ new_rows /\
      (List.length new_saved + List.length new_rows = List.length links)%nat /\
      n = Z.of_nat (List.length new_saved) + count_timeouts new_rows /\
      Z.of_nat (List.length new_saved) <= n <= Z.of_nat (List.length links).
Proof.
  intros self csv_path links n s s' Hlinks Hrun.
  unfold start_download in Hrun. unfold bind at 1, lift at 1 in Hrun.
  rewrite Hlinks in Hrun.
  destruct (loop_trace self links 0 n s s' Hrun)
    as (sv & rw & Hs & Ha & Hl & Hn).
  exists sv, rw. repeat split; try assumption; try lia.
  - unfold count_timeouts in *. lia.
  - unfold count_timeouts in *.
    pose proof (filter_length_le is_timeout_row rw). lia.
Qed.

Lemma download_saved_invariant (self : t) (link_list : url_pair) (s : State) :
  Forall (well_saved self) (saved s) ->
  Forall (well_saved self) (saved (snd (download_images self link_list s))).
Proof.
  intro Hs.
  destruct (download_outcome self link_list s)
    as [(file & image & Hnorm & H)|[H|[(code & msg & H)|[H|(e & H)]]]];
    rewrite H; cbn [snd saved log_error save_image]; try assumption.
  apply Forall_app. split; [assumption|].
  constructor; [|constructor]. split; cbn [snd].
  - exact (normalised_mode self file image Hnorm).
  - intro Hr. now rewrite (normalised_size self file image Hnorm), Hr.
Qed.

Lemma loop_saved_invariant (self : t) (links : list url_pair) :
  forall (total : Z) (s : State),
    Forall (well_saved self) (saved s) ->
    Forall (well_saved self) (saved (snd (loop self links total s))).
Proof.
  induction links as [|link_list links IH]; intros total s Hs; [assumption|].
  pose proof (download_saved_invariant self link_list s Hs) as Hstep.
  destruct (download_images self link_list s) as [[result|e] s1] eqn:H.
  - rewrite (DownloadClaims.loop_step _ _ _ _ _ _ _ _ _ _ _ _ _ _ H).
    now apply IH.
  - now rewrite (DownloadClaims.loop_abort _ _ _ _ _ _ _ _ _ _ _ _ _ _ H).
Qed.

Lemma start_saved_invariant (self : t) (csv_path : string) (s : State) :
  Forall (well_saved self) (saved s) ->
  Forall (well_saved self) (saved (snd (start self csv_path s))).
Proof.
  intro Hs. unfold start_download. unfold bind at 1, lift at 1.
  destruct (_return_links open_csv csv_path) as [links|e]; [|assumption].
  now apply loop_saved_invariant.
Qed.

(** X8: whatever the file and the answers of the network, and whether
    [start_download] returns or raises, every image that it saves has mode
    RGB and, when [resize] is set, the target size on both sides: if the
    images saved before the call are so, the images saved after it are. *)
Theorem saved_images_are_normalised :
  forall (self : t) (csv_path : string) (s : State),
    Forall (well_saved self) (saved s) ->
    Forall (well_saved self) (saved (snd (start self csv_path s))).
Proof. exact start_saved_invariant. Qed.

End World.

Notation "'sample_start'" :=
  (fun csv => start_download csv sample_request sample_request sample_open
                sample_convert sample_resample sample_scaled sample_save).


Lemma broken_image_logged_not_counted_witness :
  _donwload_images get_empty sample_request sample_open sample_convert
    sample_resample sample_scaled sample_save sample_manager
    ("cat", "http://a/1.png") empty_state
  = (Return false,
     {| saved := [];
        appended := [("/work/report/error.csv",
                      ["img_cat.jpg"; "Image Broken"; "http://a/1.png"])];
        stdout := ["Error downloading image: Image Broken"] |}).
Proof.
  exact (proj1 (broken_image_logged_not_counted get_empty sample_request
                  sample_open sample_convert sample_resample sample_scaled
                  sample_save sample_manager ("cat", "http://a/1.png")
                  {| status := 200; reason := "OK"; data := [] |}
                  empty_state eq_refl eq_refl eq_refl)).
Defined.

Lemma download_success_saves_one_image_witness :
  (exists image s',
     _donwload_images sample_request sample_request sample_open
       sample_convert sample_resample sample_scaled sample_save
       sample_manager ("cat", "http://a/1.png") empty_state
     = (Return true, s')
     /\ saved s' = [("/work/images/img_cat.jpg", image)]
     /\ appended s' = []
     /\ PIL.mode image = "RGB"
     /\ PIL.size image = (1000, 1000))
  /\ (exists image s',
        _donwload_images sample_request sample_request sample_open
          sample_convert sample_resample sample_scaled sample_save
          plain_manager ("cat", "http://a/1.png") empty_state
        = (Return true, s')
        /\ saved s' = [("/work/images/img_cat.jpg", image)]
        /\ appended s' = []
        /\ PIL.mode image = "RGB"
        /\ PIL.size image = (2, 1)).
Proof.
  split.
  - destruct (normalised sample_convert sample_resample sample_scaled
                sample_manager sample_image) as [image|e] eqn:Hn;
      [|discriminate Hn].
    destruct (download_success_saves_one_image sample_request
                sample_request sample_open sample_convert sample_resample
                sample_scaled sample_save sample_manager
                ("cat", "http://a/1.png")
                {| status := 200; reason := "OK"; data := [Byte.x01] |}
                sample_image image empty_state eq_refl eq_refl eq_refl Hn
                eq_refl)
      as (s' & H1 & H2 & H3 & _ & H4 & H5).
    exists image, s'. repeat split; assumption.
  - destruct (normalised sample_convert sample_resample sample_scaled
                plain_manager sample_image) as [image|e] eqn:Hn;
      [|discriminate Hn].
    destruct (download_success_saves_one_image sample_request
                sample_request sample_open sample_convert sample_resample
                sample_scaled sample_save plain_manager
                ("cat", "http://a/1.png")
                {| status := 200; reason := "OK"; data := [Byte.x01] |}
                sample_image image empty_state eq_refl eq_refl eq_refl Hn
                eq_refl)
      as (s' & H1 & H2 & H3 & _ & H4 & H5).
    exists image, s'. repeat split; assumption.
Defined.

Lemma fallback_is_unguarded_witness :
  fst (_donwload_images unicode_request get_not_found sample_open
         sample_convert sample_resample sample_scaled sample_save
         sample_manager ("cat", "http://a/1.png") empty_state) = Return true
  /\ _donwload_images unicode_request get_empty sample_open
       sample_convert sample_resample sample_scaled sample_save
       sample_manager ("cat", "http://a/1.png") empty_state
     = (Raise UnidentifiedImageError, empty_state)
  /\ _donwload_images unicode_request get_not_found ImageSpec.thin_open
       sample_convert sample_resample sample_scaled sample_save
       sample_manager ("cat", "http://a/1.png") empty_state
     = (Raise ValueError, empty_state)
  /\ _donwload_images unicode_request get_not_found sample_open
       sample_convert sample_resample sample_scaled sample_save
       sample_manager ("a/b", "http://a/1.png") empty_state
     = (Raise FileNotFoundError, empty_state).
Proof.
  destruct (fallback_is_unguarded unicode_request get_not_found sample_open
              sample_convert sample_resample sample_scaled sample_save
              sample_manager ("cat", "http://a/1.png") empty_state eq_refl)
    as (_ & _ & _ & _ & Hsaved).
  destruct (fallback_is_unguarded unicode_request get_empty sample_open
              sample_convert sample_resample sample_scaled sample_save
              sample_manager ("cat", "http://a/1.png") empty_state eq_refl)
    as (_ & Hraise & _).
  destruct (fallback_is_unguarded unicode_request get_not_found
              ImageSpec.thin_open sample_convert sample_resample
              sample_scaled sample_save sample_manager
              ("cat", "http://a/1.png") empty_state eq_refl)
    as (_ & _ & Hresize & _).
  destruct (fallback_is_unguarded unicode_request get_not_found sample_open
              sample_convert sample_resample sample_scaled sample_save
              sample_manager ("a/b", "http://a/1.png") empty_state eq_refl)
    as (_ & _ & _ & Hsave & _).
  split; [|split; [|split]].
  - destruct (normalised sample_convert sample_resample sample_scaled
                sample_manager sample_image) as [image|e] eqn:Hn;
      [|discriminate Hn].
    rewrite (Hsaved {| status := 404; reason := "Not Found";
                       data := [Byte.x01] |} sample_image image
               eq_refl eq_refl Hn eq_refl).
    reflexivity.
  - exact (Hraise {| status := 200; reason := "OK"; data := [] |}
             UnidentifiedImageError eq_refl eq_refl).
  - exact (Hresize {| status := 404; reason := "Not Found";
                      data := [Byte.x01] |} ImageSpec.thin_sample ValueError
             eq_refl eq_refl eq_refl).
  - destruct (normalised sample_convert sample_resample sample_scaled
                sample_manager sample_image) as [image|e] eqn:Hn;
      [|discriminate Hn].
    exact (Hsave {| status := 404; reason := "Not Found";
                    data := [Byte.x01] |} sample_image image
             FileNotFoundError eq_refl eq_refl Hn eq_refl).
Defined.

Notation "'mixed_start'" :=
  (start_download mixed_csv (Urllib3.request mixed_wire) sample_request
     sample_open sample_convert sample_resample sample_scaled sample_save).

Lemma download_accounting_witness :
  fst (mixed_start sample_manager "mixed.csv" empty_state) = Return 1
  /\ exists new_saved new_rows,
       saved (snd (mixed_start sample_manager "mixed.csv" empty_state))
       = new_saved
       /\ appended (snd (mixed_start sample_manager "mixed.csv" empty_state))
          = new_rows
       /\ List.length new_saved = 1%nat
       /\ List.length new_rows = 2%nat
       /\ count_timeouts new_rows = 0.
Proof.
  split; [reflexivity|].
  destruct (download_accounting mixed_csv (Urllib3.request mixed_wire)
              sample_request sample_open sample_convert sample_resample
              sample_scaled sample_save sample_manager "mixed.csv"
              mixed_links 1 empty_state
              (snd (mixed_start sample_manager "mixed.csv" empty_state))
              eq_refl eq_refl)
    as (new_saved & new_rows & Hs & Ha & _).
  exists new_saved, new_rows. cbn [app saved appended empty_state] in Hs, Ha.
  split; [exact Hs|]. split; [exact Ha|].
  rewrite <- Hs, <- Ha. repeat split; reflexivity.
Defined.

Lemma saved_images_are_normalised_witness :
  Forall (well_saved sample_manager)
    (saved (snd (sample_start batch_csv sample_manager "batch.csv"
                   empty_state))).
Proof.
  exact (saved_images_are_normalised batch_csv sample_request sample_request
           sample_open sample_convert sample_resample sample_scaled
           sample_save sample_manager "batch.csv" empty_state
           (Forall_nil _)).
Defined.

End DownloadMore.

(** ** Entry point, properties *)

Module MainFacts.

Import ImageManager Main MoreSpec.

Lemma endswith_refl (suffix : string) : endswith suffix suffix = true.
Proof. destruct suffix; cbn [endswith]; now rewrite String.eqb_refl. Qed.

Lemma endswith_append (suffix s : string) :
  endswith suffix (s +:+ suffix) = true.
Proof.
  induction s as [|a s IH]; cbn [String.append].
  - apply endswith_refl.
  - cbn [endswith]. rewrite IH. apply orb_true_r.
Qed.

(** X9: the name under which [main] opens the CSV file always ends with
    [.csv]: a typed name that ends with it is used as it is, any other one
    gets the extension, and a second pass changes nothing. *)
Theorem csv_file_name_has_extension :
  forall (typed : string),
    endswith ".csv" (csv_file_name_of typed) = true /\
    (endswith ".csv" typed = true -> csv_file_name_of typed = typed) /\
    (endswith ".csv" typed = false ->
     csv_file_name_of typed = typed +:+ ".csv") /\
    csv_file_name_of (csv_file_name_of typed) = csv_file_name_of typed.
Proof.
  intro typed.
  assert (H : endswith ".csv" (csv_file_name_of typed) = true).
  { unfold csv_file_name_of.
    destruct (endswith ".csv" typed) eqn:E;
      [assumption | apply endswith_append]. }
  split; [exact H|]. split; [|split].
  - intro E. unfold csv_file_name_of. now rewrite E.
  - intro E. unfold csv_file_name_of. now rewrite E.
  - unfold csv_file_name_of at 1. now rewrite H.
Qed.

Lemma csv_file_name_has_extension_witness :
  csv_file_name_of "links" = "links.csv"
  /\ csv_file_name_of "links.csv" = "links.csv".
Proof.
  destruct (csv_file_name_has_extension "links") as (_ & _ & H1 & _).
  destruct (csv_file_name_has_extension "links.csv") as (_ & H2 & _).
  split; [exact (H1 eq_refl) | exact (H2 eq_refl)].
Defined.

Section World.

Variable open_csv : string -> option (list (list string)).
Variable http_request : string -> Result Response.
Variable requests_get : string -> Result Response.
Variable Image_open : list Byte.byte -> Result PIL.Image.
Variable convert_data : PIL.Image -> string -> Z -> Z -> list Z.
Variable resample : PIL.Image -> Z * Z -> Z -> Z -> list Z.
Variable int_scaled : Z -> Z -> Z -> Z.
Variable image_save : PIL.Image -> string -> Result unit.

Notation "'run_main'" :=
  (main_download open_csv http_request requests_get Image_open convert_data
     resample int_scaled image_save).

(** X10: [main] always resizes: every image saved by a run of [main] is an
    RGB image of 1000 by 1000, whatever the user types and the network
    answers, and whether the run ends or raises.  When the download ends, the
    last line printed is the count followed by [- Files Downloaded]. *)
Theorem main_saves_square_images :
  forall (cwd typed image_prefix : string) (s : State),
    Forall (fun entry => PIL.mode (snd entry) = "RGB" /\
                         PIL.size (snd entry) = (1000, 1000)) (saved s) ->
    Forall (fun entry => PIL.mode (snd entry) = "RGB" /\
                         PIL.size (snd entry) = (1000, 1000))
      (saved (snd (run_main cwd typed image_prefix s))) /\
    (forall n s',
       run_main cwd typed image_prefix s = (Return n, s') ->
       List.last (stdout s') "" = Py.str n +:+ " - Files Downloaded").
Proof.
  intros cwd typed image_prefix s Hs.
  set (self := __init__ cwd image_prefix true 1000).
  assert (Hinv : Forall (well_saved self) (saved s)).
  { eapply Forall_impl; [|exact Hs]. intros entry [Hm Hz].
    split; [assumption | intros _; exact Hz]. }
  pose proof (DownloadMore.start_saved_invariant open_csv http_request
                requests_get Image_open convert_data resample int_scaled
                image_save self (csv_file_name_of typed) s Hinv) as Hrun.
  unfold main_download. fold self. unfold bind at 1.
  destruct (start_download open_csv http_request requests_get Image_open
              convert_data resample int_scaled image_save self
              (csv_file_name_of typed) s) as [[downloaded|e] s1] eqn:E; cbn [snd] in Hrun.
  - split.
    + unfold bind, print, ret. cbn [snd saved].
      eapply Forall_impl; [|exact Hrun]. intros entry [Hm Hz].
      split; [assumption | now apply Hz].
    + intros n s' H. unfold bind, print, ret in H. rewrite E in H.
      injection H as <- <-. cbn [stdout]. apply last_last.
  - split.
    + cbn [snd]. eapply Forall_impl; [|exact Hrun]. intros entry [Hm Hz].
      split; [assumption | now apply Hz].
    + intros n s' H. unfold bind in H. rewrite E in H. discriminate H.
Qed.

End World.

Lemma main_saves_square_images_witness :
  Forall (fun entry => PIL.mode (snd entry) = "RGB" /\
                       PIL.size (snd entry) = (1000, 1000))
    (saved (snd (main_download DownloadSpec.batch_csv
                   DownloadSpec.sample_request DownloadSpec.sample_request
                   DownloadSpec.sample_open DownloadSpec.sample_convert
                   DownloadSpec.sample_resample DownloadSpec.sample_scaled
                   DownloadSpec.sample_save "/work" "batch" "img_" DownloadSpec.empty_state))).
Proof.
  exact (proj1 (main_saves_square_images DownloadSpec.batch_csv
                  DownloadSpec.sample_request DownloadSpec.sample_request
                  DownloadSpec.sample_open DownloadSpec.sample_convert
                  DownloadSpec.sample_resample DownloadSpec.sample_scaled
                  DownloadSpec.sample_save "/work" "batch" "img_" DownloadSpec.empty_state
                  (Forall_nil _))).
Defined.

End MainFacts.

(** ** Image normalisation, further properties *)

Module ImageMore.

Import ImageManager DownloadSpec ImageSpec ImageFacts MoreSpec.

Lemma div255_range (x : Z) : 0 <= x <= 65025 -> 0 <= PIL.div255 x <= 255.
Proof.
  intro Hx. unfold PIL.div255. cbv zeta.
  rewrite !Z.shiftr_div_pow2 by lia. change (2 ^ 8) with 256.
  assert (H1 : 0 <= (x + 128) / 256 <= 254).
  { split; [apply Z.div_pos; lia|].
    apply Z.lt_succ_r. apply Z.div_lt_upper_bound; lia. }
  split; [apply Z.div_pos; lia|].
  apply Z.lt_succ_r. apply Z.div_lt_upper_bound; lia.
Qed.

Lemma blend8_range (a dst v : Z) :
  0 <= a <= 255 -> 0 <= dst <= 255 -> 0 <= v <= 255 ->
  0 <= PIL.blend8 a dst v <= 255.
Proof.
  intros Ha Hd Hv. unfold PIL.blend8. apply div255_range. nia.
Qed.

(** Under a mask value of 0 the blend is the destination value. *)
Lemma blend8_transparent (dst v : Z) :
  0 <= dst <= 255 -> PIL.blend8 0 dst v = dst.
Proof.
  intro Hd. unfold PIL.blend8.
  replace (dst * (255 - 0) + v * 0) with (dst * 255) by lia.
  now apply div255_scaled.
Qed.

Lemma half_gap_margins (S side : Z) :
  0 <= side <= S ->
  let before := half_gap S side in
  let after := S - side - before in
  0 <= before /\ before <= after <= before + 1.
Proof.
  intros H before after. subst before after. unfold half_gap.
  rewrite Z.quot_div_nonneg by lia.
  pose proof (Z.div_mod (S - side) 2 ltac:(lia)) as E.
  pose proof (Z.mod_pos_bound (S - side) 2 ltac:(lia)) as B.
  split; [apply Z.div_pos; lia | lia].
Qed.

Section Library.

Variable convert_data : PIL.Image -> string -> Z -> Z -> list Z.
Variable resample : PIL.Image -> Z * Z -> Z -> Z -> list Z.
Variable int_scaled : Z -> Z -> Z -> Z.

Notation "'remove_transparency'" := (_remove_transparency convert_data).
Notation "'resize_image'" :=
  (_resize_image convert_data resample int_scaled).

(** X11: where the RGBA rendering of a flattened image is fully transparent
    (alpha 0), the flattening step gives a white, opaque pixel, whatever the
    colour stored under the transparency. *)
Theorem transparent_pixels_become_white :
  forall (image_object : PIL.Image) (x y r g b : Z),
    needs_flattening image_object = true ->
    PIL.inside (PIL.size image_object) x y = true ->
    PIL.getpixel (PIL.convert convert_data image_object "RGBA") x y
    = [r; g; b; 0] ->
    PIL.getpixel (remove_transparency image_object white) x y
    = [255; 255; 255; 255].
Proof.
  intros image_object x y r g b Hn Hin Hpix.
  rewrite remove_transparency_applied, flattened_pixel by assumption.
  rewrite Hpix. cbn [nth PIL.zip_with].
  now rewrite !blend8_transparent by lia.
Qed.

(** X12: the flattening step keeps the pixel data well formed: when every
    pixel of the RGBA rendering of the image has four values between 0 and
    255, so has every pixel of the flattened image. *)
Theorem flattening_keeps_bands_in_range :
  forall (image_object : PIL.Image),
    needs_flattening image_object = true ->
    valid_rgba (PIL.convert convert_data image_object "RGBA") ->
    valid_rgba (remove_transparency image_object white).
Proof.
  intros image_object Hn Hvalid x y Hin.
  rewrite remove_transparency_applied in * by assumption.
  change (PIL.size (flattened convert_data image_object))
    with (PIL.size image_object) in Hin.
  rewrite flattened_pixel by assumption.
  assert (Hin' : PIL.inside
                   (PIL.size (PIL.convert convert_data image_object "RGBA"))
                   x y = true) by now rewrite convert_size.
  destruct (Hvalid x y Hin') as (r & g & b & a & E & Hr & Hg & Hb & Ha).
  rewrite E. cbn [nth PIL.zip_with].
  exists (PIL.blend8 a 255 r), (PIL.blend8 a 255 g), (PIL.blend8 a 255 b),
         (PIL.blend8 a 255 a).
  split; [reflexivity|].
  repeat split; apply blend8_range; lia.
Qed.

(** X13: whether the flattening step is applied depends on the mode only:
    it is applied exactly to the modes RGBA, LA and P.  The [info]
    dictionary has no part in it; an image of mode P is flattened, into an
    image of mode RGBA and of the same size, also when it has no transparency
    entry. *)
Theorem flattening_test_is_mode_only :
  forall (image_object : PIL.Image),
    (needs_flattening image_object
     = existsb (String.eqb (PIL.mode image_object)) ["RGBA"; "LA"; "P"]) /\
    (forall other, PIL.mode other = PIL.mode image_object ->
                   needs_flattening other = needs_flattening image_object) /\
    (PIL.mode image_object = "P" ->
     PIL.mode (remove_transparency image_object white) = "RGBA" /\
     PIL.size (remove_transparency image_object white)
     = PIL.size image_object).
Proof.
  intro image_object.
  assert (H : forall im,
             needs_flattening im
             = existsb (String.eqb (PIL.mode im)) ["RGBA"; "LA"; "P"]).
  { intro im. unfold needs_flattening. cbn [existsb].
    destruct (String.eqb (PIL.mode im) "RGBA"),
             (String.eqb (PIL.mode im) "LA"),
             (String.eqb (PIL.mode im) "P"); reflexivity. }
  split; [apply H|]. split.
  - intros other E. now rewrite !H, E.
  - intro Hp.
    assert (Hn : needs_flattening image_object = true).
    { apply needs_flattening_modes. auto. }
    rewrite remove_transparency_applied by assumption. now split.
Qed.

(** The canvas of [pad] around a scaled image that fills the width. *)
Lemma pad_rows (S hsize : Z) (scaled : PIL.Image) (x y : Z) :
  PIL.size scaled = (S, hsize) ->
  PIL.inside (S, S) x y = true ->
  PIL.getpixel
    (PIL.paste convert_data (PIL.canvas "RGB" (S, S) [255; 255; 255]) scaled
       (half_gap S (fst (PIL.size scaled)),
        half_gap S (snd (PIL.size scaled))) None) x y
  = if (half_gap S hsize <=? y) && (y <? half_gap S hsize + hsize)
    then PIL.getpixel (PIL.convert convert_data scaled "RGB") x
           (y - half_gap S hsize)
    else [255; 255; 255].
Proof.
  intros Hsize Hin.
  assert (Hgap0 : half_gap S S = 0).
  { unfold half_gap. now rewrite Z.sub_diag. }
  rewrite Hsize. cbn [fst snd]. rewrite Hgap0. unfold PIL.paste.
  cbn [PIL.getpixel PIL.mode PIL.size PIL.canvas fst snd].
  rewrite Hin. cbn [andb].
  rewrite convert_size, Hsize, Z.sub_0_r.
  unfold PIL.inside in *. cbn [fst snd] in *.
  apply andb_prop in Hin as [Hin Hy2]. apply andb_prop in Hin as [Hin Hy1].
  rewrite Hin. cbn [andb].
  set (top := half_gap S hsize).
  destruct (Z.leb_spec top y), (Z.ltb_spec y (top + hsize)),
           (Z.leb_spec 0 (y - top)), (Z.ltb_spec (y - top) hsize);
    cbn [andb]; try reflexivity; lia.
Qed.

(** The canvas of [pad] around a scaled image that fills the height. *)
Lemma pad_columns (S wsize : Z) (scaled : PIL.Image) (x y : Z) :
  PIL.size scaled = (wsize, S) ->
  PIL.inside (S, S) x y = true ->
  PIL.getpixel
    (PIL.paste convert_data (PIL.canvas "RGB" (S, S) [255; 255; 255]) scaled
       (half_gap S (fst (PIL.size scaled)),
        half_gap S (snd (PIL.size scaled))) None) x y
  = if (half_gap S wsize <=? x) && (x <? half_gap S wsize + wsize)
    then PIL.getpixel (PIL.convert convert_data scaled "RGB")
           (x - half_gap S wsize) y
    else [255; 255; 255].
Proof.
  intros Hsize Hin.
  assert (Hgap0 : half_gap S S = 0).
  { unfold half_gap. now rewrite Z.sub_diag. }
  rewrite Hsize. cbn [fst snd]. rewrite Hgap0. unfold PIL.paste.
  cbn [PIL.getpixel PIL.mode PIL.size PIL.canvas fst snd].
  rewrite Hin. cbn [andb].
  rewrite convert_size, Hsize, Z.sub_0_r.
  unfold PIL.inside in *. cbn [fst snd] in *.
  apply andb_prop in Hin as [Hin Hy2]. apply andb_prop in Hin as [Hin Hy1].
  apply andb_prop in Hin as [Hx1 Hx2].
  rewrite Hy1, Hy2.
  set (left := half_gap S wsize).
  destruct (Z.leb_spec left x), (Z.ltb_spec x (left + wsize)),
           (Z.leb_spec 0 (x - left)), (Z.ltb_spec (x - left) wsize);
    cbn [andb]; try reflexivity; lia.
Qed.

(** X14: on an image wider than high, when the scaled height [hsize] lies
    between 1 and the target size, the library's resize returns the scaled
    image and the padded resize returns a canvas on which the scaled image
    fills the width and is centred in the height: the rows above it number
    [(new_size - hsize) / 2] and the rows below it as many or one more;
    every pixel of these rows is white, every other pixel is that of the
    scaled image.  The same holds of an image higher than wide, with
    columns for rows. *)
Theorem padding_is_centred_and_white :
  forall (self : t) (image : PIL.Image),
    let S := new_size self in
    let width := fst (PIL.size image) in
    let height := snd (PIL.size image) in
    (width > height ->
     let hsize := int_scaled height S width in
     let top := half_gap S hsize in
     1 <= hsize <= S ->
     (0 <= top /\ top <= S - hsize - top <= top + 1) /\
     exists scaled out,
       PIL.resize resample image (S, hsize) = Return scaled /\
       resize_image self image = Return out /\
       forall x y, PIL.inside (S, S) x y = true ->
         PIL.getpixel out x y
         = if (top <=? y) && (y <? top + hsize)
           then PIL.getpixel (PIL.convert convert_data scaled "RGB") x
                  (y - top)
           else [255; 255; 255]) /\
    (height > width ->
     let wsize := int_scaled width S height in
     let left := half_gap S wsize in
     1 <= wsize <= S ->
     (0 <= left /\ left <= S - wsize - left <= left + 1) /\
     exists scaled out,
       PIL.resize resample image (wsize, S) = Return scaled /\
       resize_image self image = Return out /\
       forall x y, PIL.inside (S, S) x y = true ->
         PIL.getpixel out x y
         = if (left <=? x) && (x <? left + wsize)
           then PIL.getpixel (PIL.convert convert_data scaled "RGB")
                  (x - left) y
           else [255; 255; 255]).
Proof.
  intros self image S width height.
  split.
  - intros Hwh hsize top Hh.
    split; [apply (half_gap_margins S hsize); lia|].
    destruct (resize_returns resample image (S, hsize))
      as [scaled Hscaled]; [cbn [fst]; lia | cbn [snd]; lia |].
    exists scaled. eexists. split; [exact Hscaled|]. split.
    + unfold _resize_image, Image_resize.
      destruct (PIL.size image) as [w h] eqn:Hsize. cbn [fst snd] in *.
      subst width height.
      replace (w =? h) with false by (symmetry; apply Z.eqb_neq; lia).
      replace (w >? h) with true by (symmetry; apply Z.gtb_lt; lia).
      cbn [negb]. fold S. fold hsize. rewrite Hscaled. cbn [and_then].
      rewrite ImageClaims.pad_returns by (cbn [fst snd]; lia).
      reflexivity.
    + intros x y Hin. cbn [fst snd].
      apply pad_rows; [|assumption].
      exact (resize_size resample _ _ _ Hscaled).
  - intros Hhw wsize left Hw.
    split; [apply (half_gap_margins S wsize); lia|].
    destruct (resize_returns resample image (wsize, S))
      as [scaled Hscaled]; [cbn [fst]; lia | cbn [snd]; lia |].
    exists scaled. eexists. split; [exact Hscaled|]. split.
    + unfold _resize_image, Image_resize.
      destruct (PIL.size image) as [w h] eqn:Hsize. cbn [fst snd] in *.
      subst width height.
      replace (w =? h) with false by (symmetry; apply Z.eqb_neq; lia).
      replace (w >? h) with false
        by (symmetry; rewrite Z.gtb_ltb; apply Z.ltb_ge; lia).
      replace (h >? w) with true by (symmetry; apply Z.gtb_lt; lia).
      cbn [negb]. fold S. fold wsize. rewrite Hscaled. cbn [and_then].
      rewrite ImageClaims.pad_returns by (cbn [fst snd]; lia).
      reflexivity.
    + intros x y Hin. cbn [fst snd].
      apply pad_columns; [|assumption].
      exact (resize_size resample _ _ _ Hscaled).
Qed.

End Library.

Notation "'sample_flatten'" := (_remove_transparency sample_convert).
Notation "'sample_resize'" :=
  (_resize_image sample_convert sample_resample sample_scaled).

Lemma transparent_pixels_become_white_witness :
  PIL.getpixel (sample_flatten clear_sample white) 0 0
  = [255; 255; 255; 255].
Proof.
  exact (transparent_pixels_become_white sample_convert clear_sample
           0 0 9 9 9 eq_refl eq_refl eq_refl).
Defined.

Lemma rgba_sample_valid :
  valid_rgba (PIL.convert sample_convert rgba_sample "RGBA").
Proof.
  intros x y _. exists 0, 0, 0, 128. split; [reflexivity | lia].
Defined.

Lemma flattening_keeps_bands_in_range_witness :
  valid_rgba (sample_flatten rgba_sample white).
Proof.
  exact (flattening_keeps_bands_in_range sample_convert rgba_sample
           eq_refl rgba_sample_valid).
Defined.

Lemma flattening_test_is_mode_only_witness :
  needs_flattening palette_sample = true
  /\ PIL.mode (sample_flatten palette_sample white) = "RGBA".
Proof.
  destruct (flattening_test_is_mode_only sample_convert palette_sample)
    as (Htest & _ & Hp).
  split; [exact Htest | exact (proj1 (Hp eq_refl))].
Defined.

Lemma padding_is_centred_and_white_witness :
  (exists out,
     sample_resize sample_manager wide_sample = Return out
     /\ PIL.getpixel out 10 0 = [255; 255; 255]
     /\ PIL.getpixel out 10 375 = [1; 2; 3]
     /\ PIL.getpixel out 10 625 = [255; 255; 255])
  /\ (exists out,
        sample_resize sample_manager tall_sample = Return out
        /\ PIL.getpixel out 374 10 = [255; 255; 255]
        /\ PIL.getpixel out 624 10 = [1; 2; 3]).
Proof.
  assert (Hside : 1 <= 250 <= 1000) by lia.
  destruct (padding_is_centred_and_white sample_convert sample_resample
              sample_scaled sample_manager wide_sample) as [Hwide _].
  destruct (padding_is_centred_and_white sample_convert sample_resample
              sample_scaled sample_manager tall_sample) as [_ Htall].
  destruct (Hwide eq_refl Hside) as [_ (scaled & out & Hs & Hout & Hw)].
  destruct (Htall eq_refl Hside) as [_ (scaled' & out' & Hs' & Hout' & Ht)].
  injection Hs as <-. injection Hs' as <-.
  split.
  - exists out. split; [exact Hout|].
    split; [exact (Hw 10 0 eq_refl)|].
    split; [exact (Hw 10 375 eq_refl) | exact (Hw 10 625 eq_refl)].
  - exists out'. split; [exact Hout'|].
    split; [exact (Ht 374 10 eq_refl) | exact (Ht 624 10 eq_refl)].
Defined.

End ImageMore.

(** ** Upload grouper, further properties *)

Module GrouperMore.

Import AzureManager GrouperSpec GrouperFacts KeyFacts.
Import Permutation.

Lemma first_seen_subset (l : list string) (k : string) :
  In k (first_seen l) -> In k l.
Proof.
  induction l as [|x l IH] using rev_ind; [intros []|].
  rewrite first_seen_snoc. unfold add_key.
  destruct (existsb (String.eqb x) (first_seen l)); intro H.
  - apply in_or_app. left. now apply IH.
  - apply in_app_or in H. apply in_or_app.
    destruct H as [H|H]; [left; now apply IH | now right].
Qed.

Lemma flat_map_split (g h : string -> list string) (keys : list string) :
  Permutation (flat_map (fun k => g k ++ h k) keys)
    (flat_map g keys ++ flat_map h keys).
Proof.
  induction keys as [|k keys IH]; [constructor|]. cbn [flat_map].
  rewrite IH, <- !app_assoc. apply Permutation_app_head.
  rewrite !app_assoc. apply Permutation_app_tail. apply Permutation_app_comm.
Qed.

Lemma flat_map_single (k : string) (f : string) (keys : list string) :
  NoDup keys -> In k keys ->
  flat_map (fun k' => if String.eqb k k' then [f] else []) keys = [f].
Proof.
  induction keys as [|k0 keys IH]; intros Hnd Hin; [destruct Hin|].
  inversion Hnd as [|? ? Hk0 Hnd']; subst. cbn [flat_map].
  destruct (String.eqb_spec k k0) as [->|E].
  - cbn [app]. f_equal.
    clear IH Hin Hnd Hnd'. induction keys as [|k1 keys IH]; [reflexivity|].
    cbn [flat_map]. destruct (String.eqb_spec k0 k1) as [->|E].
    + exfalso. apply Hk0. now left.
    + apply IH. intro H. apply Hk0. now right.
  - cbn [app]. apply IH; [assumption|].
    destruct Hin as [Hin|Hin]; [congruence | assumption].
Qed.

Lemma flat_map_members_old (files : list string) (f : string)
    (keys : list string) :
  ~ In (base_name_of f) keys ->
  flat_map (members (files ++ [f])) keys = flat_map (members files) keys.
Proof.
  intro Hk. induction keys as [|k keys IH]; [reflexivity|]. cbn [flat_map].
  rewrite IH by (intro H; apply Hk; now right).
  f_equal. rewrite members_snoc.
  destruct (String.eqb_spec (base_name_of f) k) as [E|E].
  - exfalso. apply Hk. now left.
  - apply app_nil_r.
Qed.

(** The groups of the keys, one after the other, hold every file once. *)
Lemma members_partition (files : list string) :
  Permutation
    (flat_map (members files) (first_seen (map base_name_of files))) files.
Proof.
  induction files as [|f files IH] using rev_ind; [constructor|].
  rewrite map_app. cbn [map]. rewrite first_seen_snoc.
  set (k := base_name_of f).
  set (keys := first_seen (map base_name_of files)) in *.
  unfold add_key. destruct (existsb (String.eqb k) keys) eqn:Hk.
  - apply mem_true in Hk.
    rewrite (flat_map_ext _
               (fun k' => members files k'
                          ++ (if String.eqb k k' then [f] else []))
               (fun k' => members_snoc files f k')).
    rewrite flat_map_split.
    rewrite (flat_map_single k f keys (first_seen_NoDup _) Hk).
    now apply Permutation_app_tail.
  - apply mem_false in Hk.
    rewrite flat_map_app. cbn [flat_map]. rewrite app_nil_r.
    rewrite (flat_map_members_old files f keys Hk).
    rewrite members_snoc. fold k. rewrite String.eqb_refl.
    rewrite (members_unseen files k Hk). cbn [app].
    now apply Permutation_app_tail.
Qed.

Lemma members_seen (files : list string) (k : string) :
  In k (first_seen (map base_name_of files)) -> members files k <> [].
Proof.
  intro Hk. apply first_seen_subset in Hk.
  apply in_map_iff in Hk as (f & E & Hf).
  assert (H : In f (members files k)).
  { unfold members. apply filter_In. split; [assumption|].
    now apply String.eqb_eq. }
  intro E'. rewrite E' in H. destruct H.
Qed.

Lemma rows_closed_form (self : t) (files : list string) :
  map snd (_generate_csv_from_files self files)
  = map (fun k => k :: map (fun name => url_base self +:+ name)
                        (members files k))
      (first_seen (map base_name_of files)).
Proof.
  unfold _generate_csv_from_files. rewrite group_all. unfold grouped.
  rewrite !map_map. apply map_ext. intro k. cbn [snd].
  apply row_of_urls.
Qed.

(** The addresses of all the rows are those of the files, each once. *)
Lemma rows_addresses (self : t) (files : list string) :
  Permutation
    (flat_map (@tl string) (map snd (_generate_csv_from_files self files)))
    (map (fun name => url_base self +:+ name) files).
Proof.
  rewrite rows_closed_form.
  rewrite flat_map_concat_map, map_map. cbn [tl].
  rewrite <- map_map with (g := map (fun name => url_base self +:+ name)).
  rewrite <- concat_map, <- flat_map_concat_map.
  apply Permutation_map. apply members_partition.
Qed.

(** X15: the rows of the manifest partition the files: the keys of the rows
    are pairwise distinct, every row has its key and at least one address,
    every address of a row is that of a file with the key of the row, and
    the addresses of all the rows together are those of the files of the
    list, each file once. *)
Theorem manifest_rows_partition_files :
  forall (self : t) (directory_files : list string),
    let rows := map snd (_generate_csv_from_files self directory_files) in
    NoDup (map (hd "") rows) /\
    Forall (fun row => (2 <= List.length row)%nat) rows /\
    Forall (fun row =>
              forall url, In url (tl row) ->
                exists file, In file directory_files /\
                             base_name_of file = hd "" row /\
                             url = url_base self +:+ file) rows /\
    Permutation (flat_map (@tl string) rows)
      (map (fun name => url_base self +:+ name) directory_files).
Proof.
  intros self files rows. subst rows. rewrite rows_closed_form.
  set (keys := first_seen (map base_name_of files)).
  split; [|split; [|split]].
  - rewrite map_map. cbn [hd]. rewrite map_id. apply first_seen_NoDup.
  - apply Forall_forall. intros row Hrow.
    apply in_map_iff in Hrow as (k & <- & Hk).
    pose proof (members_seen files k Hk) as Hne.
    cbn [List.length]. rewrite length_map.
    destruct (members files k); [congruence | cbn; lia].
  - apply Forall_forall. intros row Hrow.
    apply in_map_iff in Hrow as (k & <- & Hk). cbn [hd tl].
    intros url Hurl. apply in_map_iff in Hurl as (file & <- & Hfile).
    unfold members in Hfile. apply filter_In in Hfile as [Hin E].
    apply String.eqb_eq in E. now exists file.
  - fold keys. rewrite <- rows_closed_form. apply rows_addresses.
Qed.

Lemma manifest_rows_partition_files_witness :
  Permutation
    (flat_map (@tl string)
       (map snd (_generate_csv_from_files sample_azure
                   ["foo_1.jpg"; "bar.jpg"; "foo.jpg"])))
    ["https://acct.blob.core.windows.net/pics/foo_1.jpg";
     "https://acct.blob.core.windows.net/pics/bar.jpg";
     "https://acct.blob.core.windows.net/pics/foo.jpg"].
Proof.
  exact (proj2 (proj2 (proj2 (manifest_rows_partition_files sample_azure
                                ["foo_1.jpg"; "bar.jpg"; "foo.jpg"])))).
Defined.

Lemma digit_cases (d : ascii) :
  is_digit d = true ->
  In d ["0"; "1"; "2"; "3"; "4"; "5"; "6"; "7"; "8"; "9"]%char.
Proof.
  destruct d as [[] [] [] [] [] [] [] []]; intro H;
    try discriminate H; cbn; tauto.
Qed.

Lemma startswith_length (p s : string) :
  Py.startswith p s = true -> (String.length p <= String.length s)%nat.
Proof.
  revert s. induction p as [|a p IH]; intros s H; cbn; [lia|].
  destruct s as [|b s]; [discriminate H|]. cbn [Py.startswith] in H.
  apply andb_prop in H as [_ H]. apply IH in H. cbn. lia.
Qed.

Lemma replace_from_short (old new s : string) :
  (String.length s < String.length old)%nat ->
  Py.replace_from old new O s = s.
Proof.
  intro Hlen. induction s as [|a s IH]; [reflexivity|].
  cbn [Py.replace_from].
  destruct (Py.startswith old (String a s)) eqn:E.
  - apply startswith_length in E. lia.
  - rewrite IH; [reflexivity | cbn in Hlen; lia].
Qed.

Lemma split_no_sep (c : ascii) (s : string) :
  Py.contains (String c "") s = false -> Py.split c s = [s].
Proof.
  induction s as [|a s IH]; intro H; [reflexivity|].
  apply contains_char_cons in H as [Ha Hs]. cbn [Py.split].
  rewrite Ascii.eqb_sym, Ha, (IH Hs). reflexivity.
Qed.

(** X16: a name that the pattern matches but that has no underscore (the
    pattern accepts [/] before the digit) keeps its whole name, extension
    included, as key: nothing is stripped. *)
Theorem match_without_underscore_keeps_name :
  forall (file : string),
    Re.search end_string file = true ->
    Py.contains "_" file = false ->
    base_name_of file = file.
Proof.
  intros file Hre Hsep. unfold base_name_of. rewrite Hre.
  rewrite (split_no_sep "_"%char file Hsep). cbn [Py.last List.last].
  unfold Py.replace. cbn [String.append].
  apply replace_from_short. cbn. lia.
Qed.

Lemma match_without_underscore_keeps_name_witness :
  base_name_of "foo/1.jpg" = "foo/1.jpg".
Proof.
  exact (match_without_underscore_keeps_name "foo/1.jpg" eq_refl eq_refl).
Defined.

Lemma contains_char_app (c : ascii) (s t : string) :
  Py.contains (String c "") s = false ->
  Py.contains (String c "") t = false ->
  Py.contains (String c "") (s +:+ t) = false.
Proof.
  intros Hs Ht. induction s as [|a s IH]; [assumption|].
  apply contains_char_cons in Hs as [Ha Hs]. cbn [String.append].
  cbn [Py.contains Py.startswith]. rewrite Ha, (IH Hs). reflexivity.
Qed.

(** The pattern does not match at a position of [base] when "jpg" is not in
    [base] and what follows [base] is [_d1d2.jpg]. *)
Lemma no_match_before_two_digits (base : string) (d1 d2 : ascii) :
  is_digit d1 = true -> is_digit d2 = true ->
  Py.contains "jpg" base = false ->
  Re.search end_string (base +:+ String "_"%char (String d1 (String d2 ".jpg")))
  = false.
Proof.
  intros H1 H2.
  apply digit_cases in H1. apply digit_cases in H2.
  induction base as [|c base IH]; intro Hj.
  - cbn [String.append].
    repeat (destruct H1 as [<-|H1]); try destruct H1;
      repeat (destruct H2 as [<-|H2]); try destruct H2; reflexivity.
  - cbn [String.append Re.search].
    assert (Hrest : Py.contains "jpg" base = false).
    { cbn [Py.contains] in Hj. now apply orb_false_elim in Hj as [_ Hj]. }
    rewrite (IH Hrest), orb_false_r.
    destruct base as [|c1 [|c2 [|c3 [|c4 [|c5 base]]]]];
      cbn [String.append Re.match_here end_string].
    + repeat (destruct H2 as [<-|H2]); try destruct H2;
        cbn; now rewrite ?andb_false_r.
    + repeat (destruct H1 as [<-|H1]); try destruct H1;
        cbn; now rewrite ?andb_false_r.
    + cbn. now rewrite ?andb_false_r.
    + cbn. now rewrite ?andb_false_r.
    + cbn. now rewrite ?andb_false_r.
    + cbn [Py.contains Py.startswith] in Hj.
      apply orb_false_elim in Hj as [_ Hj].
      apply orb_false_elim in Hj as [_ Hj].
      apply orb_false_elim in Hj as [_ Hj].
      apply orb_false_elim in Hj as [Hj _].
      cbn [Re.atom_matches].
      rewrite (Ascii.eqb_sym c3), (Ascii.eqb_sym c4), (Ascii.eqb_sym c5).
      destruct (Ascii.eqb "j" c3), (Ascii.eqb "p" c4), (Ascii.eqb "g" c5);
        cbn in Hj; try discriminate Hj; now rewrite ?andb_false_r.
Qed.

(** X17: a name [base_d1d2.jpg] with a two-digit index, whose [base] has no
    dot and does not contain "jpg", is not matched by the pattern (which
    has one digit only): its key is [base_d1d2], not [base], so that the
    eleventh image of a row is not grouped with the first ten. *)
Theorem two_digit_index_not_grouped :
  forall (base : string) (d1 d2 : ascii),
    is_digit d1 = true -> is_digit d2 = true ->
    Py.contains "." base = false ->
    Py.contains "jpg" base = false ->
    base_name_of (base +:+ "_" +:+ String d1 (String d2 ".jpg"))
    = base +:+ "_" +:+ String d1 (String d2 "") /\
    base_name_of (base +:+ "_" +:+ String d1 (String d2 ".jpg")) <> base.
Proof.
  intros base d1 d2 H1 H2 Hdot Hjpg.
  assert (E : base_name_of (base +:+ "_" +:+ String d1 (String d2 ".jpg"))
              = base +:+ "_" +:+ String d1 (String d2 "")).
  { unfold base_name_of. cbn [String.append].
    rewrite (no_match_before_two_digits base d1 d2 H1 H2 Hjpg).
    change (base +:+ String "_"%char (String d1 (String d2 ".jpg")))
      with (base +:+ String "_"%char (String d1 (String d2 ""))
                     +:+ String "."%char "jpg").
    rewrite <- append_assoc. apply first_split_stem.
    apply contains_char_app; [assumption|].
    apply digit_cases in H1. apply digit_cases in H2.
    repeat (destruct H1 as [<-|H1]); try destruct H1;
      repeat (destruct H2 as [<-|H2]); try destruct H2; reflexivity. }
  split; [exact E|]. rewrite E. intro H.
  apply (f_equal String.length) in H.
  rewrite LinksMore.append_length in H. cbn in H. lia.
Qed.

Lemma two_digit_index_not_grouped_witness :
  base_name_of "img_cat_10.jpg" = "img_cat_10".
Proof.
  exact (proj1 (two_digit_index_not_grouped "img_cat" "1"%char "0"%char
                  eq_refl eq_refl eq_refl eq_refl)).
Defined.

End GrouperMore.

(** ** Upload, properties *)

Module UploadFacts.

Import AzureManager Upload MoreSpec.
Import Permutation.

Section SendFiles.

Variable listdir : string -> option (list DirEntry).
Variable upload_blob : Blob -> Result unit.

Notation "'uploads'" := (upload_loop upload_blob).
Notation "'send'" := (send_files listdir upload_blob).

Lemma progress_lines_nth (files : list DirEntry) :
  forall (count total : Z) (k : nat) (file : DirEntry),
    nth_error files k = Some file ->
    nth_error (progress_lines files count total) k
    = Some (progress_line (entry_name file) (count + Z.of_nat k) total).
Proof.
  induction files as [|f files IH]; intros count total k file Hk.
  - destruct k; discriminate Hk.
  - destruct k as [|k]; cbn [nth_error progress_lines] in *.
    + injection Hk as ->. now rewrite Z.add_0_r.
    + rewrite (IH (count + 1) total k file Hk).
      replace (count + 1 + Z.of_nat k) with (count + Z.of_nat (S k)) by lia.
      reflexivity.
Qed.

(** The loop over a first part whose uploads all succeed. *)
Lemma upload_loop_prefix (content_type : string) (before : list DirEntry) :
  forall (rest : list DirEntry) (count total : Z) (s : State),
    (forall file, In file before ->
                  upload_blob (blob_of content_type file) = Return tt) ->
    uploads content_type (before ++ rest) count total s
    = uploads content_type rest (count + Z.of_nat (List.length before)) total
        {| manifest := manifest s;
           uploaded := uploaded s ++ map (blob_of content_type) before;
           printed := printed s ++ progress_lines before count total |}.
Proof.
  induction before as [|file before IH]; intros rest count total s Hok.
  - cbn. rewrite !app_nil_r, Z.add_0_r. now destruct s.
  - cbn [app upload_loop].
    change {| blob_name := entry_name file; blob_data := content file;
              overwrite := true; content_type := content_type |}
      with (blob_of content_type file).
    rewrite (Hok file (or_introl eq_refl)).
    rewrite IH by (intros f Hf; apply Hok; now right).
    cbn [manifest uploaded printed map progress_lines List.length].
    rewrite <- !app_assoc. cbn [app]. f_equal. lia.
Qed.

(** X18: when the folder exists and the storage accepts every upload,
    [send_files] first appends the rows of the manifest for the regular
    files of the folder, then uploads these files, each once, in the order of
    the listing, under its own name, with its own bytes, the given content
    type and [overwrite] set; entries that are not regular files are left
    out.  The line printed after the [k]-th upload (from 0) shows the count
    [k], so that the last line shows one less than the number of files. *)
Theorem send_files_uploads_every_file :
  forall (self : t) (directory content_type : string)
         (entries : list DirEntry) (s : State),
    listdir (root_folder self +:+ "/" +:+ directory) = Some entries ->
    let files := filter is_file entries in
    let total := Z.of_nat (List.length files) in
    (forall file, In file files ->
                  upload_blob (blob_of content_type file) = Return tt) ->
    exists s',
      send self directory content_type s = (Return tt, s') /\
      manifest s'
      = manifest s ++ _generate_csv_from_files self (map entry_name files) /\
      uploaded s' = uploaded s ++ map (blob_of content_type) files /\
      map blob_name (map (blob_of content_type) files)
      = map entry_name files /\
      printed s' = printed s ++ progress_lines files 0 total /\
      forall k file,
        nth_error files k = Some file ->
        nth_error (progress_lines files 0 total) k
        = Some (progress_line (entry_name file) (Z.of_nat k) total).
Proof.
  intros self directory content_type entries s Hdir files total Hok.
  unfold send_files. rewrite Hdir. fold files. fold total.
  match goal with
  | |- context [upload_loop _ _ _ _ _ ?s1] =>
      pose proof (upload_loop_prefix content_type files [] 0 total s1 Hok)
        as Hloop
  end.
  rewrite app_nil_r in Hloop. rewrite Hloop. cbn [upload_loop].
  eexists. split; [reflexivity|]. cbn [manifest uploaded printed].
  split; [reflexivity|]. split; [reflexivity|]. split.
  - rewrite map_map. now apply map_ext.
  - split; [reflexivity|]. intros k file Hk.
    now rewrite (progress_lines_nth files 0 total k file Hk).
Qed.

(** X19: when the storage refuses the upload of one file, [send_files]
    raises at that file: the files before it have been uploaded, the file and
    those after it have not, and yet the manifest, which is written before
    the first upload, has the rows of all the files, with the address of the
    file that was refused and of every file after it. *)
Theorem send_files_failure_leaves_manifest :
  forall (self : t) (directory content_type : string)
         (entries before after : list DirEntry) (file : DirEntry)
         (e : Exception) (s : State),
    listdir (root_folder self +:+ "/" +:+ directory) = Some entries ->
    filter is_file entries = before ++ file :: after ->
    (forall f, In f before ->
               upload_blob (blob_of content_type f) = Return tt) ->
    upload_blob (blob_of content_type file) = Raise e ->
    exists s',
      send self directory content_type s = (Raise e, s') /\
      uploaded s' = uploaded s ++ map (blob_of content_type) before /\
      manifest s'
      = manifest s
        ++ _generate_csv_from_files self
             (map entry_name (before ++ file :: after)) /\
      forall f, In f (file :: after) ->
        In (url_base self +:+ entry_name f)
          (flat_map (@tl string)
             (map snd (_generate_csv_from_files self
                         (map entry_name (before ++ file :: after))))).
Proof.
  intros self directory content_type entries before after file e s
         Hdir Hfiles Hok Hfail.
  unfold send_files. rewrite Hdir, Hfiles.
  rewrite upload_loop_prefix by assumption. cbn [upload_loop].
  change {| blob_name := entry_name file; blob_data := content file;
            overwrite := true; content_type := content_type |}
    with (blob_of content_type file).
  rewrite Hfail. eexists. split; [reflexivity|].
  cbn [manifest uploaded]. split; [reflexivity|]. split; [reflexivity|].
  intros f Hf.
  apply (Permutation_in _
           (Permutation_sym
              (GrouperMore.rows_addresses self
                 (map entry_name (before ++ file :: after))))).
  apply in_map_iff. exists (entry_name f). split; [reflexivity|].
  apply in_map. apply in_or_app. now right.
Qed.

End SendFiles.

Lemma send_files_uploads_every_file_witness :
  exists s',
    send_files sample_listing accept_all GrouperSpec.sample_azure
      "images" "image/jpeg" empty_upload = (Return tt, s')
    /\ map blob_name (uploaded s') = ["img_cat.jpg"; "img_cat_1.jpg"]
    /\ map snd (manifest s')
       = [["img_cat"; "https://acct.blob.core.windows.net/pics/img_cat.jpg";
           "https://acct.blob.core.windows.net/pics/img_cat_1.jpg"]]
    /\ printed s'
       = ["Image [ img_cat.jpg ] upload completed. - 0/2";
          "Image [ img_cat_1.jpg ] upload completed. - 1/2"].
Proof.
  destruct (send_files_uploads_every_file sample_listing accept_all
              GrouperSpec.sample_azure "images" "image/jpeg"
              [ {| entry_name := "img_cat.jpg"; is_file := true;
                   content := [Byte.x01] |};
                {| entry_name := "old"; is_file := false; content := [] |};
                {| entry_name := "img_cat_1.jpg"; is_file := true;
                   content := [Byte.x02] |} ]
              empty_upload eq_refl (fun file _ => eq_refl))
    as (s' & Hrun & Hm & Hu & _ & Hp & _).
  exists s'. split; [exact Hrun|].
  rewrite Hu, Hm, Hp. repeat split; reflexivity.
Defined.

Lemma send_files_failure_leaves_manifest_witness :
  exists s',
    send_files sample_listing refuse_second GrouperSpec.sample_azure
      "images" "image/jpeg" empty_upload
    = (Raise (OtherException "HttpResponseError"), s')
    /\ map blob_name (uploaded s') = ["img_cat.jpg"]
    /\ map snd (manifest s')
       = [["img_cat"; "https://acct.blob.core.windows.net/pics/img_cat.jpg";
           "https://acct.blob.core.windows.net/pics/img_cat_1.jpg"]].
Proof.
  assert (Hok : forall f,
             In f [ {| entry_name := "img_cat.jpg"; is_file := true;
                       content := [Byte.x01] |} ] ->
             refuse_second (blob_of "image/jpeg" f) = Return tt).
  { intros f [<-|[]]. reflexivity. }
  destruct (send_files_failure_leaves_manifest sample_listing refuse_second
              GrouperSpec.sample_azure "images" "image/jpeg"
              [ {| entry_name := "img_cat.jpg"; is_file := true;
                   content := [Byte.x01] |};
                {| entry_name := "old"; is_file := false; content := [] |};
                {| entry_name := "img_cat_1.jpg"; is_file := true;
                   content := [Byte.x02] |} ]
              [ {| entry_name := "img_cat.jpg"; is_file := true;
                   content := [Byte.x01] |} ]
              []
              {| entry_name := "img_cat_1.jpg"; is_file := true;
                 content := [Byte.x02] |}
              (OtherException "HttpResponseError") empty_upload
              eq_refl eq_refl Hok eq_refl)
    as (s' & Hrun & Hu & Hm & _).
  exists s'. split; [exact Hrun|].
  rewrite Hu, Hm. split; reflexivity.
Defined.

End UploadFacts.

(** ** From the link extractor to the upload grouper *)

Module NamingFacts.

Import AzureManager LinksSpec GrouperSpec KeyFacts.

Lemma str_one_digit (k : Z) :
  1 <= k <= 9 ->
  exists d, is_digit d = true /\ Py.str k = String d "".
Proof.
  intro Hk.
  assert (H : k = 1 \/ k = 2 \/ k = 3 \/ k = 4 \/ k = 5 \/ k = 6 \/ k = 7
              \/ k = 8 \/ k = 9) by lia.
  destruct H as [->|[->|[->|[->|[->|[->|[->|[->| ->]]]]]]]];
    eexists; (split; [|reflexivity]); reflexivity.
Qed.

(** X20: the images of one CSV row are grouped under one key: when the
    prefix followed by the base has no dot and the pattern occurs nowhere in
    the name of the first image, the file names
    [{prefix}{identifier}.jpg] of the first ten work items of the row
    (identifiers [b], [b_1], ..., [b_9]) all have the key [{prefix}{b}]. *)
Theorem row_images_share_one_key :
  forall (name_prefix b : string) (k : Z),
    0 <= k <= 9 ->
    Py.contains "." (name_prefix +:+ b) = false ->
    Re.search end_string (name_prefix +:+ b +:+ ".jpg") = false ->
    base_name_of (name_prefix +:+ identifier b k +:+ ".jpg")
    = name_prefix +:+ b.
Proof.
  intros name_prefix b k Hk Hdot Hre. unfold identifier.
  destruct (Z.eqb_spec k 0) as [E|E].
  - rewrite <- KeyFacts.append_assoc.
    rewrite <- KeyFacts.append_assoc in Hre.
    now apply (base_name_plain (name_prefix +:+ b) "jpg").
  - destruct (str_one_digit k ltac:(lia)) as (d & Hd & ->).
    rewrite !KeyFacts.append_assoc. cbn [String.append].
    rewrite <- KeyFacts.append_assoc.
    now apply (base_name_numbered (name_prefix +:+ b) d).
Qed.

Lemma row_images_share_one_key_witness :
  base_name_of ("img_" +:+ identifier "cat" 0 +:+ ".jpg") = "img_cat"
  /\ base_name_of ("img_" +:+ identifier "cat" 9 +:+ ".jpg") = "img_cat".
Proof.
  assert (H0 : 0 <= 0 <= 9) by lia.
  assert (H9 : 0 <= 9 <= 9) by lia.
  split.
  - exact (row_images_share_one_key "img_" "cat" 0 H0 eq_refl eq_refl).
  - exact (row_images_share_one_key "img_" "cat" 9 H9 eq_refl eq_refl).
Defined.

End NamingFacts.
